(** * Expense tracker agent: tool layer, turn controller and identity context

    A shallow embedding of
      - [app/models], [app/schemas]            (records),
      - [app/controllers/expense_controller.py] (single and bulk operations),
      - [app/agents/agent.py]                   (tools, graph, memory),
      - [app/routers/agent_router.py]           (identity context per request),
    followed by the properties of the specification proved against it and
    by further properties of the same functions.

    Python values keep their dynamic shape where the code relies on it:
    attributes that [setattr] may overwrite with [None] are options, calls
    that may raise return an [outcome], and the database session is passed
    explicitly.  What the code takes from its libraries (pydantic's
    [model_fields_set], the ORM unit of work, [LIKE], [add_messages],
    conditional edges) is modelled next to the code that uses it. *)

From Stdlib Require Import ZArith List String Ascii Bool Lia.
From Stdlib Require Import Floats DecimalString.
Import ListNotations.
Open Scope string_scope.
Open Scope list_scope.
Open Scope Z_scope.

(** String concatenation, kept apart from list append. *)
Infix "+++" := String.append (right associativity, at level 60).

Set Implicit Arguments.

(* ===================================================================== *)
(** ** Python runtime: strings, truthiness, exceptions                    *)
(* ===================================================================== *)

Module Py.

(** Characters that cannot be written inside a literal. *)
Definition nl : string := String (ascii_of_nat 10) EmptyString.
Definition dquote : string := String (ascii_of_nat 34) EmptyString.

(** [str(n)] for an [int]. *)
Definition str_int (n : Z) : string := NilZero.string_of_int (Z.to_int n).

(** Two digits, padded on the left with a zero, as [%m] and [%d] print. *)
Definition pad2 (n : Z) : string :=
  if n <? 10 then "0" +++ str_int n else str_int n.

(** [str(x)] of an optional string inside an f-string: [None] prints as
    the word None. *)
Definition fmt_opt_str (o : option string) : string :=
  match o with Some s => s | None => "None" end.

(** Truthiness of [Optional[str]]: [None] and the empty string are falsy. *)
Definition truthy_str (o : option string) : bool :=
  match o with
  | Some EmptyString => false
  | Some _ => true
  | None => false
  end.

(** Truthiness of [Optional[int]]: [None] and [0] are falsy. *)
Definition truthy_int (o : option Z) : bool :=
  match o with
  | Some n => negb (n =? 0)
  | None => false
  end.

(** ASCII lower-casing, the case folding of [lower()] / [ILIKE]. *)
Definition lower_ascii (c : ascii) : ascii :=
  let n := nat_of_ascii c in
  if (Nat.leb 65 n && Nat.leb n 90)%bool then ascii_of_nat (n + 32) else c.

Definition lower (s : list ascii) : list ascii := map lower_ascii s.

(** Exceptions that reach the modelled code.  All of them derive from
    [Exception]. *)
Inductive exn :=
| HTTPException (status_code : Z) (detail : string)
| ValidationError (msg : string)       (* pydantic *)
| TypeError (msg : string)
| ValueError (msg : string)
| NameError (name : string)
| SQLAlchemyError (msg : string)
| ProviderError (msg : string).        (* raised by the hosted model *)

(** [str(e)]. *)
Definition str_exn (e : exn) : string :=
  match e with
  | HTTPException c d => str_int c +++ ": " +++ d
  | ValidationError m => m
  | TypeError m => m
  | ValueError m => m
  | NameError n => "name '" +++ n +++ "' is not defined"
  | SQLAlchemyError m => m
  | ProviderError m => m
  end.

Inductive outcome (A : Type) :=
| Return (a : A)
| Raise (e : exn).
Arguments Return {A} a.
Arguments Raise {A} e.

Definition bind {A B} (m : outcome A) (k : A -> outcome B) : outcome B :=
  match m with
  | Return a => k a
  | Raise e => Raise e
  end.

(** [isinstance(e, cls)] for the two classes named in [except] clauses. *)
Definition isinstance (e : exn) (cls : string) : bool :=
  if String.eqb cls "Exception" then true
  else if String.eqb cls "HTTPException" then
    match e with HTTPException _ _ => true | _ => false end
  else false.

Definition builtins : list string := ["Exception"; "ValueError"; "TypeError"; "NameError"].

(** [LOAD_GLOBAL name]: the module's globals, then the builtins. *)
Definition name_bound (globals : list string) (name : string) : bool :=
  existsb (String.eqb name) globals || existsb (String.eqb name) builtins.

(** The [except] clauses of one [try] statement, examined in order once
    the body has raised [e].  The class expression of a clause is
    evaluated before the match; when the name is unbound that evaluation
    raises [NameError], which leaves the whole statement: the later
    clauses of the same [try] are not consulted. *)
Fixpoint handle {R : Type} (globals : list string)
         (clauses : list (string * (exn -> R))) (uncaught : exn -> R)
         (e : exn) : R :=
  match clauses with
  | [] => uncaught e
  | (cls, h) :: rest =>
      if name_bound globals cls then
        if isinstance e cls then h e else handle globals rest uncaught e
      else uncaught (NameError cls)
  end.

End Py.
Import Py.

Notation "x <- m ;; k" := (Py.bind m (fun x => k))
  (at level 61, m at next level, right associativity).

(* ===================================================================== *)
(** ** [float] and the [:.2f] format                                      *)
(* ===================================================================== *)

Module PyFloat.

(** [num / den] rounded to the nearest integer, ties to even. *)
Definition round_half_even (num den : Z) : Z :=
  let q := num / den in
  let r := num mod den in
  if (den <? 2 * r) || ((2 * r =? den) && Z.odd q) then q + 1 else q.

(** [m * 2^e] in hundredths. *)
Definition hundredths (m : positive) (e : Z) : Z :=
  if 0 <=? e then 100 * Z.pos m * 2 ^ e
  else round_half_even (100 * Z.pos m) (2 ^ (- e)).

Definition fmt_hundredths (neg : bool) (n : Z) : string :=
  (if neg then "-" else EmptyString) +++ str_int (n / 100) +++ "." +++ pad2 (n mod 100).

(** [format(x, '.2f')]: the exact binary64 value, correctly rounded to two
    decimals with ties to even. *)
Definition format_2f (x : float) : string :=
  match Prim2SF x with
  | S754_zero s => fmt_hundredths s 0
  | S754_infinity s => if s then "-inf" else "inf"
  | S754_nan => "nan"
  | S754_finite s m e => fmt_hundredths s (hundredths m e)
  end.

(** [sum(gen)] starts from the int [0]; a [None] amount makes [+] raise. *)
Fixpoint sum_from (acc : float) (xs : list (option float)) : outcome float :=
  match xs with
  | [] => Return acc
  | Some x :: rest => sum_from (PrimFloat.add acc x) rest
  | None :: _ =>
      Raise (TypeError "unsupported operand type(s) for +: 'NoneType'")
  end.

Definition sum (xs : list (option float)) : outcome float := sum_from 0%float xs.

End PyFloat.


(* ===================================================================== *)
(** ** [datetime]                                                          *)
(* ===================================================================== *)

Module DT.

(** Wall-clock fields and an optional UTC offset in minutes ([tzinfo];
    [None] for a naive value). *)
Record datetime := mk_datetime {
  year : Z; month : Z; day : Z;
  hour : Z; minute : Z; second : Z; microsecond : Z;
  tzinfo : option Z
}.

(** Proleptic Gregorian ordinal, as [datetime.toordinal]. *)
Definition is_leap (y : Z) : bool :=
  (y mod 4 =? 0) && (negb (y mod 100 =? 0) || (y mod 400 =? 0)).

Definition days_before_year (y : Z) : Z :=
  let p := y - 1 in p * 365 + p / 4 - p / 100 + p / 400.

Definition days_in_month (y m : Z) : Z :=
  if m =? 2 then (if is_leap y then 29 else 28)
  else if (m =? 4) || (m =? 6) || (m =? 9) || (m =? 11) then 30
  else 31.

Definition days_before_month (y m : Z) : Z :=
  fold_left (fun acc k => acc + days_in_month y (Z.of_nat k))
            (seq 1 (Z.to_nat (m - 1))) 0.

Definition toordinal (d : datetime) : Z :=
  days_before_year (year d) + days_before_month (year d) (month d) + day d.

(** Microseconds on the time line; an aware value is shifted to UTC. *)
Definition instant (d : datetime) : Z :=
  let off := match tzinfo d with Some o => o | None => 0 end in
  ((((toordinal d * 24 + hour d) * 60 + minute d - off) * 60 + second d)
     * 1000000) + microsecond d.

(** [a > b] in Python: naive and aware values do not compare. *)
Definition gt (a b : datetime) : outcome bool :=
  match tzinfo a, tzinfo b with
  | None, None | Some _, Some _ => Return (instant b <? instant a)
  | _, _ => Raise (TypeError "can't compare offset-naive and offset-aware datetimes")
  end.

(** Comparison made by the store on a [DateTime] column (wall clock). *)
Definition db_le (a b : datetime) : bool :=
  instant (mk_datetime (year a) (month a) (day a) (hour a) (minute a)
                       (second a) (microsecond a) None)
  <=? instant (mk_datetime (year b) (month b) (day b) (hour b) (minute b)
                           (second b) (microsecond b) None).

(** [strftime('%Y-%m-%d')]. *)
Definition strftime_ymd (d : datetime) : string :=
  str_int (year d) +++ "-" +++ pad2 (month d) +++ "-" +++ pad2 (day d).

(** What pydantic reads back from [strftime('%Y-%m-%dT%H:%M:%S.%fZ')],
    when it reads it: the same wall clock, marked UTC by the trailing
    [Z]. *)
Definition reparse_iso_z (d : datetime) : datetime :=
  mk_datetime (year d) (month d) (day d) (hour d) (minute d) (second d)
              (microsecond d) (Some 0).

(** [strftime('%Y-%m-%dT%H:%M:%S.%fZ')] handed to a [datetime] field of a
    pydantic model.  [%Y] prints the year as it is, without padding, and
    the field takes a year of four digits only: for a year below 1000
    the model is refused. *)
Definition validate_iso_z (d : datetime) : outcome datetime :=
  if year d <? 1000 then
    Raise (ValidationError "ExpenseUpdate.date: Input should be a valid datetime")
  else Return (reparse_iso_z d).

End DT.

(* ===================================================================== *)
(** ** SQL [LIKE] / [ILIKE] and [=]                                       *)
(* ===================================================================== *)

Module Sql.

Definition pct : ascii := ascii_of_nat 37.   (* the wildcard for any run *)
Definition und : ascii := ascii_of_nat 95.   (* the wildcard for one character *)

(** [s LIKE p]. *)
Fixpoint like (p s : list ascii) : bool :=
  match p with
  | [] => match s with [] => true | _ :: _ => false end
  | c :: p' =>
      if Ascii.eqb c pct then
        (fix any (t : list ascii) : bool :=
           like p' t || match t with [] => false | _ :: t' => any t' end) s
      else
        match s with
        | [] => false
        | d :: s' => (Ascii.eqb c und || Ascii.eqb c d) && like p' s'
        end
  end.

(** [column.ilike(pattern)]: [lower(column) LIKE lower(pattern)]; a NULL
    column never matches. *)
Definition ilike (column : option string) (pattern : string) : bool :=
  match column with
  | Some v => like (lower (list_ascii_of_string pattern)) (lower (list_ascii_of_string v))
  | None => false
  end.

(** [column == value]: exact comparison, NULL never equal. *)
Definition eq_str (column : option string) (value : string) : bool :=
  match column with
  | Some v => String.eqb v value
  | None => false
  end.

End Sql.

(* ===================================================================== *)
(** ** [app/models] and [app/schemas]                                     *)
(* ===================================================================== *)

Module models_user.
(** The [expenses] relationship is reached through [Expense.user_id]. *)
Record User := mk_User {
  id : Z;
  username : string;
  email : string;
  hashed_password : string;
  created_at : DT.datetime
}.
End models_user.

Module models_expense.
(** A row of the [expense] table as the ORM object holds it.  The four
    attributes that [setattr] may overwrite are optional: nothing stops
    Python from storing [None] in them. *)
Record Expense := mk_Expense {
  id : Z;
  amount : option float;
  description : option string;
  category : option string;
  date : option DT.datetime;
  user_id : Z
}.
End models_expense.

Module schemas_expense.
Import DT.

Record ExpenseCreate := mk_ExpenseCreate {
  c_description : string;
  c_amount : float;
  c_category : string;
  c_date : datetime;
  c_user_id : Z
}.

(** [ExpenseCreate(description=..., amount=..., user_id=..., category=...,
    date=...)]: [description: str] is required, so [None] is refused. *)
Definition ExpenseCreate_init (description : option string) (amount : float)
           (user_id : Z) (category : string) (date : datetime)
  : outcome ExpenseCreate :=
  match description with
  | Some d => Return (mk_ExpenseCreate d amount category date user_id)
  | None => Raise (ValidationError "ExpenseCreate.description: Input should be a valid string")
  end.

Inductive field := F_description | F_amount | F_category | F_date.

Definition field_eqb (a b : field) : bool :=
  match a, b with
  | F_description, F_description | F_amount, F_amount
  | F_category, F_category | F_date, F_date => true
  | _, _ => false
  end.

(** One [key, value] item of a model dump. *)
Inductive item :=
| I_description (v : option string)
| I_amount (v : option float)
| I_category (v : option string)
| I_date (v : option datetime).

Definition item_key (i : item) : field :=
  match i with
  | I_description _ => F_description
  | I_amount _ => F_amount
  | I_category _ => F_category
  | I_date _ => F_date
  end.

(** [ExpenseUpdate]: every field optional with default [None]; pydantic
    records which fields the caller passed in [model_fields_set]. *)
Record ExpenseUpdate := mk_ExpenseUpdate {
  u_description : option string;
  u_amount : option float;
  u_category : option string;
  u_date : option datetime;
  model_fields_set : list field
}.

(** [expense_update.dict(exclude_unset=True)]: the fields in declaration
    order, keeping those that were passed to the constructor, whatever
    their value. *)
Definition dict_exclude_unset (u : ExpenseUpdate) : list item :=
  filter (fun i => existsb (field_eqb (item_key i)) (model_fields_set u))
         [I_description (u_description u); I_amount (u_amount u);
          I_category (u_category u); I_date (u_date u)].

Record ExpenseInDB := mk_ExpenseInDB {
  d_id : Z;
  d_description : string;
  d_amount : float;
  d_category : string;
  d_date : datetime;
  d_user_id : Z
}.

(** [ExpenseInDB.from_orm(expense)]: validation of the attributes against
    [description: str], [amount: float], [category: str],
    [date: datetime]. *)
Definition from_orm (e : models_expense.Expense) : outcome ExpenseInDB :=
  match models_expense.description e, models_expense.amount e,
        models_expense.category e, models_expense.date e with
  | Some d, Some a, Some c, Some t =>
      Return (mk_ExpenseInDB (models_expense.id e) d a c t (models_expense.user_id e))
  | None, _, _, _ => Raise (ValidationError "ExpenseInDB.description: Input should be a valid string")
  | _, None, _, _ => Raise (ValidationError "ExpenseInDB.amount: Input should be a valid number")
  | _, _, None, _ => Raise (ValidationError "ExpenseInDB.category: Input should be a valid string")
  | _, _, _, None => Raise (ValidationError "ExpenseInDB.date: Input should be a valid datetime")
  end.

End schemas_expense.

(* ===================================================================== *)
(** ** The store and the ORM session                                      *)
(* ===================================================================== *)

Module Store.
Import models_expense.

(** [write_fault]: when set, the store refuses every write at commit time
    with that message. *)
Record DB := mk_DB {
  users : list models_user.User;
  expenses : list Expense;
  next_id : Z;
  write_fault : option string
}.

(** A unit of work over [db]: objects changed, objects marked for
    deletion and new objects, none of them written before [commit]. *)
Record Session := mk_Session {
  db : DB;
  dirty : list Expense;
  deleted : list Expense;
  pending : list Expense
}.

(** [Session(engine)]. *)
Definition open (d : DB) : Session := mk_Session d [] [] [].

(** [session.get(User, user_id)]. *)
Definition get_user (s : Session) (uid : Z) : option models_user.User :=
  find (fun u => models_user.id u =? uid) (users (db s)).

(** [session.exec(select(Expense).where(...)).all()]. *)
Definition exec_select (s : Session) (where_ : Expense -> bool) : list Expense :=
  filter where_ (expenses (db s)).

(** [session.add(obj)] for an object already loaded and then changed. *)
Definition add (s : Session) (e : Expense) : Session :=
  mk_Session (db s) (dirty s ++ [e]) (deleted s) (pending s).

(** [session.add(obj)] for a new object. *)
Definition add_new (s : Session) (e : Expense) : Session :=
  mk_Session (db s) (dirty s) (deleted s) (pending s ++ [e]).

(** [session.delete(obj)]. *)
Definition delete (s : Session) (e : Expense) : Session :=
  mk_Session (db s) (dirty s) (deleted s ++ [e]) (pending s).

(** [session.rollback()]. *)
Definition rollback (s : Session) : Session := open (db s).

(** [UPDATE expense SET ... WHERE id = obj.id]. *)
Definition update_row (rows : list Expense) (obj : Expense) : list Expense :=
  map (fun r => if id r =? id obj then obj else r) rows.

(** [DELETE FROM expense WHERE id = obj.id]. *)
Definition delete_row (rows : list Expense) (obj : Expense) : list Expense :=
  filter (fun r => negb (id r =? id obj)) rows.

(** [INSERT]: the store assigns the primary key. *)
Definition insert_row (st : list Expense * Z) (obj : Expense) : list Expense * Z :=
  (fst st ++ [mk_Expense (snd st) (amount obj) (description obj) (category obj)
                         (date obj) (user_id obj)],
   snd st + 1).

Definition flush (s : Session) : DB :=
  let rows := fold_left update_row (dirty s) (expenses (db s)) in
  let rows := fold_left delete_row (deleted s) rows in
  let st := fold_left insert_row (pending s) (rows, next_id (db s)) in
  mk_DB (users (db s)) (fst st) (snd st) (write_fault (db s)).

(** [session.commit()]. *)
Definition commit (s : Session) : outcome unit * Session :=
  match write_fault (db s) with
  | Some m => (Raise (SQLAlchemyError m), s)
  | None => (Return tt, open (flush s))
  end.

(** Leaving [with Session(engine) as session:]: what was not committed
    is dropped. *)
Definition close (s : Session) : DB := db s.

(** Primary key: ids are distinct and below the next one to assign. *)
Definition well_formed (d : DB) : Prop :=
  NoDup (map id (expenses d)) /\ Forall (fun r => id r < next_id d) (expenses d).

End Store.

(* ===================================================================== *)
(** ** State and exceptions threaded through calls                        *)
(* ===================================================================== *)

Module Eff.

(** A computation over a state [S] that returns or raises. *)
Definition St (S A : Type) : Type := S -> outcome A * S.

Definition ret {S A} (a : A) : St S A := fun s => (Return a, s).
Definition throw {S A} (e : exn) : St S A := fun s => (Raise e, s).
Definition lift {S A} (o : outcome A) : St S A := fun s => (o, s).
Definition get_state {S} : St S S := fun s => (Return s, s).
Definition modify {S} (f : S -> S) : St S unit := fun s => (Return tt, f s).

Definition bindS {S A B} (m : St S A) (k : A -> St S B) : St S B :=
  fun s =>
    match m s with
    | (Return a, s') => k a s'
    | (Raise e, s') => (Raise e, s')
    end.

(** [try: body  except C1 as e: h1  except C2 as e: h2]. *)
Definition try_except {S A} (globals : list string) (body : St S A)
           (clauses : list (string * (exn -> St S A))) : St S A :=
  fun s =>
    match body s with
    | (Return a, s') => (Return a, s')
    | (Raise e, s') => handle globals clauses throw e s'
    end.

(** [with Session(engine) as session: body]. *)
Definition with_session {A} (body : St Store.Session A) : St Store.DB A :=
  fun d => let (r, s) := body (Store.open d) in (r, Store.close s).

End Eff.
Import Eff.

Notation "x <~ m ;; k" := (Eff.bindS m (fun x => k))
  (at level 61, m at next level, right associativity).

(* ===================================================================== *)
(** ** [app/controllers/expense_controller.py]                            *)
(* ===================================================================== *)

Module expense_controller.
Import models_expense schemas_expense Store.

(** Names bound at module level: the imports, then the definitions. *)
Definition globals : list string :=
  ["logging"; "List"; "Session"; "select"; "and_"; "HTTPException"; "status";
   "Depends"; "Dict"; "Any"; "Expense"; "ExpenseCreate"; "ExpenseUpdate";
   "ExpenseInDB"; "get_current_user"; "User"; "logger"; "console_handler";
   "formatter"; "get_expenses"; "create_expense"; "update_expense";
   "delete_expense"; "get_expenses_by_category";
   "update_expenses_by_category"; "delete_expenses_by_category"].

(** [setattr(expense, key, value)]. *)
Definition setattr (e : Expense) (i : item) : Expense :=
  match i with
  | I_description v => mk_Expense (id e) (amount e) v (category e) (date e) (user_id e)
  | I_amount v => mk_Expense (id e) v (description e) (category e) (date e) (user_id e)
  | I_category v => mk_Expense (id e) (amount e) (description e) v (date e) (user_id e)
  | I_date v => mk_Expense (id e) (amount e) (description e) (category e) v (user_id e)
  end.

(** [select(Expense).where(and_(Expense.category == category,
    Expense.user_id == current_user.id))]. *)
Definition in_category (category : string) (current_user : models_user.User)
           (e : Expense) : bool :=
  Sql.eq_str (models_expense.category e) category
  && (user_id e =? models_user.id current_user).

(** [for key, value in expense_update.dict(exclude_unset=True).items():
    setattr(expense, key, value)]. *)
Definition set_all (expense_update : ExpenseUpdate) (expense : Expense) : Expense :=
  let expense_data := dict_exclude_unset expense_update in
  fold_left setattr expense_data expense.

(** The body of [for expense in expenses:] in the bulk update. *)
Fixpoint update_each (expense_update : ExpenseUpdate) (expenses : list Expense)
         (updated_expenses : list ExpenseInDB)
  : St Session (list ExpenseInDB) :=
  match expenses with
  | [] => ret updated_expenses
  | expense :: rest =>
      let expense := set_all expense_update expense in
      _ <~ modify (fun s => add s expense) ;;
      v <~ lift (from_orm expense) ;;
      update_each expense_update rest (updated_expenses ++ [v])
  end.

Definition update_expenses_by_category (category : string)
           (expense_update : ExpenseUpdate) (current_user : models_user.User)
  : St Session (list ExpenseInDB) :=
  try_except globals
    (session <~ get_state ;;
     let expenses := exec_select session (in_category category current_user) in
     match expenses with
     | [] => throw (HTTPException 404
                      ("No expenses found in category '" +++ category +++ "'."))
     | _ :: _ =>
         updated_expenses <~ update_each expense_update expenses [] ;;
         _ <~ commit ;;
         (* session.refresh(expense) reloads what was just written *)
         ret updated_expenses
     end)
    [("HTTPException", fun he => throw he);
     ("Exception", fun e =>
        _ <~ modify rollback ;;
        throw (HTTPException 500
                 ("Failed to update expenses by category '" +++ category
                    +++ "': " +++ str_exn e)))].

Definition delete_each (expenses : list Expense) : St Session unit :=
  modify (fun s => fold_left delete expenses s).

Definition delete_expenses_by_category (category : string)
           (current_user : models_user.User)
  : St Session string :=
  try_except globals
    (session <~ get_state ;;
     let expenses := exec_select session (in_category category current_user) in
     match expenses with
     | [] => throw (HTTPException 404
                      ("No expenses found in category '" +++ category +++ "'."))
     | _ :: _ =>
         _ <~ delete_each expenses ;;
         _ <~ commit ;;
         ret ("Deleted " +++ str_int (Z.of_nat (List.length expenses))
                +++ " expenses in category '" +++ category +++ "'.")
     end)
    [("HTTPException", fun he => throw he);
     ("Exception", fun e =>
        _ <~ modify rollback ;;
        throw (HTTPException 500
                 ("Failed to delete expenses by category '" +++ category
                    +++ "': " +++ str_exn e)))].

End expense_controller.

(* ===================================================================== *)
(** ** [contextvars.ContextVar]                                           *)
(* ===================================================================== *)

Module contextvars.

(** The variable as one context sees it: [None] while no value was set
    there, so that [get] falls back on the declared default. *)
Definition ContextVar : Type := option (option Z).
Definition Token : Type := ContextVar.

(** [ContextVar("current_user_id", default=None)]. *)
Definition new : ContextVar := None.

Definition get (v : ContextVar) : option Z :=
  match v with
  | Some x => x
  | None => None
  end.

(** [token = var.set(x)]: the token remembers what was there. *)
Definition set (v : ContextVar) (x : option Z) : Token * ContextVar := (v, Some x).

(** [var.reset(token)]. *)
Definition reset (v : ContextVar) (token : Token) : ContextVar := token.

End contextvars.

(* ===================================================================== *)
(** ** [app/agents/agent.py]: the tools                                   *)
(* ===================================================================== *)

Module agent.
Import DT models_expense schemas_expense Store.

(** What the module takes from outside: [dateparser.parse], which gives
    [None] on text it cannot read, and [datetime.now()]. *)
Record Env := mk_Env {
  dateparser_parse : string -> outcome (option datetime);
  datetime_now : datetime
}.

(** Names bound at module level of [agent.py]: the imports, then the
    definitions, in order of appearance. *)
Definition globals : list string :=
  ["os"; "sys"; "traceback"; "load_dotenv"; "Session"; "select";
   "get_session"; "engine"; "MessagesState"; "StateGraph"; "START"; "END";
   "tools_condition"; "ToolNode"; "ChatGoogleGenerativeAI";
   "LLMSystemMessage"; "HumanMessage"; "AIMessage"; "SystemMessage";
   "List"; "Optional"; "Dict"; "Any"; "datetime";
   "get_expenses"; "create_expense"; "update_expenses_by_category";
   "delete_expenses_by_category"; "get_expenses_by_category";
   "ExpenseCreate"; "ExpenseUpdate"; "arrow"; "logging"; "Expense"; "User";
   "RemoveMessage"; "MemorySaver"; "contextvars"; "current_user_id";
   "logger"; "google_api_key"; "llm"; "dateparser";
   "tool_get_expenses"; "tool_create_expenses"; "tool_update_expenses";
   "tool_delete_expenses"; "tools"; "llm_with_tools"; "sys_msg";
   "TypedDict"; "Annotated"; "add_messages"; "AnyMessage"; "State";
   "assistant"; "summarize_conversation"; "should_continue"; "builder";
   "memory"; "compiled_graph"].

(** The dictionaries returned by the create, update and delete tools. *)
Inductive payload :=
| NoData
| Created (e : Expense)
| Updated (l : list ExpenseInDB).

Record ToolDict := mk_ToolDict {
  status : string;
  message : string;
  data : payload
}.

Definition error_dict (m : string) : ToolDict := mk_ToolDict "error" m NoData.

(** [dateparser.parse(d) if d else None]. *)
Definition parse_if_given (env : Env) (d : option string) : outcome (option datetime) :=
  match d with
  | Some s => if truthy_str d then dateparser_parse env s else Return None
  | None => Return None
  end.

Definition is_none {A} (o : option A) : bool :=
  match o with Some _ => false | None => true end.

(** The [filters] list built by the query tool. *)
Definition category_filter (category : option string) : list (Expense -> bool) :=
  match category with
  | Some c =>
      if truthy_str category
      then [fun e => Sql.ilike (models_expense.category e) ("%" +++ c +++ "%")]
      else []
  | None => []
  end.

Definition description_filter (description_keyword : option string)
  : list (Expense -> bool) :=
  match description_keyword with
  | Some k =>
      if truthy_str description_keyword
      then [fun e => Sql.ilike (description e) ("%" +++ k +++ "%")]
      else []
  | None => []
  end.

Definition on_date (p : datetime -> bool) (e : Expense) : bool :=
  match date e with
  | Some d => p d
  | None => false
  end.

Definition date_filter (parsed_start_date parsed_end_date : option datetime)
  : list (Expense -> bool) :=
  match parsed_start_date, parsed_end_date with
  | Some a, Some b => [on_date (fun d => db_le a d && db_le d b)]
  | Some a, None => [on_date (fun d => db_le a d)]
  | None, Some b => [on_date (fun d => db_le d b)]
  | None, None => []
  end.

Definition query_where (uid : Z) (filters : list (Expense -> bool)) (e : Expense) : bool :=
  (user_id e =? uid) && forallb (fun f => f e) filters.

(** One line of the listing. *)
Definition format_expense (e : Expense) : outcome string :=
  match amount e with
  | None => Raise (TypeError "unsupported format string passed to NoneType.__format__")
  | Some a =>
      Return ("ID: " +++ str_int (id e)
                +++ " | Description: " +++ fmt_opt_str (description e)
                +++ " | Amount: $" +++ PyFloat.format_2f a
                +++ " | Category: " +++ fmt_opt_str (models_expense.category e)
                +++ " | User ID: " +++ str_int (user_id e)
                +++ " | Date: " +++ match date e with
                                    | Some d => strftime_ymd d
                                    | None => "N/A"
                                    end)
  end.

Fixpoint format_all (l : list Expense) : outcome (list string) :=
  match l with
  | [] => Return []
  | e :: rest =>
      line <- format_expense e ;;
      lines <- format_all rest ;;
      Return (line :: lines)
  end.

Definition render (category : option string) (expenses : list Expense) : outcome string :=
  match expenses with
  | [] => Return "No expenses found with the specified criteria."
  | _ :: _ =>
      total_amount <- PyFloat.sum (map amount expenses) ;;
      lines <- format_all expenses ;;
      Return ("Here are your expenses for " +++ dquote +++ fmt_opt_str category
                +++ dquote +++ ":" +++ nl +++ String.concat nl lines
                +++ nl +++ nl +++ "Total: $" +++ PyFloat.format_2f total_amount)
  end.

Definition uid_of (user_id : option Z) : Z :=
  match user_id with Some n => n | None => 0 end.

(** The statement the query tool builds and the rows it gets back:
    [select(Expense).where(Expense.user_id == user_id)] narrowed by every
    entry of [filters]. *)
Definition select_expenses (session : Session) (user_id : Z)
           (category description_keyword : option string)
           (parsed_start_date parsed_end_date : option datetime) : list Expense :=
  let filters := category_filter category
                   ++ description_filter description_keyword
                   ++ date_filter parsed_start_date parsed_end_date in
  exec_select session (query_where user_id filters).

Definition tool_get_expenses (env : Env) (current_user_id : contextvars.ContextVar)
           (category start_date end_date description_keyword : option string)
  : St DB string :=
  let user_id := contextvars.get current_user_id in
  if negb (truthy_int user_id) then ret "Error: User ID is missing."
  else
    try_except globals
      (parsed_start_date <~ lift (parse_if_given env start_date) ;;
       parsed_end_date <~ lift (parse_if_given env end_date) ;;
       if truthy_str start_date && is_none parsed_start_date then
         ret ("Error: Unable to parse the start date '" +++ fmt_opt_str start_date
                +++ "'. Please use a valid date format.")
       else if truthy_str end_date && is_none parsed_end_date then
         ret ("Error: Unable to parse the end date '" +++ fmt_opt_str end_date
                +++ "'. Please use a valid date format.")
       else
         after <~ lift (match parsed_start_date, parsed_end_date with
                        | Some a, Some b => gt a b
                        | _, _ => Return false
                        end) ;;
         if (after : bool) then ret "Error: Start date cannot be after end date."
         else
           with_session
             (session <~ get_state ;;
              match get_user session (uid_of user_id) with
              | None => ret "Error: User not found."
              | Some current_user =>
                  let expenses := select_expenses session (uid_of user_id) category
                                    description_keyword parsed_start_date
                                    parsed_end_date in
                  lift (render category expenses)
              end))
      [("Exception", fun e => ret ("Error retrieving expenses: " +++ str_exn e))].

Definition tool_create_expenses (env : Env) (current_user_id : contextvars.ContextVar)
           (amount : float) (category : string) (description : option string)
  : St DB ToolDict :=
  let user_id := contextvars.get current_user_id in
  if negb (truthy_int user_id) then ret (error_dict "User ID is missing.")
  else
    try_except globals
      (let current_date := datetime_now env in
       expense_data <~ lift (ExpenseCreate_init description amount (uid_of user_id)
                                                category current_date) ;;
       db_expense <~ with_session
         ((* [db_expense.id] is the key the store assigns at commit, read
             back by [session.refresh]: the next free key *)
          next <~ (fun s => (Return (next_id (db s)), s)) ;;
          let db_expense :=
            mk_Expense next (Some (c_amount expense_data))
                       (Some (c_description expense_data))
                       (Some (c_category expense_data))
                       (Some (c_date expense_data)) (c_user_id expense_data) in
          _ <~ modify (fun s => add_new s db_expense) ;;
          _ <~ commit ;;
          ret db_expense) ;;
       ret (mk_ToolDict "success" "Expense stored successfully." (Created db_expense)))
      [("Exception", fun e => ret (error_dict (str_exn e)))].

(** [formatted_date] as [ExpenseUpdate(date=formatted_date)] takes it. *)
Definition formatted_date_of (parsed : option datetime) : outcome (option datetime) :=
  match parsed with
  | Some parsed_date => v <- validate_iso_z parsed_date ;; Return (Some v)
  | None => Return None
  end.

Definition http_detail (e : exn) : string :=
  match e with
  | HTTPException _ d => d
  | _ => str_exn e
  end.

Definition tool_update_expenses (env : Env) (current_user_id : contextvars.ContextVar)
           (category : string) (description : option string)
           (amount : option float) (date : option string)
  : St DB ToolDict :=
  let user_id := contextvars.get current_user_id in
  if negb (truthy_int user_id) then ret (error_dict "User ID is missing.")
  else
    try_except globals
      (parsed <~ lift (parse_if_given env date) ;;
       if truthy_str date && is_none parsed then
         ret (error_dict ("Unable to parse the date '" +++ fmt_opt_str date +++ "'."))
       else
         formatted_date <~ lift (formatted_date_of parsed) ;;
         let expense_update :=
           mk_ExpenseUpdate description amount (Some category) formatted_date
                            [F_description; F_amount; F_category; F_date] in
         r <~ with_session
           (session <~ get_state ;;
            match get_user session (uid_of user_id) with
            | None => ret (inl (error_dict "User not found."))
            | Some current_user =>
                updated_expenses <~
                  expense_controller.update_expenses_by_category
                    category expense_update current_user ;;
                ret (inr updated_expenses)
            end) ;;
         match r with
         | inl early => ret early
         | inr updated_expenses =>
             ret (mk_ToolDict "success"
                    ("Updated " +++ str_int (Z.of_nat (List.length updated_expenses))
                       +++ " expenses in category '" +++ category +++ "'.")
                    (Updated updated_expenses))
         end)
      [("HTTPException", fun he => ret (error_dict (http_detail he)));
       ("Exception", fun e => ret (error_dict (str_exn e)))].

Definition tool_delete_expenses (current_user_id : contextvars.ContextVar)
           (category : string)
  : St DB ToolDict :=
  let user_id := contextvars.get current_user_id in
  if negb (truthy_int user_id) then ret (error_dict "User ID is missing.")
  else
    try_except globals
      (r <~ with_session
         (session <~ get_state ;;
          match get_user session (uid_of user_id) with
          | None => ret (inl (error_dict "User not found."))
          | Some current_user =>
              deletion_result <~
                expense_controller.delete_expenses_by_category category current_user ;;
              ret (inr deletion_result)
          end) ;;
       match r with
       | inl early => ret early
       | inr deletion_result => ret (mk_ToolDict "success" deletion_result NoData)
       end)
      [("HTTPException", fun he => ret (error_dict (http_detail he)));
       ("Exception", fun e => ret (error_dict (str_exn e)))].

End agent.

(* ===================================================================== *)
(** ** Messages, the [add_messages] reducer and the graph runtime          *)
(* ===================================================================== *)

Module langgraph.

(** The part of langchain / langgraph that [agent.py] builds on: message
    classes, the [add_messages] reducer declared on [State.messages], the
    prebuilt [tools_condition] and the scheduling of a node's successors.
    These are the libraries' behaviours, written out so that the graph of
    [agent.py] can be run. *)

Record tool_call := mk_tool_call {
  tc_name : string;
  tc_args : string;
  tc_id : string
}.

Inductive message :=
| SystemMessage (id : option string) (content : string)
| HumanMessage (id : option string) (content : string)
| AIMessage (id : option string) (content : string) (tool_calls : list tool_call)
| ToolMessage (id : option string) (content : string)
| RemoveMessage (id : option string).

Definition message_id (m : message) : option string :=
  match m with
  | SystemMessage i _ | HumanMessage i _ | AIMessage i _ _
  | ToolMessage i _ | RemoveMessage i => i
  end.

Definition content (m : message) : string :=
  match m with
  | SystemMessage _ c | HumanMessage _ c | AIMessage _ c _ | ToolMessage _ c => c
  | RemoveMessage _ => EmptyString
  end.

Definition is_remove (m : message) : bool :=
  match m with RemoveMessage _ => true | _ => false end.

Definition with_id (m : message) (i : string) : message :=
  match m with
  | SystemMessage _ c => SystemMessage (Some i) c
  | HumanMessage _ c => HumanMessage (Some i) c
  | AIMessage _ c t => AIMessage (Some i) c t
  | ToolMessage _ c => ToolMessage (Some i) c
  | RemoveMessage _ => RemoveMessage (Some i)
  end.

Definition id_eqb (a b : option string) : bool :=
  match a, b with
  | Some x, Some y => String.eqb x y
  | None, None => true
  | _, _ => false
  end.

Definition has_id (i : option string) (l : list message) : bool :=
  existsb (fun m => id_eqb (message_id m) i) l.

(** Messages that come without an id receive a fresh one; [uuid4 k] is
    the k-th identifier drawn. *)
Fixpoint ensure_ids (uuid4 : nat -> string) (k : nat) (l : list message) : list message :=
  match l with
  | [] => []
  | m :: rest =>
      match message_id m with
      | Some _ => m :: ensure_ids uuid4 k rest
      | None => with_id m (uuid4 k) :: ensure_ids uuid4 (S k) rest
      end
  end.

(** The merge loop of [add_messages]: a message whose id is already
    present replaces it, or marks it for removal when it is a
    [RemoveMessage]; any other message is appended, and removing an id
    that is not there is an error.  The reducer keeps the ids of [merged]
    distinct, so replacing by id touches one message. *)
Fixpoint merge (merged : list message) (ids_to_remove : list (option string))
         (right : list message) : outcome (list message) :=
  match right with
  | [] =>
      Return (filter (fun m => negb (existsb (id_eqb (message_id m)) ids_to_remove))
                     merged)
  | m :: rest =>
      if has_id (message_id m) merged then
        if is_remove m then merge merged (message_id m :: ids_to_remove) rest
        else
          merge (map (fun x => if id_eqb (message_id x) (message_id m) then m else x)
                     merged)
                (filter (fun i => negb (id_eqb i (message_id m))) ids_to_remove)
                rest
      else if is_remove m then
        Raise (ValueError "Attempting to delete a message with an ID that doesn't exist")
      else merge (merged ++ [m]) ids_to_remove rest
  end.

Definition add_messages (uuid4 : nat -> string) (left right : list message)
  : outcome (list message) :=
  let left := ensure_ids uuid4 0 left in
  let right := ensure_ids uuid4 (List.length left) right in
  merge left [] right.

(** [langgraph.prebuilt.tools_condition]: route on the last message. *)
Definition requests_tools (m : message) : bool :=
  match m with
  | AIMessage _ _ (_ :: _) => true
  | _ => false
  end.

Fixpoint last_message (l : list message) : option message :=
  match l with
  | [] => None
  | [m] => Some m
  | _ :: rest => last_message rest
  end.

Definition tools_condition (messages : list message) : outcome string :=
  match last_message messages with
  | None => Raise (ValueError "No messages found in input state to tool_edge")
  | Some m => Return (if requests_tools m then "tools" else "__end__")
  end.

Definition START : string := "__start__".
Definition END_ : string := "__end__".

(** A graph under construction: plain edges and, per node, the routing
    functions registered with [add_conditional_edges].  Each call adds a
    branch of its own; a node may carry several. *)
Record StateGraph (St : Type) := mk_StateGraph {
  nodes : list string;
  edges : list (string * string);
  branches : list (string * (St -> outcome string))
}.

Definition empty_graph {St} : StateGraph St := mk_StateGraph [] [] [].

Definition add_node {St} (g : StateGraph St) (name : string) : StateGraph St :=
  mk_StateGraph (nodes g ++ [name]) (edges g) (branches g).

Definition add_edge {St} (g : StateGraph St) (src dst : string) : StateGraph St :=
  mk_StateGraph (nodes g) (edges g ++ [(src, dst)]) (branches g).

Definition add_conditional_edges {St} (g : StateGraph St) (src : string)
           (path : St -> outcome string) : StateGraph St :=
  mk_StateGraph (nodes g) (edges g) (branches g ++ [(src, path)]).

Fixpoint collect {A} (l : list (outcome A)) : outcome (list A) :=
  match l with
  | [] => Return []
  | o :: rest => a <- o ;; r <- collect rest ;; Return (a :: r)
  end.

(** The nodes scheduled once [node] has run and left [state]: the targets
    of its plain edges and the answer of every routing function
    registered on it; [END] schedules nothing. *)
Definition triggered {St} (g : StateGraph St) (node : string) (state : St)
  : outcome (list string) :=
  let fixed := map snd (filter (fun e => String.eqb (fst e) node) (edges g)) in
  routed <- collect (map (fun b => snd b state)
                         (filter (fun b => String.eqb (fst b) node) (branches g))) ;;
  Return (filter (fun n => negb (String.eqb n END_)) (fixed ++ routed)).

End langgraph.

(* ===================================================================== *)
(** ** [app/agents/agent.py]: assistant, memory and the graph             *)
(* ===================================================================== *)

Module agent_graph.
Import langgraph.

(** [class State(TypedDict)]: [summary] may be missing from the dict. *)
Record State := mk_State {
  messages : list message;
  summary : option string
}.

(** What a node returns: the keys it wants to write. *)
Record Update := mk_Update {
  upd_messages : list message;
  upd_summary : option string
}.

(** Writing an update: [messages] goes through [add_messages], [summary]
    is overwritten when the key is present. *)
Definition apply_update (uuid4 : nat -> string) (state : State) (u : Update)
  : outcome State :=
  ms <- add_messages uuid4 (messages state) (upd_messages u) ;;
  Return (mk_State ms match upd_summary u with
                      | Some s => Some s
                      | None => summary state
                      end).

(** [state.get("summary", "")]. *)
Definition get_summary (state : State) : string :=
  match summary state with Some s => s | None => EmptyString end.

Section Nodes.
(** [llm_with_tools.invoke] and the persona text [sys_msg.content]. *)
Variable llm_with_tools_invoke : list message -> outcome message.
Variable sys_msg_content : string.

Definition assistant (state : State) : outcome Update :=
  let summary := get_summary state in
  let messages :=
    if truthy_str (Some summary) then
      SystemMessage None ("Summary of conversation earlier: " +++ summary
                            +++ nl +++ nl +++ sys_msg_content)
        :: messages state
    else SystemMessage None sys_msg_content :: messages state in
  response <- llm_with_tools_invoke messages ;;
  Return (mk_Update [response] None).

(** [l[:-2]]. *)
Definition all_but_last_two {A} (l : list A) : list A :=
  firstn (List.length l - 2) l.

Definition summarize_conversation (state : State) : outcome Update :=
  let summary := get_summary state in
  let summary_message :=
    if truthy_str (Some summary) then
      "This is summary of the conversation to date: " +++ summary +++ nl +++ nl
        +++ "Extend the summary by taking into account the new messages above:"
    else "Create a summary of the conversation above:" in
  let prompt := messages state ++ [HumanMessage None summary_message] in
  response <- llm_with_tools_invoke prompt ;;
  let delete_messages :=
    map (fun m => RemoveMessage (message_id m)) (all_but_last_two (messages state)) in
  Return (mk_Update delete_messages (Some (content response))).
End Nodes.

Definition should_continue (state : State) : outcome string :=
  if (6 <? List.length (messages state))%nat then Return "summarize_conversation"
  else Return END_.

(** The graph, edge by edge as [agent.py] builds it. *)
Definition builder : StateGraph State :=
  let b := empty_graph in
  let b := add_node b "assistant" in
  let b := add_node b "tools" in
  let b := add_node b "summarize_conversation" in
  let b := add_edge b START "assistant" in
  let b := add_conditional_edges b "assistant" (fun s => tools_condition (messages s)) in
  let b := add_edge b "tools" "assistant" in
  let b := add_conditional_edges b "assistant" should_continue in
  let b := add_edge b "summarize_conversation" END_ in
  b.

End agent_graph.

(* ===================================================================== *)
(** ** [app/routers/agent_router.py]                                      *)
(* ===================================================================== *)

Module agent_router.
Import langgraph agent_graph.

Definition globals : list string :=
  ["APIRouter"; "Depends"; "HTTPException"; "status"; "AgentQueryRequest";
   "AgentQueryResponse"; "compiled_graph"; "current_user_id"; "logging";
   "HumanMessage"; "AIMessage"; "SystemMessage"; "get_current_user"; "User";
   "contextvars"; "router"; "logger"; "query_agent"].

(** Everything a turn can reach: the identity slot, the expense store and
    the checkpointed threads. *)
Record World := mk_World {
  current_user_id : contextvars.ContextVar;
  store : Store.DB;
  threads : list (string * State)
}.

Definition set_current_user_id (w : World) (v : contextvars.ContextVar) : World :=
  mk_World v (store w) (threads w).

(** [try: body  finally: cleanup]: the cleanup runs on both exits and the
    exception, if any, continues afterwards. *)
Definition try_finally {S A} (body : St S A) (cleanup : S -> S) : St S A :=
  fun s => let (r, s') := body s in (r, cleanup s').

Definition is_ai (m : message) : bool :=
  match m with AIMessage _ _ _ => true | _ => false end.

(** [next((msg for msg in reversed(messages) if isinstance(msg,
    AIMessage)), None)]. *)
Definition last_ai_message (messages : list message) : option message :=
  find is_ai (rev messages).

Section Endpoint.
(** [compiled_graph.invoke(input, config)]: one whole turn. *)
Variable compiled_graph_invoke : string -> list message -> St World State.

Definition query_agent (request_messages : string) (current_user : models_user.User)
  : St World string :=
  try_except globals
    (let thread_id := "1" in
     let human_message := HumanMessage None request_messages in
     let messages := [human_message] in
     token <~ (fun w =>
                 let (token, v) := contextvars.set (current_user_id w)
                                     (Some (models_user.id current_user)) in
                 (Return token, set_current_user_id w v)) ;;
     response_state <~
       try_finally (compiled_graph_invoke thread_id messages)
                   (fun w => set_current_user_id w
                               (contextvars.reset (current_user_id w) token)) ;;
     (* the state's [messages] is a list, so the branch on
        [isinstance(messages, dict)] is not taken *)
     match agent_graph.messages response_state with
     | [] => throw (ValueError "No messages returned from the agent.")
     | _ :: _ =>
         match last_ai_message (agent_graph.messages response_state) with
         | None => throw (ValueError "No AI message found in the response.")
         | Some assistant_message => ret (content assistant_message)
         end
     end)
    [("Exception", fun e => throw (HTTPException 500 (str_exn e)))].
End Endpoint.

End agent_router.

(* ===================================================================== *)
(** ** Sample data used to exercise the statements                        *)
(* ===================================================================== *)

Module Sample.
Import DT models_expense Store agent langgraph agent_graph.

Definition day (y m d : Z) : datetime := mk_datetime y m d 0 0 0 0 None.

(** A parser that knows two dates and gives [None] on anything else. *)
Definition env : Env :=
  mk_Env (fun s =>
            if String.eqb s "1 January 2024" then Return (Some (day 2024 1 1))
            else if String.eqb s "25 January 2024" then Return (Some (day 2024 1 25))
            else Return None)
         (day 2024 3 5).

Definition alice : models_user.User :=
  models_user.mk_User 1 "alice" "alice@example.org" "x" (day 2023 12 1).
Definition bob : models_user.User :=
  models_user.mk_User 2 "bob" "bob@example.org" "y" (day 2023 12 2).

Definition flight : Expense :=
  mk_Expense 1 (Some 200%float) (Some "Flight") (Some "Travel") (Some (day 2024 1 5)) 1.
Definition lunch : Expense :=
  mk_Expense 2 (Some 30%float) (Some "Lunch") (Some "food") (Some (day 2024 1 10)) 1.
Definition train : Expense :=
  mk_Expense 3 (Some 75.5%float) (Some "Train") (Some "Travel") (Some (day 2024 2 1)) 2.

Definition snack : Expense :=
  mk_Expense 5 (Some 3.5%float) (Some "Crisps") (Some "Food") (Some (day 2024 2 2)) 2.

Definition db0 : DB := mk_DB [alice; bob] [flight; lunch; train] 4 None.

Definition dinner : Expense :=
  mk_Expense 7 (Some 42%float) (Some "Dinner") (Some "Food") (Some (day 2024 1 12)) 1.

(** Alice holds one record under "food" and one under "Food". *)
Definition db2 : DB := mk_DB [alice; bob] [lunch; dinner] 8 None.

(** A store in which alice has nothing under "Food" yet, while bob has. *)
Definition db1 : DB := mk_DB [alice; bob] [flight; train; snack] 6 None.

(** The identity slot while a request of alice is served. *)
Definition as_alice : contextvars.ContextVar := Some (Some 1).

Definition ask (i : string) : message := HumanMessage (Some i) "How much did I spend?".
Definition answer (i : string) : message := AIMessage (Some i) "You spent $230.00." [].
Definition call (i : string) : message :=
  AIMessage (Some i) EmptyString [mk_tool_call "tool_get_expenses" "{}" "call-1"].

(** Seven retained messages, the last one a request for a tool. *)
Definition seven_with_call : State :=
  mk_State [ask "m1"; answer "m2"; ask "m3"; answer "m4"; ask "m5"; answer "m6"; call "m7"]
           None.

Definition seven_plain : State :=
  mk_State [ask "m1"; answer "m2"; ask "m3"; answer "m4"; ask "m5"; answer "m6"; answer "m7"]
           (Some "Earlier: totals were discussed.").

(** A model that always answers the same text. *)
Definition echo_llm (reply : string) (prompt : list message) : outcome message :=
  Return (AIMessage (Some "run-1") reply []).

Definition uuid4 (k : nat) : string := "uuid-" +++ str_int (Z.of_nat k).

End Sample.

(* ===================================================================== *)
(** ** Vocabulary of the statements                                       *)
(* ===================================================================== *)

Module Spec.
Import models_expense schemas_expense Store agent.

(** Validation of a whole list, stopping at the first refusal. *)
Fixpoint validate_all (l : list Expense) : outcome (list ExpenseInDB) :=
  match l with
  | [] => Return []
  | e :: rest =>
      v <- from_orm e ;;
      vs <- validate_all rest ;;
      Return (v :: vs)
  end.

(** The record belongs to the identity held by the slot. *)
Definition owned (current_user_id : contextvars.ContextVar) (e : Expense) : bool :=
  match contextvars.get current_user_id with
  | Some u => user_id e =? u
  | None => false
  end.

(** The rows of the other users. *)
Definition foreign_rows (current_user_id : contextvars.ContextVar) (d : DB) : list Expense :=
  filter (fun e => negb (owned current_user_id e)) (expenses d).

(** Every record carried by a tool result belongs to [uid]. *)
Definition payload_owned (uid : Z) (p : payload) : Prop :=
  match p with
  | NoData => True
  | Created e => user_id e = uid
  | Updated l => Forall (fun v => d_user_id v = uid) l
  end.

Definition result_owned (uid : Z) (r : outcome ToolDict) : Prop :=
  match r with
  | Return t => payload_owned uid (data t)
  | Raise _ => True
  end.

(** The detail of the controller's 404. *)
Definition not_found_detail (category : string) : string :=
  "No expenses found in category '" +++ category +++ "'.".

(** The text expected for rejected dates, by order of the checks: an
    unreadable start, an unreadable end, a start after the end. *)
Definition rejected_dates_text (start_date end_date : option string)
           (parsed_start_date parsed_end_date : option DT.datetime) : string :=
  if truthy_str start_date && is_none parsed_start_date then
    "Error: Unable to parse the start date '" +++ fmt_opt_str start_date
      +++ "'. Please use a valid date format."
  else if truthy_str end_date && is_none parsed_end_date then
    "Error: Unable to parse the end date '" +++ fmt_opt_str end_date
      +++ "'. Please use a valid date format."
  else "Error: Start date cannot be after end date.".

(** [inner] occurs in [outer] once letter case is ignored. *)
Definition contains_ci (outer inner : string) : Prop :=
  exists pre post,
    lower (list_ascii_of_string outer)
    = pre ++ lower (list_ascii_of_string inner) ++ post.

(** No [LIKE] wildcard among the characters. *)
Definition wildcard_free (s : string) : Prop :=
  Forall (fun c => c <> Sql.pct /\ c <> Sql.und) (list_ascii_of_string s).

End Spec.

(* ===================================================================== *)
(** ** [expense_controller.py]: the functions behind the REST routes      *)
(* ===================================================================== *)

Module expense_controller_crud.
Import models_expense schemas_expense Store expense_controller.

(** [[ExpenseInDB.from_orm(expense) for expense in expenses]]: the first
    refusal ends the comprehension. *)
Fixpoint from_orm_each (expenses : list Expense) : outcome (list ExpenseInDB) :=
  match expenses with
  | [] => Return []
  | expense :: rest =>
      v <- from_orm expense ;;
      vs <- from_orm_each rest ;;
      Return (v :: vs)
  end.

(** [session.get(Expense, expense_id)]. *)
Definition get_expense (s : Session) (expense_id : Z) : option Expense :=
  find (fun e => id e =? expense_id) (expenses (db s)).

Definition get_expenses (current_user : models_user.User)
  : St Session (list ExpenseInDB) :=
  session <~ get_state ;;
  let expenses :=
    exec_select session (fun e => user_id e =? models_user.id current_user) in
  lift (from_orm_each expenses).

Definition create_expense (expense_data : ExpenseCreate)
           (current_user : models_user.User)
  : St Session ExpenseInDB :=
  try_except expense_controller.globals
    ((* the key is assigned by the store at commit and read back by
        [session.refresh]: the next free key *)
     next <~ (fun s => (Return (next_id (db s)), s)) ;;
     let db_expense :=
       mk_Expense next (Some (c_amount expense_data))
                  (Some (c_description expense_data))
                  (Some (c_category expense_data))
                  (Some (c_date expense_data)) (c_user_id expense_data) in
     (* db_expense.user_id = current_user.id *)
     let db_expense :=
       mk_Expense (id db_expense) (amount db_expense) (description db_expense)
                  (category db_expense) (date db_expense)
                  (models_user.id current_user) in
     _ <~ modify (fun s => add_new s db_expense) ;;
     _ <~ commit ;;
     lift (from_orm db_expense))
    [("Exception", fun e =>
        _ <~ modify rollback ;;
        throw (HTTPException 500 ("Failed to create expense: " +++ str_exn e)))].

(** The columns [amount], [description], [category] and [date] are
    declared without [Optional]: the table refuses a row in which one of
    them is NULL. *)
Definition not_null (e : Expense) : bool :=
  match amount e, description e, category e, date e with
  | Some _, Some _, Some _, Some _ => true
  | _, _, _, _ => false
  end.

(** [session.commit()] with one changed row, which the table checks. *)
Definition commit_row (e : Expense) : St Session unit :=
  fun s =>
    if not_null e then commit s
    else (Raise (SQLAlchemyError "NOT NULL constraint failed"), s).

Definition update_expense (expense_id : Z) (expense : ExpenseUpdate)
           (current_user : models_user.User)
  : St Session ExpenseInDB :=
  session <~ get_state ;;
  match get_expense session expense_id with
  | None => throw (HTTPException 404 "Expense not found")
  | Some db_expense =>
      if negb (user_id db_expense =? models_user.id current_user) then
        throw (HTTPException 403 "Not authorized to update this expense")
      else
        let db_expense := set_all expense db_expense in
        _ <~ modify (fun s => add s db_expense) ;;
        _ <~ commit_row db_expense ;;
        lift (from_orm db_expense)
  end.

Definition delete_expense (expense_id : Z) (current_user : models_user.User)
  : St Session string :=
  session <~ get_state ;;
  match get_expense session expense_id with
  | None => throw (HTTPException 404 "Expense not found")
  | Some expense =>
      if negb (user_id expense =? models_user.id current_user) then
        throw (HTTPException 403 "Not authorized to delete this expense")
      else
        _ <~ modify (fun s => delete s expense) ;;
        _ <~ commit ;;
        ret "Expense deleted"
  end.

Definition get_expenses_by_category (category : string)
           (current_user : models_user.User)
  : St Session (list ExpenseInDB) :=
  session <~ get_state ;;
  let expenses := exec_select session (in_category category current_user) in
  lift (from_orm_each expenses).

End expense_controller_crud.

(* ===================================================================== *)
(** ** Vocabulary of the further statements                               *)
(* ===================================================================== *)

Module SpecMore.
Import models_expense schemas_expense Store.

(** The field was passed when the update was built. *)
Definition is_set (f : field) (u : ExpenseUpdate) : bool :=
  existsb (field_eqb f) (model_fields_set u).

(** The rows that do not belong to [current_user]. *)
Definition rows_of_others (current_user : models_user.User) (d : DB) : list Expense :=
  filter (fun e => negb (user_id e =? models_user.id current_user)) (expenses d).

(** The rows of [uid]. *)
Definition rows_of (uid : Z) (d : DB) : list Expense :=
  filter (fun e => user_id e =? uid) (expenses d).

(** The validated form of a row whose four attributes are present. *)
Definition in_db (i : Z) (description : string) (amount : float) (category : string)
           (date : DT.datetime) (uid : Z) : ExpenseInDB :=
  mk_ExpenseInDB i description amount category date uid.

Definition is_http (status_code : Z) (e : exn) : Prop :=
  exists detail, e = HTTPException status_code detail.

(** A text filter of the query tool holds on a column: no filter, an
    empty filter, or a value that contains the filter, letter case
    ignored. *)
Definition text_matches (filter_text column : option string) : Prop :=
  match filter_text with
  | None => True
  | Some c => c = EmptyString \/ exists v, column = Some v /\ Spec.contains_ci v c
  end.

(** The backslash, which some stores read in a [LIKE] pattern as an
    escape for the character that follows. *)
Definition backslash : ascii := ascii_of_nat 92.

Definition no_escape (s : string) : Prop := ~ In backslash (list_ascii_of_string s).

(** A text that every store reads literally in a [LIKE] pattern. *)
Definition plain_text (s : string) : Prop := Spec.wildcard_free s /\ no_escape s.

(** The position of a value on the time line by its wall clock alone. *)
Definition wall (t : DT.datetime) : Z :=
  DT.instant (DT.mk_datetime (DT.year t) (DT.month t) (DT.day t) (DT.hour t)
                             (DT.minute t) (DT.second t) (DT.microsecond t) None).

(** A date column lies within the bounds that were given, both
    included. *)
Definition in_range (a b : option DT.datetime) (column : option DT.datetime) : Prop :=
  match a, b with
  | None, None => True
  | _, _ =>
      exists t, column = Some t
                /\ (forall x, a = Some x -> wall x <= wall t)
                /\ (forall y, b = Some y -> wall t <= wall y)
  end.

(** A date as a [DateTime] column keeps it: the wall clock, without time
    zone. *)
Definition naive (t : DT.datetime) : DT.datetime :=
  DT.mk_datetime (DT.year t) (DT.month t) (DT.day t) (DT.hour t)
                 (DT.minute t) (DT.second t) (DT.microsecond t) None.

(** A row as the table gives it back. *)
Definition as_stored (r : Expense) : Expense :=
  mk_Expense (id r) (amount r) (description r) (category r)
             (option_map naive (date r)) (user_id r).

(** The row a bulk update through the tool leaves in place of [r], as
    the session holds it before the commit. *)
Definition rewritten (description : string) (amount : float) (category : string)
           (date : DT.datetime) (r : Expense) : Expense :=
  mk_Expense (id r) (Some amount) (Some description) (Some category)
             (Some (DT.reparse_iso_z date)) (user_id r).

(** The system message the assistant node puts before the history. *)
Definition system_prompt (sys_msg_content : string) (state : agent_graph.State) : string :=
  if truthy_str (Some (agent_graph.get_summary state)) then
    "Summary of conversation earlier: " +++ agent_graph.get_summary state
      +++ nl +++ nl +++ sys_msg_content
  else sys_msg_content.

(** A turn that appends one answer to its input and touches nothing
    else. *)
Definition replying (reply : string) (thread_id : string)
           (input : list langgraph.message)
  : St agent_router.World agent_graph.State :=
  fun w =>
    (Return (agent_graph.mk_State
               (input ++ [langgraph.AIMessage (Some "run-1") reply []]) None),
     w).

End SpecMore.

(* ===================================================================== *)
(** * Properties                                                          *)
(* ===================================================================== *)

Import models_expense schemas_expense Store agent expense_controller Spec.

Unset Implicit Arguments.

(** Sanity checks of the embedded library behaviour. *)

Example format_2f_examples :
  PyFloat.format_2f 50%float = "50.00" /\
  PyFloat.format_2f 0.125%float = "0.12" /\
  PyFloat.format_2f 1234.5%float = "1234.50".
Proof. vm_compute. repeat split. Qed.

Example ilike_examples :
  Sql.ilike (Some "Food") "%food%" = true /\
  Sql.ilike (Some "Fast Food") "%FOOD%" = true /\
  Sql.ilike (Some "Travel") "%food%" = false /\
  Sql.ilike (Some "Food") "%f_od%" = true /\
  Sql.ilike None "%food%" = false.
Proof. vm_compute. repeat split. Qed.

(* --------------------------------------------------------------------- *)
(** ** Missing identity                                                   *)
(* --------------------------------------------------------------------- *)

Lemma truthy_int_none : truthy_int None = false.
Proof. reflexivity. Qed.

(** C6.  While the identity slot holds no user id, each of the four tools
    returns its "User ID is missing" result, as a value and not as an
    exception, whatever the store contains, and hands the store back
    untouched. *)
Theorem missing_identity_is_structured_failure :
  forall (env : Env) (current_user_id : contextvars.ContextVar) (d : DB),
    contextvars.get current_user_id = None ->
    (forall category start_date end_date description_keyword,
        tool_get_expenses env current_user_id category start_date end_date
                          description_keyword d
        = (Return "Error: User ID is missing.", d))
    /\ (forall amount category description,
           tool_create_expenses env current_user_id amount category description d
           = (Return (error_dict "User ID is missing."), d))
    /\ (forall category description amount date,
           tool_update_expenses env current_user_id category description amount date d
           = (Return (error_dict "User ID is missing."), d))
    /\ (forall category,
           tool_delete_expenses current_user_id category d
           = (Return (error_dict "User ID is missing."), d)).
Proof.
  intros env cv d Hnone.
  unfold tool_get_expenses, tool_create_expenses, tool_update_expenses,
    tool_delete_expenses.
  rewrite Hnone, truthy_int_none; simpl.
  repeat split; reflexivity.
Qed.

Lemma missing_identity_is_structured_failure_witness :
  tool_delete_expenses contextvars.new "Travel" Sample.db0
  = (Return (error_dict "User ID is missing."), Sample.db0).
Proof.
  apply (missing_identity_is_structured_failure Sample.env contextvars.new Sample.db0).
  reflexivity.
Defined.

(* --------------------------------------------------------------------- *)
(** ** Identity context around a turn                                     *)
(* --------------------------------------------------------------------- *)

Import langgraph agent_graph agent_router.

(** C5.  Whatever the turn does (return, raise, even write the slot), it
    is started with the slot holding the caller's id, and once
    [query_agent] is over the slot is back to what it held before the
    request; a slot that was unset before is unset again, so a later read
    sees no identity. *)
Theorem identity_context_set_then_restored :
  forall (compiled_graph_invoke : string -> list message -> St World State)
         (request_messages : string) (current_user : models_user.User) (w : World),
    let during := set_current_user_id w (Some (Some (models_user.id current_user))) in
    let after := snd (query_agent compiled_graph_invoke request_messages current_user w) in
    contextvars.get (current_user_id during) = Some (models_user.id current_user)
    /\ after = set_current_user_id
                 (snd (compiled_graph_invoke "1" [HumanMessage None request_messages] during))
                 (current_user_id w)
    /\ current_user_id after = current_user_id w
    /\ (current_user_id w = contextvars.new -> contextvars.get (current_user_id after) = None).
Proof.
  intros invoke req u w during after.
  assert (Hafter : after = set_current_user_id
                     (snd (invoke "1" [HumanMessage None req] during)) (current_user_id w)).
  { subst after during.
    unfold query_agent, try_except, bindS, try_finally, contextvars.set,
      contextvars.reset; simpl.
    destruct (invoke "1" [HumanMessage None req]
                     (set_current_user_id w (Some (Some (models_user.id u)))))
      as [[st | e] w'] eqn:Hrun; simpl.
    - destruct (messages st) as [| m ms]; simpl; [reflexivity |].
      destruct (last_ai_message (m :: ms)); reflexivity.
    - reflexivity. }
  repeat split.
  - exact Hafter.
  - rewrite Hafter. reflexivity.
  - intros Hnew. rewrite Hafter. simpl. rewrite Hnew. reflexivity.
Qed.

(* --------------------------------------------------------------------- *)
(** ** Routing after the assistant node                                   *)
(* --------------------------------------------------------------------- *)

Lemma triggered_after_assistant :
  forall (st : State) (m : message),
    last_message (messages st) = Some m ->
    triggered builder "assistant" st
    = Return ((if requests_tools m then ["tools"] else [])
                ++ (if (6 <? List.length (messages st))%nat
                    then ["summarize_conversation"] else [])).
Proof.
  intros st m Hlast.
  unfold triggered, builder; simpl.
  unfold tools_condition, should_continue. rewrite Hlast.
  destruct (requests_tools m), (6 <? List.length (messages st))%nat; reflexivity.
Qed.

(** C4, as the graph has it.  Both routing functions registered on the
    assistant node are consulted after every assistant step: the summary
    node is scheduled exactly when more than 6 messages are retained,
    with or without a tool request, and the tool node exactly when the
    response requests a tool; nothing else is scheduled. *)
Theorem summarize_scheduled_iff_more_than_six :
  forall (st : State) (m : message),
    last_message (messages st) = Some m ->
    exists next,
      triggered builder "assistant" st = Return next
      /\ (In "summarize_conversation" next <-> (6 < List.length (messages st))%nat)
      /\ (In "tools" next <-> requests_tools m = true)
      /\ (forall n, In n next -> n = "tools" \/ n = "summarize_conversation").
Proof.
  intros st m Hlast.
  eexists. split; [apply (triggered_after_assistant st m Hlast) |].
  destruct (requests_tools m) eqn:Ht;
    destruct (6 <? List.length (messages st))%nat eqn:Hn;
    [ apply Nat.ltb_lt in Hn | apply Nat.ltb_ge in Hn
    | apply Nat.ltb_lt in Hn | apply Nat.ltb_ge in Hn ];
    simpl; (split; [| split]);
    try (split; intros H; try lia; try discriminate; try reflexivity;
         try (left; reflexivity); try (right; left; reflexivity);
         repeat (destruct H as [H | H]; try discriminate H; try lia); try contradiction).
  all: intros n Hin; simpl in Hin;
    repeat (destruct Hin as [Hin | Hin]; [subst n; auto |]); contradiction.
Qed.

Lemma summarize_scheduled_iff_more_than_six_witness :
  exists next,
    triggered builder "assistant" Sample.seven_plain = Return next
    /\ (In "summarize_conversation" next
        <-> (6 < List.length (messages Sample.seven_plain))%nat)
    /\ (In "tools" next <-> requests_tools (Sample.answer "m7") = true)
    /\ (forall n, In n next -> n = "tools" \/ n = "summarize_conversation").
Proof.
  apply (@summarize_scheduled_iff_more_than_six Sample.seven_plain (Sample.answer "m7")).
  reflexivity.
Defined.

(** C4, counterexample to the claim as stated: with seven retained
    messages and a response that requests a tool, the summary node is
    scheduled together with the tool node. *)
Lemma summarize_scheduled_despite_tool_call :
  requests_tools (Sample.call "m7") = true
  /\ last_message (messages Sample.seven_with_call) = Some (Sample.call "m7")
  /\ triggered builder "assistant" Sample.seven_with_call
     = Return ["tools"; "summarize_conversation"].
Proof. repeat split. Qed.

(* --------------------------------------------------------------------- *)
(** ** Summarisation                                                      *)
(* --------------------------------------------------------------------- *)

Lemma id_eqb_eq : forall a b, id_eqb a b = true <-> a = b.
Proof.
  intros [x |] [y |]; simpl; split; intros H; try discriminate; try reflexivity.
  - apply String.eqb_eq in H. now subst.
  - inversion H. apply String.eqb_refl.
Qed.

Lemma id_eqb_refl : forall a, id_eqb a a = true.
Proof. intros a. now apply id_eqb_eq. Qed.

Lemma has_id_in :
  forall i l, has_id i l = true <-> In i (map message_id l).
Proof.
  intros i l. unfold has_id. rewrite existsb_exists, in_map_iff.
  split; intros [m [H1 H2]]; exists m.
  - apply id_eqb_eq in H2. now split.
  - split; [assumption | now apply id_eqb_eq].
Qed.

Lemma existsb_id_in :
  forall i ids, existsb (id_eqb i) ids = true <-> In i ids.
Proof.
  intros i ids. rewrite existsb_exists. split.
  - intros [x [Hin Heq]]. apply id_eqb_eq in Heq. now subst.
  - intros Hin. exists i. split; [assumption | apply id_eqb_refl].
Qed.

Lemma in_firstn :
  forall {A} (k : nat) (l : list A) (x : A), In x (firstn k l) -> In x l.
Proof.
  intros A k l x Hin. rewrite <- (firstn_skipn k l). apply in_or_app. now left.
Qed.

Lemma ensure_ids_identified :
  forall uuid4 l k,
    Forall (fun m => message_id m <> None) l -> ensure_ids uuid4 k l = l.
Proof.
  intros uuid4 l. induction l as [| m rest IH]; intros k Hall; simpl.
  - reflexivity.
  - inversion Hall as [| ? ? Hm Hrest]; subst.
    destruct (message_id m) eqn:Hid; [| contradiction].
    now rewrite IH.
Qed.

(** Removal requests for ids that are all present only grow the set of
    ids to drop; the final pass filters them out. *)
Lemma merge_removals :
  forall (ids : list (option string)) (merged : list message) (acc : list (option string)),
    (forall i, In i ids -> In i (map message_id merged)) ->
    merge merged acc (map RemoveMessage ids)
    = Return (filter (fun m => negb (existsb (id_eqb (message_id m)) (rev ids ++ acc)))
                     merged).
Proof.
  induction ids as [| i rest IH]; intros merged acc Hpresent; simpl.
  - reflexivity.
  - assert (Hi : has_id i merged = true).
    { apply has_id_in. apply Hpresent. now left. }
    rewrite Hi. rewrite IH by (intros j Hj; apply Hpresent; now right).
    now rewrite <- app_assoc.
Qed.

Lemma filter_drops_prefix_ids :
  forall (l : list message) (k : nat),
    NoDup (map message_id l) ->
    filter (fun m => negb (existsb (id_eqb (message_id m)) (map message_id (firstn k l)))) l
    = skipn k l.
Proof.
  induction l as [| a rest IH]; intros k Hnd.
  - now destruct k.
  - destruct k as [| k]; simpl.
    + f_equal. clear. induction rest; simpl; [reflexivity | now f_equal].
    + rewrite id_eqb_refl; simpl.
      inversion Hnd as [| ? ? Hnotin Hnd']; subst.
      rewrite <- (IH k Hnd').
      apply filter_ext_in. intros m Hm.
      destruct (id_eqb (message_id m) (message_id a)) eqn:Heq; [| reflexivity].
      apply id_eqb_eq in Heq. exfalso. apply Hnotin. rewrite <- Heq.
      now apply in_map.
Qed.

(** C8.  When the summary step succeeds, its update carries the model's
    text as the new summary and one removal request per message outside
    the last two; written to the state, the summary is replaced by that
    text and the history is exactly its last two messages. *)
Theorem summarize_overwrites_summary_and_keeps_last_two :
  forall (llm_with_tools_invoke : list message -> outcome message)
         (uuid4 : nat -> string) (state : State) (update : Update),
    Forall (fun m => message_id m <> None) (messages state) ->
    NoDup (map message_id (messages state)) ->
    summarize_conversation llm_with_tools_invoke state = Return update ->
    (exists instruction response,
        llm_with_tools_invoke (messages state ++ [HumanMessage None instruction])
        = Return response
        /\ upd_summary update = Some (content response))
    /\ upd_messages update
       = map (fun m => RemoveMessage (message_id m))
             (firstn (List.length (messages state) - 2) (messages state))
    /\ apply_update uuid4 state update
       = Return (mk_State (skipn (List.length (messages state) - 2) (messages state))
                          (upd_summary update))
    /\ ((2 <= List.length (messages state))%nat ->
        List.length (skipn (List.length (messages state) - 2) (messages state)) = 2%nat).
Proof.
  intros llm uuid4 state update Hids Hnd Hrun.
  unfold summarize_conversation in Hrun.
  match type of Hrun with
  | (_ <- llm (_ ++ [HumanMessage None ?i]) ;; _) = _ => set (instruction := i) in *
  end.
  destruct (llm (messages state ++ [HumanMessage None instruction]))
    as [response | e] eqn:Hllm; simpl in Hrun; [| discriminate].
  injection Hrun as Hupd. subst update. simpl.
  split; [exists instruction, response; now split |].
  split; [reflexivity |].
  split.
  - unfold apply_update, add_messages; simpl.
    rewrite (ensure_ids_identified uuid4 (messages state) 0 Hids).
    unfold all_but_last_two.
    set (k := (List.length (messages state) - 2)%nat).
    rewrite ensure_ids_identified.
    2:{ apply Forall_forall. intros m Hm. apply in_map_iff in Hm.
        destruct Hm as [x [Hx Hin]]. subst m. simpl.
        rewrite Forall_forall in Hids. apply Hids.
        now apply (in_firstn k (messages state)). }
    rewrite <- (map_map message_id RemoveMessage).
    rewrite merge_removals.
    2:{ intros i Hi. apply in_map_iff in Hi. destruct Hi as [x [Hx Hin]]. subst i.
        apply in_map. now apply (in_firstn k (messages state)). }
    simpl. rewrite app_nil_r.
    rewrite <- (@filter_drops_prefix_ids (messages state) k Hnd).
    f_equal. f_equal. apply filter_ext. intros m. f_equal.
    apply eq_true_iff_eq. rewrite !existsb_id_in. now rewrite <- in_rev.
  - intros Hlen. rewrite length_skipn. lia.
Qed.

Lemma summarize_overwrites_summary_and_keeps_last_two_witness :
  (exists instruction response,
      Sample.echo_llm "Totals so far: $230.00."
                      (messages Sample.seven_plain ++ [HumanMessage None instruction])
      = Return response
      /\ Some "Totals so far: $230.00." = Some (content response))
  /\ [RemoveMessage (Some "m1"); RemoveMessage (Some "m2"); RemoveMessage (Some "m3");
      RemoveMessage (Some "m4"); RemoveMessage (Some "m5")]
     = map (fun m => RemoveMessage (message_id m))
           (firstn (List.length (messages Sample.seven_plain) - 2)
                   (messages Sample.seven_plain))
  /\ apply_update Sample.uuid4 Sample.seven_plain
       (mk_Update [RemoveMessage (Some "m1"); RemoveMessage (Some "m2");
                   RemoveMessage (Some "m3"); RemoveMessage (Some "m4");
                   RemoveMessage (Some "m5")]
                  (Some "Totals so far: $230.00."))
     = Return (mk_State [Sample.answer "m6"; Sample.answer "m7"]
                        (Some "Totals so far: $230.00."))
  /\ ((2 <= List.length (messages Sample.seven_plain))%nat ->
      List.length (skipn (List.length (messages Sample.seven_plain) - 2)
                         (messages Sample.seven_plain)) = 2%nat).
Proof.
  apply (@summarize_overwrites_summary_and_keeps_last_two
           (Sample.echo_llm "Totals so far: $230.00.") Sample.uuid4 Sample.seven_plain
           (mk_Update [RemoveMessage (Some "m1"); RemoveMessage (Some "m2");
                       RemoveMessage (Some "m3"); RemoveMessage (Some "m4");
                       RemoveMessage (Some "m5")]
                      (Some "Totals so far: $230.00."))).
  - repeat constructor; discriminate.
  - repeat constructor; simpl; intuition discriminate.
  - reflexivity.
Defined.

(* --------------------------------------------------------------------- *)
(** ** Date validation in the query tool                                  *)
(* --------------------------------------------------------------------- *)

Lemma prefix_error_retrieving :
  forall e, String.prefix "Error" ("Error retrieving expenses: " +++ str_exn e) = true.
Proof. reflexivity. Qed.

(** The exact answers of the query tool on bad dates, for a caller whose
    identity is set and a parser that returns. *)
Lemma query_start_date_unparsable :
  forall env cv category start_date end_date description_keyword pe d,
    truthy_int (contextvars.get cv) = true ->
    truthy_str start_date = true ->
    parse_if_given env start_date = Return None ->
    parse_if_given env end_date = Return pe ->
    tool_get_expenses env cv category start_date end_date description_keyword d
    = (Return ("Error: Unable to parse the start date '" +++ fmt_opt_str start_date
                 +++ "'. Please use a valid date format."), d).
Proof.
  intros env cv category s e k pe d Hid Hs Hps Hpe.
  unfold tool_get_expenses, try_except, bindS, lift.
  rewrite Hid, Hps, Hpe, Hs. reflexivity.
Qed.

Lemma query_end_date_unparsable :
  forall env cv category start_date end_date description_keyword ps d,
    truthy_int (contextvars.get cv) = true ->
    truthy_str end_date = true ->
    parse_if_given env start_date = Return ps ->
    truthy_str start_date && is_none ps = false ->
    parse_if_given env end_date = Return None ->
    tool_get_expenses env cv category start_date end_date description_keyword d
    = (Return ("Error: Unable to parse the end date '" +++ fmt_opt_str end_date
                 +++ "'. Please use a valid date format."), d).
Proof.
  intros env cv category s e k ps d Hid He Hps Hok Hpe.
  unfold tool_get_expenses, try_except, bindS, lift.
  rewrite Hid, Hps, Hpe. simpl. rewrite Hok, He. reflexivity.
Qed.

Lemma query_start_after_end :
  forall env cv category start_date end_date description_keyword a b d,
    truthy_int (contextvars.get cv) = true ->
    parse_if_given env start_date = Return (Some a) ->
    parse_if_given env end_date = Return (Some b) ->
    DT.gt a b = Return true ->
    tool_get_expenses env cv category start_date end_date description_keyword d
    = (Return "Error: Start date cannot be after end date.", d).
Proof.
  intros env cv category s e k a b d Hid Hps Hpe Hgt.
  unfold tool_get_expenses, try_except, bindS, lift.
  rewrite Hid, Hps, Hpe. simpl. rewrite !andb_false_r, Hgt. reflexivity.
Qed.

(** C7.  A bound that is given but cannot be parsed, or two parsed bounds
    with the start strictly after the end, make the query tool return an
    error text, never raise; the answer is the same for every store and
    the store is handed back as it was, so no record is read or changed.
    With the identity set and a parser that returns, the text names the
    rejected date, or says that the start cannot be after the end.  A
    bound counts as given when it passes the tool's own test
    [if start_date], that is when it is neither [None] nor empty. *)
Theorem query_rejects_bad_dates :
  forall (env : Env) (current_user_id : contextvars.ContextVar)
         (category start_date end_date description_keyword : option string),
    (truthy_str start_date = true /\ parse_if_given env start_date = Return None)
    \/ (truthy_str end_date = true /\ parse_if_given env end_date = Return None)
    \/ (exists a b,
           parse_if_given env start_date = Return (Some a)
           /\ parse_if_given env end_date = Return (Some b)
           /\ DT.gt a b = Return true) ->
    exists msg,
      String.prefix "Error" msg = true
      /\ (forall d : DB,
             tool_get_expenses env current_user_id category start_date end_date
                               description_keyword d
             = (Return msg, d))
      /\ (truthy_int (contextvars.get current_user_id) = true ->
          forall ps pe,
            parse_if_given env start_date = Return ps ->
            parse_if_given env end_date = Return pe ->
            msg = rejected_dates_text start_date end_date ps pe).
Proof.
  intros env cv category s e k Hbad.
  destruct (truthy_int (contextvars.get cv)) eqn:Hid.
  2:{ exists "Error: User ID is missing.". split; [reflexivity |].
      split; [| discriminate].
      intros d. unfold tool_get_expenses. now rewrite Hid. }
  destruct (parse_if_given env s) as [ps | xs] eqn:Hps.
  2:{ exists ("Error retrieving expenses: " +++ str_exn xs).
      split; [apply prefix_error_retrieving |].
      split; [| intros _ ps pe Hs; discriminate].
      intros d. unfold tool_get_expenses, try_except, bindS, lift.
      rewrite Hid, Hps. reflexivity. }
  destruct (parse_if_given env e) as [pe | xe] eqn:Hpe.
  2:{ exists ("Error retrieving expenses: " +++ str_exn xe).
      split; [apply prefix_error_retrieving |].
      split; [| intros _ ps' pe' _ He; discriminate].
      intros d. unfold tool_get_expenses, try_except, bindS, lift.
      rewrite Hid, Hps, Hpe. reflexivity. }
  exists (rejected_dates_text s e ps pe).
  assert (Htext : forall ps' pe', Return ps = Return ps' -> Return pe = Return pe' ->
                                  rejected_dates_text s e ps pe
                                  = rejected_dates_text s e ps' pe').
  { intros ps' pe' H1 H2. injection H1 as <-. injection H2 as <-. reflexivity. }
  unfold rejected_dates_text at 1 2.
  destruct (truthy_str s && is_none ps) eqn:Hstart.
  { apply andb_true_iff in Hstart. destruct Hstart as [Hs Hn].
    destruct ps; [discriminate |].
    split; [reflexivity |]. split.
    - intros d. eapply query_start_date_unparsable; eassumption.
    - intros _ ps' pe' H1 H2. rewrite <- (Htext ps' pe' H1 H2).
      unfold rejected_dates_text. rewrite Hs. reflexivity. }
  destruct Hbad as [[Hs Hnone] | [[He Hnone] | [a [b [Ha [Hb Hgt]]]]]].
  - injection Hnone as ->. rewrite Hs in Hstart. discriminate.
  - injection Hnone as ->. rewrite He. cbn [is_none andb].
    split; [reflexivity |]. split.
    + intros d. eapply query_end_date_unparsable; eassumption.
    + intros _ ps' pe' H1 H2. rewrite <- (Htext ps' pe' H1 H2).
      unfold rejected_dates_text. rewrite Hstart, He. reflexivity.
  - injection Ha as ->. injection Hb as ->. cbn [is_none]. rewrite andb_false_r.
    split; [reflexivity |]. split.
    + intros d. eapply query_start_after_end; eassumption.
    + intros _ ps' pe' H1 H2. rewrite <- (Htext ps' pe' H1 H2).
      unfold rejected_dates_text. rewrite Hstart. cbn [is_none].
      rewrite andb_false_r. reflexivity.
Qed.

Lemma query_rejects_bad_dates_witness :
  exists msg,
    String.prefix "Error" msg = true
    /\ (forall d : DB,
           tool_get_expenses Sample.env Sample.as_alice (Some "Travel")
                             (Some "25 January 2024") (Some "1 January 2024") None d
           = (Return msg, d))
    /\ (truthy_int (contextvars.get Sample.as_alice) = true ->
        forall ps pe,
          parse_if_given Sample.env (Some "25 January 2024") = Return ps ->
          parse_if_given Sample.env (Some "1 January 2024") = Return pe ->
          msg = rejected_dates_text (Some "25 January 2024") (Some "1 January 2024")
                                    ps pe).
Proof.
  apply (@query_rejects_bad_dates Sample.env Sample.as_alice (Some "Travel")
           (Some "25 January 2024") (Some "1 January 2024") None).
  right. right. exists (Sample.day 2024 1 25), (Sample.day 2024 1 1).
  repeat split.
Defined.

(* --------------------------------------------------------------------- *)
(** ** Bulk writes: what a committed unit of work does to the table       *)
(* --------------------------------------------------------------------- *)

Lemma find_app_first :
  forall {A} (p : A -> bool) (l1 l2 : list A),
    find p (l1 ++ l2) = match find p l1 with Some x => Some x | None => find p l2 end.
Proof.
  intros A p l1 l2. induction l1 as [| a l1 IH]; simpl; [reflexivity |].
  destruct (p a); [reflexivity | exact IH].
Qed.

(** Each row ends up as the last written object that carries its key. *)
Lemma fold_update_row :
  forall (objs rows : list Expense),
    fold_left update_row objs rows
    = map (fun r => match find (fun o => id o =? id r) (rev objs) with
                    | Some o => o
                    | None => r
                    end) rows.
Proof.
  induction objs as [| o objs IH]; intros rows; simpl.
  - symmetry. apply map_id.
  - rewrite IH. unfold update_row. rewrite map_map. apply map_ext. intros r.
    rewrite find_app_first. simpl.
    destruct (id r =? id o) eqn:Hro.
    + apply Z.eqb_eq in Hro. rewrite Hro.
      destruct (find (fun o0 => id o0 =? id o) (rev objs)); [reflexivity |].
      now rewrite Z.eqb_refl.
    + destruct (find (fun o0 => id o0 =? id r) (rev objs)); [reflexivity |].
      rewrite Z.eqb_sym, Hro. reflexivity.
Qed.

Lemma fold_delete_row :
  forall (objs rows : list Expense),
    fold_left delete_row objs rows
    = filter (fun r => negb (existsb (fun o => id r =? id o) objs)) rows.
Proof.
  induction objs as [| o objs IH]; intros rows; simpl.
  - induction rows as [| r rows IHr]; simpl; [reflexivity | now f_equal].
  - rewrite IH. unfold delete_row. clear IH.
    induction rows as [| r rows IHr]; simpl; [reflexivity |].
    destruct (id r =? id o); simpl; [exact IHr |].
    destruct (existsb (fun o0 => id r =? id o0) objs); simpl; [exact IHr | now f_equal].
Qed.

Lemma same_key_same_row :
  forall (rows : list Expense) (a b : Expense),
    NoDup (map id rows) -> In a rows -> In b rows -> id a = id b -> a = b.
Proof.
  induction rows as [| r rows IH]; intros a b Hnd Ha Hb Hid; [contradiction |].
  inversion Hnd as [| ? ? Hnotin Hnd']; subst.
  destruct Ha as [-> | Ha], Hb as [-> | Hb].
  - reflexivity.
  - exfalso. apply Hnotin. rewrite Hid. now apply in_map.
  - exfalso. apply Hnotin. rewrite <- Hid. now apply in_map.
  - now apply IH.
Qed.

(** Under the primary key, writing back the selected rows after [f] is
    the map that applies [f] to the selected rows and leaves the others. *)
Lemma bulk_update_rows :
  forall (p : Expense -> bool) (f : Expense -> Expense) (rows : list Expense),
    NoDup (map id rows) ->
    (forall e, id (f e) = id e) ->
    fold_left update_row (map f (filter p rows)) rows
    = map (fun r => if p r then f r else r) rows.
Proof.
  intros p f rows Hnd Hf. rewrite fold_update_row.
  apply map_ext_in. intros r Hr.
  destruct (find (fun o => id o =? id r) (rev (map f (filter p rows)))) as [o |] eqn:Hfind.
  - apply find_some in Hfind. destruct Hfind as [Hin Hid].
    apply in_rev, in_map_iff in Hin. destruct Hin as [m [Hm Hmin]]. subst o.
    apply filter_In in Hmin. destruct Hmin as [Hmrows Hpm].
    apply Z.eqb_eq in Hid. rewrite Hf in Hid.
    assert (m = r) by (eapply same_key_same_row; eassumption). subst m.
    now rewrite Hpm.
  - destruct (p r) eqn:Hpr; [| reflexivity].
    exfalso.
    assert (Hin : In (f r) (rev (map f (filter p rows)))).
    { apply in_rev. rewrite rev_involutive. apply in_map. apply filter_In. now split. }
    apply (find_none _ _ Hfind) in Hin. rewrite Hf, Z.eqb_refl in Hin. discriminate.
Qed.

Lemma bulk_delete_rows :
  forall (p : Expense -> bool) (rows : list Expense),
    NoDup (map id rows) ->
    fold_left delete_row (filter p rows) rows = filter (fun r => negb (p r)) rows.
Proof.
  intros p rows Hnd. rewrite fold_delete_row.
  apply filter_ext_in. intros r Hr. f_equal.
  destruct (p r) eqn:Hpr.
  - apply existsb_exists. exists r. split; [apply filter_In; now split | apply Z.eqb_refl].
  - destruct (existsb (fun o => id r =? id o) (filter p rows)) eqn:Hex; [| reflexivity].
    apply existsb_exists in Hex. destruct Hex as [m [Hmin Hid]].
    apply filter_In in Hmin. destruct Hmin as [Hmrows Hpm]. apply Z.eqb_eq in Hid.
    assert (r = m) by (eapply same_key_same_row; eassumption). subst m. congruence.
Qed.

Lemma setattr_keeps_key : forall e i, id (setattr e i) = id e /\ user_id (setattr e i) = user_id e.
Proof. intros e [v | v | v | v]; split; reflexivity. Qed.

Lemma set_all_keeps_key :
  forall u e, id (set_all u e) = id e /\ user_id (set_all u e) = user_id e.
Proof.
  intros u e. unfold set_all. generalize (dict_exclude_unset u) as items.
  intros items. revert e. induction items as [| i items IH]; intros e; simpl.
  - now split.
  - destruct (IH (setattr e i)) as [H1 H2], (setattr_keeps_key e i) as [H3 H4].
    split; congruence.
Qed.

(* --------------------------------------------------------------------- *)
(** ** What the controller functions compute                              *)
(* --------------------------------------------------------------------- *)

Lemma validate_all_raises_validation :
  forall l e, validate_all l = Raise e -> exists m, e = ValidationError m.
Proof.
  induction l as [| x l IH]; intros e H; simpl in H; [discriminate |].
  unfold from_orm in H.
  destruct (description x), (amount x), (category x), (date x); simpl in H;
    try (injection H as <-; eexists; reflexivity).
  destruct (validate_all l) as [vs | e'] eqn:Hl; simpl in H; [discriminate |].
  injection H as <-. now apply IH.
Qed.

Lemma update_each_run :
  forall u expenses acc s,
    db (snd (update_each u expenses acc s)) = db s
    /\ fst (update_each u expenses acc s)
       = (l <- validate_all (map (set_all u) expenses) ;; Return (acc ++ l))
    /\ (forall l, fst (update_each u expenses acc s) = Return l ->
        snd (update_each u expenses acc s)
        = mk_Session (db s) (dirty s ++ map (set_all u) expenses) (deleted s) (pending s)).
Proof.
  intros u expenses. induction expenses as [| e rest IH]; intros acc s.
  - simpl. rewrite !app_nil_r. repeat split. intros _ _. now destruct s.
  - simpl. unfold bindS, modify, lift. simpl.
    destruct (from_orm (set_all u e)) as [v | x] eqn:Hv; simpl.
    + destruct (IH (acc ++ [v]) (add s (set_all u e))) as [H1 [H2 H3]].
      split; [exact H1 |]. split.
      * rewrite H2. destruct (validate_all (map (set_all u) rest)); simpl;
          [now rewrite <- app_assoc | reflexivity].
      * intros l Hl. rewrite (H3 l Hl). simpl. now rewrite <- app_assoc.
    + repeat split. intros l Hl. discriminate.
Qed.

(** The bulk update, run in a fresh session on [d]. *)
Lemma update_expenses_by_category_run :
  forall category u current_user d,
    update_expenses_by_category category u current_user (open d)
    = match filter (in_category category current_user) (expenses d) with
      | [] => (Raise (HTTPException 404 (not_found_detail category)), open d)
      | m :: ms =>
          match validate_all (map (set_all u) (m :: ms)) with
          | Raise e =>
              (Raise (HTTPException 500
                        ("Failed to update expenses by category '" +++ category
                           +++ "': " +++ str_exn e)), open d)
          | Return l =>
              match write_fault d with
              | Some msg =>
                  (Raise (HTTPException 500
                            ("Failed to update expenses by category '" +++ category
                               +++ "': " +++ msg)), open d)
              | None =>
                  (Return l,
                   open (mk_DB (users d)
                               (fold_left update_row (map (set_all u) (m :: ms)) (expenses d))
                               (next_id d) None))
              end
          end
      end.
Proof.
  intros category u current_user d.
  unfold update_expenses_by_category, try_except, bindS at 1, get_state, exec_select.
  cbn [db open].
  destruct (filter (in_category category current_user) (expenses d)) as [| m ms] eqn:Hsel.
  - reflexivity.
  - unfold bindS at 1.
    destruct (update_each_run u (m :: ms) [] (open d)) as [Hdb [Hfst Hsnd]].
    destruct (update_each u (m :: ms) [] (open d)) as [[l | e] s'] eqn:Hrun;
      cbn [fst snd] in *.
    + specialize (Hsnd l eq_refl). subst s'.
      destruct (validate_all (map (set_all u) (m :: ms))) as [l' | e'] eqn:Hval;
        cbn [Py.bind] in Hfst; [| discriminate].
      injection Hfst as ->.
      unfold bindS, commit, ret, flush, throw, modify, rollback; simpl.
      destruct (write_fault d) as [msg |] eqn:Hfault; simpl; rewrite ?Hfault; reflexivity.
    + destruct (validate_all (map (set_all u) (m :: ms))) as [l' | e'] eqn:Hval;
        cbn [Py.bind] in Hfst; [discriminate |].
      injection Hfst as ->.
      destruct (validate_all_raises_validation _ _ Hval) as [msg ->].
      unfold bindS, throw, modify, rollback; simpl. rewrite Hdb. reflexivity.
Qed.

(** The bulk delete, run in a fresh session on [d]. *)
Lemma delete_expenses_by_category_run :
  forall category current_user d,
    delete_expenses_by_category category current_user (open d)
    = match filter (in_category category current_user) (expenses d) with
      | [] => (Raise (HTTPException 404 (not_found_detail category)), open d)
      | m :: ms =>
          match write_fault d with
          | Some msg =>
              (Raise (HTTPException 500
                        ("Failed to delete expenses by category '" +++ category
                           +++ "': " +++ msg)), open d)
          | None =>
              (Return ("Deleted " +++ str_int (Z.of_nat (List.length (m :: ms)))
                         +++ " expenses in category '" +++ category +++ "'."),
               open (mk_DB (users d) (fold_left delete_row (m :: ms) (expenses d))
                           (next_id d) None))
          end
      end.
Proof.
  intros category current_user d.
  unfold delete_expenses_by_category, try_except, bindS at 1, get_state, exec_select.
  cbn [db open].
  destruct (filter (in_category category current_user) (expenses d)) as [| m ms] eqn:Hsel.
  - reflexivity.
  - unfold bindS, delete_each, modify, commit, ret, flush.
    assert (Hfold : forall l s,
               fold_left delete l s
               = mk_Session (db s) (dirty s) (deleted s ++ l) (pending s)).
    { induction l as [| x l IH]; intros s; simpl.
      - rewrite app_nil_r. now destruct s.
      - rewrite IH. unfold delete. simpl. now rewrite <- app_assoc. }
    rewrite Hfold. unfold throw, rollback; simpl.
    destruct (write_fault d) as [msg |] eqn:Hfault; simpl; rewrite ?Hfault; reflexivity.
Qed.

(* --------------------------------------------------------------------- *)
(** ** What the tools compute                                             *)
(* --------------------------------------------------------------------- *)

Lemma http_exception_unbound_in_agent : name_bound agent.globals "HTTPException" = false.
Proof. reflexivity. Qed.

Lemma http_exception_bound_in_controller :
  name_bound expense_controller.globals "HTTPException" = true.
Proof. reflexivity. Qed.

Lemma truthy_int_some :
  forall cv, truthy_int (contextvars.get cv) = true ->
             exists u, contextvars.get cv = Some u /\ u <> 0 /\ uid_of (contextvars.get cv) = u.
Proof.
  intros cv H. destruct (contextvars.get cv) as [u |]; [| discriminate].
  exists u. repeat split. simpl in H. intros ->. discriminate.
Qed.

Lemma get_user_id :
  forall s uid u, get_user s uid = Some u -> models_user.id u = uid.
Proof.
  intros s uid u H. unfold get_user in H. apply find_some in H.
  now apply Z.eqb_eq.
Qed.

(** The delete tool once the identity is set. *)
Lemma tool_delete_expenses_run :
  forall cv category d,
    truthy_int (contextvars.get cv) = true ->
    tool_delete_expenses cv category d
    = match get_user (open d) (uid_of (contextvars.get cv)) with
      | None => (Return (error_dict "User not found."), d)
      | Some current_user =>
          match delete_expenses_by_category category current_user (open d) with
          | (Return deletion_result, s) =>
              (Return (mk_ToolDict "success" deletion_result NoData), db s)
          | (Raise _, s) => (Raise (NameError "HTTPException"), db s)
          end
      end.
Proof.
  intros cv category d Hid. unfold tool_delete_expenses. rewrite Hid. cbn [negb].
  unfold try_except, with_session, bindS at 1 2, get_state.
  destruct (get_user (open d) (uid_of (contextvars.get cv))) as [u |]; [| reflexivity].
  unfold bindS at 1.
  destruct (delete_expenses_by_category category u (open d)) as [[r | e] s]; reflexivity.
Qed.

(** The update tool once the identity is set and the date, if given, was
    read by the parser and taken by [ExpenseUpdate]. *)
Lemma tool_update_expenses_run :
  forall env cv category description amount date parsed formatted d,
    truthy_int (contextvars.get cv) = true ->
    parse_if_given env date = Return parsed ->
    truthy_str date && is_none parsed = false ->
    formatted_date_of parsed = Return formatted ->
    tool_update_expenses env cv category description amount date d
    = match get_user (open d) (uid_of (contextvars.get cv)) with
      | None => (Return (error_dict "User not found."), d)
      | Some current_user =>
          match update_expenses_by_category category
                  (mk_ExpenseUpdate description amount (Some category) formatted
                                    [F_description; F_amount; F_category; F_date])
                  current_user (open d) with
          | (Return updated_expenses, s) =>
              (Return (mk_ToolDict "success"
                         ("Updated " +++ str_int (Z.of_nat (List.length updated_expenses))
                            +++ " expenses in category '" +++ category +++ "'.")
                         (Updated updated_expenses)), db s)
          | (Raise _, s) => (Raise (NameError "HTTPException"), db s)
          end
      end.
Proof.
  intros env cv category description amount date parsed formatted d Hid Hparse Hok Hfmt.
  unfold tool_update_expenses. rewrite Hid. cbn [negb].
  unfold try_except, bindS at 1, lift. rewrite Hparse, Hok.
  unfold bindS at 1. rewrite Hfmt.
  unfold with_session, bindS at 1 2, get_state.
  destruct (get_user (open d) (uid_of (contextvars.get cv))) as [u |]; [| reflexivity].
  unfold bindS at 1.
  destruct (update_expenses_by_category _ _ u (open d)) as [[r | e] s]; reflexivity.
Qed.

(* --------------------------------------------------------------------- *)
(** ** Totality of the tool layer                                         *)
(* --------------------------------------------------------------------- *)

(** The query tool and the create tool end in [except Exception], whose
    name is always bound: they return on every input. *)
Lemma tool_get_expenses_returns :
  forall env cv category start_date end_date description_keyword d,
    exists text,
      fst (tool_get_expenses env cv category start_date end_date description_keyword d)
      = Return text.
Proof.
  intros env cv category s e k d. unfold tool_get_expenses.
  destruct (negb (truthy_int (contextvars.get cv))); [eexists; reflexivity |].
  unfold try_except.
  match goal with
  | |- exists t, fst (match ?body d with _ => _ end) = _ =>
      destruct (body d) as [[r | x] d']
  end; simpl; eexists; reflexivity.
Qed.

Lemma tool_create_expenses_returns :
  forall env cv amount category description d,
    exists r, fst (tool_create_expenses env cv amount category description d) = Return r.
Proof.
  intros env cv amount category description d. unfold tool_create_expenses.
  destruct (negb (truthy_int (contextvars.get cv))); [eexists; reflexivity |].
  unfold try_except.
  match goal with
  | |- exists t, fst (match ?body d with _ => _ end) = _ =>
      destruct (body d) as [[r | x] d']
  end; simpl; eexists; reflexivity.
Qed.

(** C1, the failing path.  With the identity set and the user present,
    deleting a category in which the caller has no record makes the
    controller raise its 404; the tool's clause [except HTTPException]
    names a class that [agent.py] never imports, so evaluating the clause
    raises [NameError], which leaves the tool.  Nothing is deleted. *)
Theorem tool_delete_expenses_raises_when_nothing_matches :
  forall (cv : contextvars.ContextVar) (category : string) (d : DB)
         (current_user : models_user.User),
    truthy_int (contextvars.get cv) = true ->
    get_user (open d) (uid_of (contextvars.get cv)) = Some current_user ->
    filter (in_category category current_user) (expenses d) = [] ->
    expense_controller.delete_expenses_by_category category current_user (open d)
    = (Raise (HTTPException 404 (not_found_detail category)), open d)
    /\ tool_delete_expenses cv category d = (Raise (NameError "HTTPException"), d).
Proof.
  intros cv category d u Hid Huser Hnone.
  assert (Hctl : delete_expenses_by_category category u (open d)
                 = (Raise (HTTPException 404 (not_found_detail category)), open d)).
  { rewrite delete_expenses_by_category_run, Hnone. reflexivity. }
  split; [exact Hctl |].
  rewrite (tool_delete_expenses_run cv category d Hid), Huser, Hctl. reflexivity.
Qed.

Lemma tool_delete_expenses_raises_when_nothing_matches_witness :
  expense_controller.delete_expenses_by_category "Groceries" Sample.alice (open Sample.db0)
  = (Raise (HTTPException 404 (not_found_detail "Groceries")), open Sample.db0)
  /\ tool_delete_expenses Sample.as_alice "Groceries" Sample.db0
     = (Raise (NameError "HTTPException"), Sample.db0).
Proof.
  apply (@tool_delete_expenses_raises_when_nothing_matches
           Sample.as_alice "Groceries" Sample.db0 Sample.alice);
    reflexivity.
Defined.

(* --------------------------------------------------------------------- *)
(** ** [LIKE] with [%text%]: containment, letter case ignored             *)
(* --------------------------------------------------------------------- *)

Lemma like_pct_unfold :
  forall p s,
    Sql.like (Sql.pct :: p) s
    = Sql.like p s || match s with
                      | [] => false
                      | _ :: s' => Sql.like (Sql.pct :: p) s'
                      end.
Proof. intros p [| c s]; reflexivity. Qed.

Lemma like_pct_all : forall s, Sql.like [Sql.pct] s = true.
Proof.
  induction s as [| c s IH]; [reflexivity |].
  rewrite like_pct_unfold. rewrite IH. apply orb_true_r.
Qed.

Lemma like_pct_skip :
  forall p pre s, Sql.like (Sql.pct :: p) s = true -> Sql.like (Sql.pct :: p) (pre ++ s) = true.
Proof.
  intros p pre s H. induction pre as [| c pre IH]; [exact H |].
  simpl app. rewrite like_pct_unfold, IH. apply orb_true_r.
Qed.

(** A pattern matches its own text, wildcards included. *)
Lemma like_own_text :
  forall p q rest, Sql.like q rest = true -> Sql.like (p ++ q) (p ++ rest) = true.
Proof.
  induction p as [| c p IH]; intros q rest H; [exact H |].
  simpl app. destruct (Ascii.eqb c Sql.pct) eqn:Hc.
  - apply Ascii.eqb_eq in Hc. subst c.
    rewrite like_pct_unfold. apply orb_true_iff. right.
    rewrite like_pct_unfold. rewrite (IH q rest H). reflexivity.
  - simpl. rewrite Hc, Ascii.eqb_refl, orb_true_r. simpl. now apply IH.
Qed.

Lemma like_pct_split :
  forall p s,
    Sql.like (Sql.pct :: p) s = true ->
    exists pre post, s = pre ++ post /\ Sql.like p post = true.
Proof.
  intros p s. induction s as [| c s IH]; intros H; rewrite like_pct_unfold in H.
  - rewrite orb_false_r in H. exists [], []. now split.
  - apply orb_true_iff in H. destruct H as [H | H].
    + exists [], (c :: s). now split.
    + destruct (IH H) as [pre [post [-> Hp]]]. exists (c :: pre), post. now split.
Qed.

Lemma like_literal_prefix :
  forall p q s,
    Forall (fun c => c <> Sql.pct /\ c <> Sql.und) p ->
    Sql.like (p ++ q) s = true ->
    exists rest, s = p ++ rest /\ Sql.like q rest = true.
Proof.
  induction p as [| c p IH]; intros q s Hfree H.
  - exists s. now split.
  - inversion Hfree as [| ? ? [Hpct Hund] Hfree']; subst.
    simpl in H.
    destruct (Ascii.eqb c Sql.pct) eqn:E1; [apply Ascii.eqb_eq in E1; contradiction |].
    destruct s as [| d s]; [discriminate |].
    destruct (Ascii.eqb c Sql.und) eqn:E2; [apply Ascii.eqb_eq in E2; contradiction |].
    simpl in H. apply andb_true_iff in H. destruct H as [Hcd Hrest].
    apply Ascii.eqb_eq in Hcd. subst d.
    destruct (IH q s Hfree' Hrest) as [rest [-> Hq]].
    exists rest. now split.
Qed.

Lemma list_ascii_of_string_append :
  forall a b,
    list_ascii_of_string (a +++ b) = list_ascii_of_string a ++ list_ascii_of_string b.
Proof.
  induction a as [| c a IH]; intros b; simpl; [reflexivity | now rewrite IH].
Qed.

Lemma lower_pattern :
  forall c,
    lower (list_ascii_of_string ("%" +++ c +++ "%"))
    = Sql.pct :: lower (list_ascii_of_string c) ++ [Sql.pct].
Proof.
  intros c. rewrite !list_ascii_of_string_append. unfold lower.
  rewrite !map_app. reflexivity.
Qed.

Lemma lower_ascii_keeps_wildcards :
  forall c, (lower_ascii c = Sql.pct -> c = Sql.pct) /\ (lower_ascii c = Sql.und -> c = Sql.und).
Proof.
  intros [[] [] [] [] [] [] [] []]; vm_compute; split; intros H;
    first [reflexivity | discriminate H].
Qed.

Lemma lower_wildcard_free :
  forall s, wildcard_free s ->
            Forall (fun c => c <> Sql.pct /\ c <> Sql.und) (lower (list_ascii_of_string s)).
Proof.
  intros s. unfold wildcard_free, lower.
  induction (list_ascii_of_string s) as [| c l IH]; intros H; simpl; constructor.
  - inversion H as [| ? ? [H1 H2] ?]; subst.
    destruct (lower_ascii_keeps_wildcards c) as [Hp Hu]. split; intros E; auto.
  - apply IH. now inversion H.
Qed.

(** Containment is enough for [ILIKE '%text%'], whatever the text. *)
Lemma ilike_of_contains :
  forall v c, contains_ci v c -> Sql.ilike (Some v) ("%" +++ c +++ "%") = true.
Proof.
  intros v c [pre [post Hv]]. unfold Sql.ilike. rewrite lower_pattern, Hv.
  apply like_pct_skip. rewrite like_pct_unfold. apply orb_true_iff. left.
  apply like_own_text. apply like_pct_all.
Qed.

(** For a text without wildcard characters [ILIKE '%text%'] is exactly
    containment. *)
Lemma contains_of_ilike :
  forall v c,
    wildcard_free c -> Sql.ilike (Some v) ("%" +++ c +++ "%") = true -> contains_ci v c.
Proof.
  intros v c Hfree H. unfold Sql.ilike in H. rewrite lower_pattern in H.
  apply like_pct_split in H. destruct H as [pre [post [Hs Hlike]]].
  apply like_literal_prefix in Hlike; [| now apply lower_wildcard_free].
  destruct Hlike as [rest [-> _]]. exists pre, rest. exact Hs.
Qed.

(* --------------------------------------------------------------------- *)
(** ** Every tool stays within the caller's records                       *)
(* --------------------------------------------------------------------- *)

Lemma truthy_str_some : forall c, c <> EmptyString -> truthy_str (Some c) = true.
Proof. intros [| a c] H; [contradiction | reflexivity]. Qed.

Lemma select_expenses_scoped :
  forall s uid category description_keyword ps pe r,
    In r (select_expenses s uid category description_keyword ps pe) ->
    In r (expenses (db s))
    /\ user_id r = uid
    /\ (forall c, category = Some c -> c <> EmptyString ->
                  Sql.ilike (models_expense.category r) ("%" +++ c +++ "%") = true).
Proof.
  intros s uid category k ps pe r Hin.
  unfold select_expenses, exec_select in Hin. apply filter_In in Hin.
  destruct Hin as [Hrows Hwhere]. unfold query_where in Hwhere.
  apply andb_true_iff in Hwhere. destruct Hwhere as [Huid Hfilters].
  split; [exact Hrows |]. split; [now apply Z.eqb_eq |].
  intros c -> Hc. rewrite forallb_app in Hfilters.
  apply andb_true_iff in Hfilters. destruct Hfilters as [Hcat _].
  unfold category_filter in Hcat. rewrite (truthy_str_some c Hc) in Hcat.
  simpl in Hcat. now rewrite andb_true_r in Hcat.
Qed.

(** The query tool never writes, and what it answers is either an error
    text or the rendering of the rows selected for the caller. *)
Lemma tool_get_expenses_answer :
  forall env cv category start_date end_date description_keyword d,
    snd (tool_get_expenses env cv category start_date end_date description_keyword d) = d
    /\ ((exists msg,
            fst (tool_get_expenses env cv category start_date end_date
                                   description_keyword d) = Return msg
            /\ String.prefix "Error" msg = true)
        \/ (exists ps pe,
               truthy_int (contextvars.get cv) = true
               /\ fst (tool_get_expenses env cv category start_date end_date
                                         description_keyword d)
                  = render category
                           (select_expenses (open d) (uid_of (contextvars.get cv))
                                            category description_keyword ps pe))).
Proof.
  intros env cv category s e k d. unfold tool_get_expenses.
  destruct (truthy_int (contextvars.get cv)) eqn:Hid; cbn [negb];
    [| split; [reflexivity | left; eexists; split; reflexivity]].
  unfold try_except, bindS, lift, ret, with_session, get_state. cbn beta.
  destruct (parse_if_given env s) as [ps | xs]; cbn beta iota;
    [| split; [reflexivity | left; eexists; split; reflexivity]].
  destruct (parse_if_given env e) as [pe | xe]; cbn beta iota;
    [| split; [reflexivity | left; eexists; split; reflexivity]].
  destruct (truthy_str s && is_none ps); cbn beta iota;
    [split; [reflexivity | left; eexists; split; reflexivity] |].
  destruct (truthy_str e && is_none pe); cbn beta iota;
    [split; [reflexivity | left; eexists; split; reflexivity] |].
  match goal with
  | |- context [match ?g with Return _ => _ | Raise _ => _ end] =>
      match g with
      | match ps with _ => _ end => destruct g as [[|] | xg]
      end
  end; cbn beta iota; try (split; [reflexivity | left; eexists; split; reflexivity]).
  destruct (get_user (open d) (uid_of (contextvars.get cv))) as [u |]; cbn beta iota;
    [| split; [reflexivity | left; eexists; split; reflexivity]].
  destruct (render category
                   (select_expenses (open d) (uid_of (contextvars.get cv)) category k ps pe))
    as [text | x] eqn:Hrender; cbn.
  - split; [reflexivity |]. right. exists ps, pe. split; [reflexivity |].
    now rewrite Hrender.
  - split; [reflexivity |]. left. eexists. split; reflexivity.
Qed.

Lemma filter_frame_map :
  forall (q p : Expense -> bool) (f : Expense -> Expense) rows,
    (forall r, p r = true -> q r = false /\ q (f r) = false) ->
    filter q (map (fun r => if p r then f r else r) rows) = filter q rows.
Proof.
  intros q p f rows H. induction rows as [| r rows IH]; simpl; [reflexivity |].
  destruct (p r) eqn:Hp.
  - destruct (H r Hp) as [H1 H2]. now rewrite H1, H2.
  - destruct (q r); now rewrite IH.
Qed.

Lemma filter_frame_filter :
  forall (q p : Expense -> bool) rows,
    (forall r, p r = true -> q r = false) ->
    filter q (filter (fun r => negb (p r)) rows) = filter q rows.
Proof.
  intros q p rows H. induction rows as [| r rows IH]; simpl; [reflexivity |].
  destruct (p r) eqn:Hp; simpl.
  - now rewrite (H r Hp).
  - destruct (q r); now rewrite IH.
Qed.

Lemma validate_all_owner :
  forall l vs uid,
    validate_all l = Return vs ->
    Forall (fun e => user_id e = uid) l ->
    Forall (fun v => d_user_id v = uid) vs.
Proof.
  induction l as [| e l IH]; intros vs uid H Hall; simpl in H.
  - injection H as <-. constructor.
  - inversion Hall as [| ? ? He Hl]; subst.
    destruct (from_orm e) as [v | x] eqn:Hv; simpl in H; [| discriminate].
    destruct (validate_all l) as [vs' | x] eqn:Hvs; simpl in H; [| discriminate].
    injection H as <-. constructor; [| now apply (IH vs')].
    unfold from_orm in Hv.
    destruct (description e), (amount e), (models_expense.category e), (date e);
      try discriminate.
    injection Hv as <-. reflexivity.
Qed.

Lemma in_category_owned :
  forall cv category u r,
    truthy_int (contextvars.get cv) = true ->
    models_user.id u = uid_of (contextvars.get cv) ->
    in_category category u r = true ->
    user_id r = uid_of (contextvars.get cv) /\ owned cv r = true.
Proof.
  intros cv category u r Hid Hu Hin. unfold in_category in Hin.
  apply andb_true_iff in Hin. destruct Hin as [_ Hown]. apply Z.eqb_eq in Hown.
  rewrite Hu in Hown. split; [exact Hown |].
  unfold owned. destruct (truthy_int_some cv Hid) as [x [Hget [_ Hx]]].
  rewrite Hget in *. simpl in Hown. rewrite Hown. apply Z.eqb_refl.
Qed.

(** The create tool: a refusal that leaves the store alone, or one new row
    stamped with the current time and owned by the caller. *)
Lemma tool_create_expenses_cases :
  forall env cv amount category description d,
    (exists t, tool_create_expenses env cv amount category description d = (Return t, d)
               /\ data t = NoData)
    \/ (exists text,
           truthy_int (contextvars.get cv) = true
           /\ description = Some text
           /\ write_fault d = None
           /\ tool_create_expenses env cv amount category description d
              = (Return (mk_ToolDict "success" "Expense stored successfully."
                           (Created (mk_Expense (next_id d) (Some amount) (Some text)
                                                (Some category) (Some (datetime_now env))
                                                (uid_of (contextvars.get cv))))),
                 mk_DB (users d)
                       (expenses d
                          ++ [mk_Expense (next_id d) (Some amount) (Some text)
                                         (Some category) (Some (datetime_now env))
                                         (uid_of (contextvars.get cv))])
                       (next_id d + 1) None)).
Proof.
  intros env cv amount category description d. unfold tool_create_expenses.
  destruct (truthy_int (contextvars.get cv)) eqn:Hid; cbn [negb];
    [| left; eexists; split; reflexivity].
  unfold try_except, bindS, lift, ret, with_session, modify, commit, flush.
  destruct description as [text |]; cbn;
    [| left; eexists; split; reflexivity].
  destruct (write_fault d) as [msg |] eqn:Hfault; cbn.
  - left. eexists. split; reflexivity.
  - right. exists text. rewrite ?Hfault. repeat split.
Qed.

(** The update tool: nothing written and no record returned, or the
    committed bulk update of the caller's rows in the category. *)
Lemma tool_update_expenses_cases :
  forall env cv category description amount date d,
    (snd (tool_update_expenses env cv category description amount date d) = d
     /\ forall t, fst (tool_update_expenses env cv category description amount date d)
                  = Return t -> data t = NoData)
    \/ (exists u upd l,
           truthy_int (contextvars.get cv) = true
           /\ get_user (open d) (uid_of (contextvars.get cv)) = Some u
           /\ filter (in_category category u) (expenses d) <> []
           /\ validate_all (map (set_all upd)
                                (filter (in_category category u) (expenses d))) = Return l
           /\ tool_update_expenses env cv category description amount date d
              = (Return (mk_ToolDict "success"
                           ("Updated " +++ str_int (Z.of_nat (List.length l))
                              +++ " expenses in category '" +++ category +++ "'.")
                           (Updated l)),
                 mk_DB (users d)
                       (fold_left update_row
                                  (map (set_all upd)
                                       (filter (in_category category u) (expenses d)))
                                  (expenses d))
                       (next_id d) None)).
Proof.
  intros env cv category description amount date d.
  destruct (truthy_int (contextvars.get cv)) eqn:Hid.
  2:{ left. unfold tool_update_expenses. rewrite Hid. cbn. split; [reflexivity |].
      intros t Ht. injection Ht as <-. reflexivity. }
  destruct (parse_if_given env date) as [parsed | x] eqn:Hparse.
  2:{ left. unfold tool_update_expenses, try_except, bindS, lift. rewrite Hid, Hparse.
      cbn. split; [reflexivity | intros t Ht; discriminate]. }
  destruct (truthy_str date && is_none parsed) eqn:Hok.
  { left. unfold tool_update_expenses, try_except, bindS, lift, ret.
    rewrite Hid, Hparse, Hok. cbn. split; [reflexivity |].
    intros t Ht. injection Ht as <-. reflexivity. }
  destruct (formatted_date_of parsed) as [formatted | x] eqn:Hfmt.
  2:{ left. unfold tool_update_expenses, try_except, bindS, lift.
      rewrite Hid, Hparse, Hok, Hfmt. cbn. split; [reflexivity | intros t Ht; discriminate]. }
  rewrite (tool_update_expenses_run env cv category description amount date parsed
                                    formatted d Hid Hparse Hok Hfmt).
  destruct (get_user (open d) (uid_of (contextvars.get cv))) as [u |] eqn:Huser.
  2:{ left. split; [reflexivity |]. intros t Ht. injection Ht as <-. reflexivity. }
  rewrite update_expenses_by_category_run.
  destruct (filter (in_category category u) (expenses d)) as [| m ms] eqn:Hsel.
  { left. split; [reflexivity | intros t Ht; discriminate]. }
  destruct (validate_all (map (set_all _) (m :: ms))) as [l | x] eqn:Hval.
  2:{ left. split; [reflexivity | intros t Ht; discriminate]. }
  destruct (write_fault d) as [msg |] eqn:Hfault.
  { left. split; [reflexivity | intros t Ht; discriminate]. }
  right. eexists u, _, l. rewrite Hsel.
  repeat split; try reflexivity; [discriminate | exact Hval].
Qed.

(** The delete tool: nothing written, or the committed removal of the
    caller's rows in the category. *)
Lemma tool_delete_expenses_cases :
  forall cv category d,
    (snd (tool_delete_expenses cv category d) = d
     /\ forall t, fst (tool_delete_expenses cv category d) = Return t -> data t = NoData)
    \/ (exists u text,
           truthy_int (contextvars.get cv) = true
           /\ get_user (open d) (uid_of (contextvars.get cv)) = Some u
           /\ filter (in_category category u) (expenses d) <> []
           /\ tool_delete_expenses cv category d
              = (Return (mk_ToolDict "success" text NoData),
                 mk_DB (users d)
                       (fold_left delete_row
                                  (filter (in_category category u) (expenses d))
                                  (expenses d))
                       (next_id d) None)).
Proof.
  intros cv category d.
  destruct (truthy_int (contextvars.get cv)) eqn:Hid.
  2:{ left. unfold tool_delete_expenses. rewrite Hid. cbn. split; [reflexivity |].
      intros t Ht. injection Ht as <-. reflexivity. }
  rewrite (tool_delete_expenses_run cv category d Hid).
  destruct (get_user (open d) (uid_of (contextvars.get cv))) as [u |] eqn:Huser.
  2:{ left. split; [reflexivity |]. intros t Ht. injection Ht as <-. reflexivity. }
  rewrite delete_expenses_by_category_run.
  destruct (filter (in_category category u) (expenses d)) as [| m ms] eqn:Hsel.
  { left. split; [reflexivity | intros t Ht; discriminate]. }
  destruct (write_fault d) as [msg |] eqn:Hfault.
  { left. split; [reflexivity | intros t Ht; discriminate]. }
  right. eexists u, _. rewrite Hsel. repeat split; try reflexivity. discriminate.
Qed.

Lemma foreign_rows_after_insert :
  forall cv d e n,
    owned cv e = true ->
    foreign_rows cv (mk_DB (users d) (expenses d ++ [e]) n None) = foreign_rows cv d.
Proof.
  intros cv d e n Hown. unfold foreign_rows. cbn [expenses].
  rewrite filter_app. simpl. rewrite Hown. simpl. apply app_nil_r.
Qed.

Lemma owned_of_uid :
  forall cv e,
    truthy_int (contextvars.get cv) = true ->
    user_id e = uid_of (contextvars.get cv) -> owned cv e = true.
Proof.
  intros cv e Hid He. unfold owned.
  destruct (truthy_int_some cv Hid) as [x [Hget [_ Hx]]].
  rewrite Hget in *. simpl in He. rewrite He. apply Z.eqb_refl.
Qed.

Lemma filter_both :
  forall {A} (p q : A -> bool) l,
    filter (fun x => p x && q x) l = filter q (filter p l).
Proof.
  intros A p q l. induction l as [| a l IH]; simpl; [reflexivity |].
  destruct (p a); simpl; [destruct (q a); now rewrite IH | exact IH].
Qed.

Lemma owned_by_uid :
  forall cv e,
    truthy_int (contextvars.get cv) = true ->
    owned cv e = (user_id e =? uid_of (contextvars.get cv)).
Proof.
  intros cv e Hid. unfold owned.
  destruct (truthy_int_some cv Hid) as [x [Hget _]]. now rewrite Hget.
Qed.

(** What the query selects is read off the caller's rows. *)
Lemma select_expenses_of_owned :
  forall cv s category description_keyword ps pe,
    truthy_int (contextvars.get cv) = true ->
    select_expenses s (uid_of (contextvars.get cv)) category description_keyword ps pe
    = filter (fun e => forallb (fun f => f e)
                               (category_filter category
                                  ++ description_filter description_keyword
                                  ++ date_filter ps pe))
             (filter (owned cv) (expenses (db s))).
Proof.
  intros cv s category k ps pe Hid.
  unfold select_expenses, exec_select, query_where. rewrite filter_both. f_equal.
  apply filter_ext. intros e. symmetry. now apply owned_by_uid.
Qed.

(** What a bulk operation selects is read off the caller's rows. *)
Lemma in_category_of_owned :
  forall cv category u rows,
    truthy_int (contextvars.get cv) = true ->
    models_user.id u = uid_of (contextvars.get cv) ->
    filter (in_category category u) rows
    = filter (fun e => Sql.eq_str (models_expense.category e) category)
             (filter (owned cv) rows).
Proof.
  intros cv category u rows Hid Hu. rewrite <- filter_both. apply filter_ext.
  intros e. unfold in_category. rewrite Hu, (owned_by_uid cv e Hid). apply andb_comm.
Qed.

(** The answer of the query tool is the same on two stores with the same
    users and the same rows of the caller. *)
Lemma tool_get_expenses_same :
  forall env cv category start_date end_date description_keyword d d',
    users d' = users d ->
    filter (owned cv) (expenses d') = filter (owned cv) (expenses d) ->
    fst (tool_get_expenses env cv category start_date end_date description_keyword d')
    = fst (tool_get_expenses env cv category start_date end_date description_keyword d).
Proof.
  intros env cv category s e k d d' Husers Hrows. unfold tool_get_expenses.
  destruct (truthy_int (contextvars.get cv)) eqn:Hid; cbn [negb]; [| reflexivity].
  unfold try_except, bindS, lift, ret, with_session, get_state. cbn beta.
  destruct (parse_if_given env s) as [ps | xs]; cbn beta iota; [| reflexivity].
  destruct (parse_if_given env e) as [pe | xe]; cbn beta iota; [| reflexivity].
  destruct (truthy_str s && is_none ps); cbn beta iota; [reflexivity |].
  destruct (truthy_str e && is_none pe); cbn beta iota; [reflexivity |].
  match goal with
  | |- context [match ?g with Return _ => _ | Raise _ => _ end] =>
      match g with
      | match ps with _ => _ end => destruct g as [[|] | xg]
      end
  end; cbn beta iota; try reflexivity.
  rewrite !(select_expenses_of_owned cv _ category k ps pe Hid).
  unfold get_user. cbn [db open]. rewrite Husers, Hrows.
  destruct (find (fun u => models_user.id u =? uid_of (contextvars.get cv)) (users d));
    cbn beta iota; [| reflexivity].
  destruct (render category _); reflexivity.
Qed.

(** The answer of the create tool depends on the store by its next key
    and its readiness to write alone. *)
Lemma tool_create_expenses_same :
  forall env cv amount category description d d',
    next_id d' = next_id d ->
    write_fault d' = write_fault d ->
    fst (tool_create_expenses env cv amount category description d')
    = fst (tool_create_expenses env cv amount category description d).
Proof.
  intros env cv amount category description d d' Hnext Hfault.
  unfold tool_create_expenses.
  destruct (truthy_int (contextvars.get cv)); cbn [negb]; [| reflexivity].
  unfold try_except, bindS, lift, ret, with_session, modify, commit, flush.
  destruct description as [text |]; cbn; [| reflexivity].
  rewrite Hnext, Hfault. destruct (write_fault d); reflexivity.
Qed.

(** The answer of the update tool is the same on two stores with the
    same users, the same readiness to write and the same rows of the
    caller. *)
Lemma tool_update_expenses_same :
  forall env cv category description amount date d d',
    users d' = users d ->
    write_fault d' = write_fault d ->
    filter (owned cv) (expenses d') = filter (owned cv) (expenses d) ->
    fst (tool_update_expenses env cv category description amount date d')
    = fst (tool_update_expenses env cv category description amount date d).
Proof.
  intros env cv category description amount date d d' Husers Hfault Hrows.
  destruct (truthy_int (contextvars.get cv)) eqn:Hid.
  2:{ unfold tool_update_expenses. rewrite Hid. reflexivity. }
  destruct (parse_if_given env date) as [parsed | x] eqn:Hparse.
  2:{ unfold tool_update_expenses, try_except, bindS, lift. rewrite Hid, Hparse.
      reflexivity. }
  destruct (truthy_str date && is_none parsed) eqn:Hok.
  { unfold tool_update_expenses, try_except, bindS, lift, ret.
    rewrite Hid, Hparse, Hok. reflexivity. }
  destruct (formatted_date_of parsed) as [formatted | x] eqn:Hfmt.
  2:{ unfold tool_update_expenses, try_except, bindS, lift.
      rewrite Hid, Hparse, Hok, Hfmt. reflexivity. }
  rewrite !(tool_update_expenses_run env cv category description amount date parsed
                                     formatted _ Hid Hparse Hok Hfmt).
  assert (Huser : get_user (open d') (uid_of (contextvars.get cv))
                  = get_user (open d) (uid_of (contextvars.get cv)))
    by (unfold get_user; cbn [db open]; now rewrite Husers).
  rewrite Huser.
  destruct (get_user (open d) (uid_of (contextvars.get cv))) as [u |] eqn:Hu;
    [| reflexivity].
  rewrite !update_expenses_by_category_run.
  rewrite !(in_category_of_owned cv category u _ Hid (get_user_id _ _ _ Hu)).
  rewrite Hrows, Hfault.
  destruct (filter _ (filter (owned cv) (expenses d))) as [| m ms]; [reflexivity |].
  destruct (validate_all (map (set_all _) (m :: ms))); [| reflexivity].
  destruct (write_fault d); reflexivity.
Qed.

(** The answer of the delete tool is the same on two stores with the
    same users, the same readiness to write and the same rows of the
    caller. *)
Lemma tool_delete_expenses_same :
  forall cv category d d',
    users d' = users d ->
    write_fault d' = write_fault d ->
    filter (owned cv) (expenses d') = filter (owned cv) (expenses d) ->
    fst (tool_delete_expenses cv category d') = fst (tool_delete_expenses cv category d).
Proof.
  intros cv category d d' Husers Hfault Hrows.
  destruct (truthy_int (contextvars.get cv)) eqn:Hid.
  2:{ unfold tool_delete_expenses. rewrite Hid. reflexivity. }
  rewrite !(tool_delete_expenses_run cv category _ Hid).
  assert (Huser : get_user (open d') (uid_of (contextvars.get cv))
                  = get_user (open d) (uid_of (contextvars.get cv)))
    by (unfold get_user; cbn [db open]; now rewrite Husers).
  rewrite Huser.
  destruct (get_user (open d) (uid_of (contextvars.get cv))) as [u |] eqn:Hu;
    [| reflexivity].
  rewrite !delete_expenses_by_category_run.
  rewrite !(in_category_of_owned cv category u _ Hid (get_user_id _ _ _ Hu)).
  rewrite Hrows, Hfault.
  destruct (filter _ (filter (owned cv) (expenses d))) as [| m ms]; [reflexivity |].
  destruct (write_fault d); reflexivity.
Qed.

(** C3, as the code has it.  Every tool is scoped to the identity held by
    the slot.  The query tool never writes and lists only rows of the
    store that belong to the caller and whose category matches the
    pattern [%filter%] under [ILIKE], in which the percent sign and the
    underscore of the filter are wildcards; only for a filter without
    them is this "contains the filter, letter case ignored".  Create,
    bulk update and bulk delete leave the rows of every other user
    exactly as they were, and every record they return belongs to the
    caller.  What a tool answers, texts and messages included, is the
    same on any two stores that differ only in the rows of other users:
    for the query tool, stores with the same users and the same rows of
    the caller; for create, with the same next key and readiness to
    write; for bulk update and bulk delete, with the same users,
    readiness to write and rows of the caller. *)
Theorem tools_scoped_to_caller :
  forall (env : Env) (cv : contextvars.ContextVar) (d : DB),
    NoDup (map id (expenses d)) ->
    (forall category start_date end_date description_keyword,
        snd (tool_get_expenses env cv category start_date end_date description_keyword d) = d
        /\ ((exists msg,
                fst (tool_get_expenses env cv category start_date end_date
                                       description_keyword d) = Return msg
                /\ String.prefix "Error" msg = true)
            \/ (exists listed,
                   fst (tool_get_expenses env cv category start_date end_date
                                          description_keyword d)
                   = render category listed
                   /\ Forall (fun r =>
                                In r (expenses d)
                                /\ owned cv r = true
                                /\ forall c, category = Some c -> c <> EmptyString ->
                                     exists v,
                                       models_expense.category r = Some v
                                       /\ Sql.ilike (Some v) ("%" +++ c +++ "%") = true
                                       /\ (wildcard_free c -> contains_ci v c))
                             listed))
        /\ (forall d',
               users d' = users d ->
               filter (owned cv) (expenses d') = filter (owned cv) (expenses d) ->
               fst (tool_get_expenses env cv category start_date end_date
                                      description_keyword d')
               = fst (tool_get_expenses env cv category start_date end_date
                                        description_keyword d)))
    /\ (forall amount category description,
           foreign_rows cv (snd (tool_create_expenses env cv amount category description d))
           = foreign_rows cv d
           /\ result_owned (uid_of (contextvars.get cv))
                           (fst (tool_create_expenses env cv amount category description d))
           /\ (exists added,
                  expenses (snd (tool_create_expenses env cv amount category description d))
                  = expenses d ++ added)
           /\ (forall d',
                  next_id d' = next_id d ->
                  write_fault d' = write_fault d ->
                  fst (tool_create_expenses env cv amount category description d')
                  = fst (tool_create_expenses env cv amount category description d)))
    /\ (forall category description amount date,
           foreign_rows cv (snd (tool_update_expenses env cv category description amount
                                                      date d))
           = foreign_rows cv d
           /\ result_owned (uid_of (contextvars.get cv))
                           (fst (tool_update_expenses env cv category description amount
                                                      date d))
           /\ (forall d',
                  users d' = users d ->
                  write_fault d' = write_fault d ->
                  filter (owned cv) (expenses d') = filter (owned cv) (expenses d) ->
                  fst (tool_update_expenses env cv category description amount date d')
                  = fst (tool_update_expenses env cv category description amount date d)))
    /\ (forall category,
           foreign_rows cv (snd (tool_delete_expenses cv category d)) = foreign_rows cv d
           /\ result_owned (uid_of (contextvars.get cv))
                           (fst (tool_delete_expenses cv category d))
           /\ (forall d',
                  users d' = users d ->
                  write_fault d' = write_fault d ->
                  filter (owned cv) (expenses d') = filter (owned cv) (expenses d) ->
                  fst (tool_delete_expenses cv category d')
                  = fst (tool_delete_expenses cv category d))).
Proof.
  intros env cv d Hkey. split; [| split; [| split]].
  - intros cat start_date end_date description_keyword.
    split; [apply tool_get_expenses_answer |].
    split; [| intros d'; apply tool_get_expenses_same].
    destruct (tool_get_expenses_answer env cv cat start_date end_date
                                       description_keyword d)
      as [_ [Herr | [ps [pe [Hid Hlist]]]]]; [left; exact Herr |].
    right. eexists. split; [exact Hlist |].
    apply Forall_forall. intros r Hr.
    apply select_expenses_scoped in Hr. destruct Hr as [Hrows [Huid Hcat]].
    split; [exact Hrows |]. split; [now apply owned_of_uid |].
    intros c Hc Hne. specialize (Hcat c Hc Hne).
    destruct (models_expense.category r) as [v |] eqn:Hv; [| discriminate].
    exists v. split; [reflexivity |]. split; [exact Hcat |].
    intros Hfree. now apply contains_of_ilike.
  - intros amt cat descr.
    assert (Hsame : forall d',
               next_id d' = next_id d -> write_fault d' = write_fault d ->
               fst (tool_create_expenses env cv amt cat descr d')
               = fst (tool_create_expenses env cv amt cat descr d))
      by (intros d'; apply tool_create_expenses_same).
    destruct (tool_create_expenses_cases env cv amt cat descr d)
      as [[t [Hrun Ht]] | [text [Hid [_ [_ Hrun]]]]]; rewrite Hrun in *; cbn [fst snd].
    + split; [reflexivity |]. split; [cbn; now rewrite Ht |].
      split; [exists []; now rewrite app_nil_r | exact Hsame].
    + split; [apply foreign_rows_after_insert; now apply owned_of_uid |].
      split; [reflexivity |]. split; [eexists; reflexivity | exact Hsame].
  - intros cat descr amt dt.
    assert (Hsame : forall d',
               users d' = users d -> write_fault d' = write_fault d ->
               filter (owned cv) (expenses d') = filter (owned cv) (expenses d) ->
               fst (tool_update_expenses env cv cat descr amt dt d')
               = fst (tool_update_expenses env cv cat descr amt dt d))
      by (intros d'; apply tool_update_expenses_same).
    destruct (tool_update_expenses_cases env cv cat descr amt dt d)
      as [[Hsnd Hnone] | [u [upd [l [Hid [Huser [_ [Hval Hrun]]]]]]]].
    + rewrite Hsnd. split; [reflexivity |]. split; [| exact Hsame].
      destruct (fst (tool_update_expenses env cv cat descr amt dt d))
        as [t |]; cbn; [now rewrite (Hnone t eq_refl) | exact I].
    + rewrite Hrun in *. cbn [fst snd]. split; [| split; [| exact Hsame]].
      * unfold foreign_rows. cbn [expenses].
        rewrite bulk_update_rows; [| exact Hkey | intros e; apply set_all_keeps_key].
        apply filter_frame_map. intros r Hr.
        destruct (in_category_owned cv cat u r Hid (get_user_id _ _ _ Huser) Hr)
          as [Hu Hown].
        split; [now rewrite Hown |].
        rewrite (owned_of_uid cv (set_all upd r) Hid); [reflexivity |].
        destruct (set_all_keeps_key upd r) as [_ ->]. exact Hu.
      * cbn. apply (validate_all_owner _ _ _ Hval).
        apply Forall_forall. intros e He. apply in_map_iff in He.
        destruct He as [r [<- Hr]]. apply filter_In in Hr. destruct Hr as [_ Hr].
        destruct (set_all_keeps_key upd r) as [_ ->].
        apply (in_category_owned cv cat u r Hid (get_user_id _ _ _ Huser) Hr).
  - intros cat.
    assert (Hsame : forall d',
               users d' = users d -> write_fault d' = write_fault d ->
               filter (owned cv) (expenses d') = filter (owned cv) (expenses d) ->
               fst (tool_delete_expenses cv cat d') = fst (tool_delete_expenses cv cat d))
      by (intros d'; apply tool_delete_expenses_same).
    destruct (tool_delete_expenses_cases cv cat d)
      as [[Hsnd Hnone] | [u [text [Hid [Huser [_ Hrun]]]]]].
    + rewrite Hsnd. split; [reflexivity |]. split; [| exact Hsame].
      destruct (fst (tool_delete_expenses cv cat d)) as [t |]; cbn;
        [now rewrite (Hnone t eq_refl) | exact I].
    + rewrite Hrun in *. cbn [fst snd]. split; [| split; [exact I | exact Hsame]].
      unfold foreign_rows. cbn [expenses].
      rewrite bulk_delete_rows by exact Hkey.
      apply filter_frame_filter. intros r Hr.
      destruct (in_category_owned cv cat u r Hid (get_user_id _ _ _ Huser) Hr)
        as [_ Hown].
      now rewrite Hown.
Qed.

Lemma sample_keys_distinct : NoDup (map id (expenses Sample.db0)).
Proof. repeat constructor; simpl; intuition discriminate. Qed.

Lemma tools_scoped_to_caller_witness :
  foreign_rows Sample.as_alice (snd (tool_delete_expenses Sample.as_alice "Travel" Sample.db0))
  = foreign_rows Sample.as_alice Sample.db0
  /\ result_owned 1 (fst (tool_delete_expenses Sample.as_alice "Travel" Sample.db0))
  /\ (forall d',
         users d' = users Sample.db0 ->
         write_fault d' = write_fault Sample.db0 ->
         filter (owned Sample.as_alice) (expenses d')
         = filter (owned Sample.as_alice) (expenses Sample.db0) ->
         fst (tool_delete_expenses Sample.as_alice "Travel" d')
         = fst (tool_delete_expenses Sample.as_alice "Travel" Sample.db0)).
Proof.
  destruct (tools_scoped_to_caller Sample.env Sample.as_alice Sample.db0
                                   sample_keys_distinct) as [_ [_ [_ Hdelete]]].
  exact (Hdelete "Travel").
Defined.

(** C3, counterexample to the claim as stated.  Alice asks for the
    category filter [tr%l]: the tool lists her record under "Travel",
    a category that does not contain the text of the filter, whatever
    the letter case. *)
Lemma query_lists_a_category_without_the_filter_text :
  tool_get_expenses Sample.env Sample.as_alice (Some "tr%l") None None None Sample.db0
  = (Return ("Here are your expenses for " +++ dquote +++ "tr%l" +++ dquote +++ ":"
               +++ nl
               +++ "ID: 1 | Description: Flight | Amount: $200.00 | Category: Travel"
               +++ " | User ID: 1 | Date: 2024-01-05"
               +++ nl +++ nl +++ "Total: $200.00"),
     Sample.db0)
  /\ select_expenses (open Sample.db0) 1 (Some "tr%l") None None None = [Sample.flight]
  /\ models_expense.category Sample.flight = Some "Travel"
  /\ ~ contains_ci "Travel" "tr%l".
Proof.
  split; [vm_compute; reflexivity |]. split; [vm_compute; reflexivity |].
  split; [reflexivity |].
  intros [pre [post H]].
  assert (Hin : In Sql.pct (lower (list_ascii_of_string "Travel"))).
  { rewrite H. apply in_or_app. right. apply in_or_app. left.
    vm_compute. right. right. now left. }
  vm_compute in Hin. intuition discriminate.
Qed.

(* --------------------------------------------------------------------- *)
(** ** Create, then query                                                 *)
(* --------------------------------------------------------------------- *)

Lemma get_user_found :
  forall d uid,
    In uid (map models_user.id (users d)) ->
    exists u, get_user (open d) uid = Some u.
Proof.
  intros d uid. unfold get_user. cbn [db open].
  induction (users d) as [| u us IH]; intros Hin; [contradiction |].
  simpl. destruct (models_user.id u =? uid) eqn:Hu; [now exists u |].
  destruct Hin as [Heq | Hin]; [| now apply IH].
  rewrite Heq, Z.eqb_refl in Hu. discriminate.
Qed.

Lemma filter_none :
  forall {A} (p : A -> bool) l, (forall x, In x l -> p x = false) -> filter p l = [].
Proof.
  intros A p l H. induction l as [| a l IH]; simpl; [reflexivity |].
  rewrite (H a (or_introl eq_refl)). apply IH. intros x Hx. apply H. now right.
Qed.

Lemma sum_of_fifty : PyFloat.sum [Some 50%float] = Return 50%float.
Proof. vm_compute. reflexivity. Qed.

Lemma fifty_two_decimals : PyFloat.format_2f 50%float = "50.00".
Proof. vm_compute. reflexivity. Qed.

Lemma food_matches_food : Sql.ilike (Some "Food") ("%" +++ "Food" +++ "%") = true.
Proof. vm_compute. reflexivity. Qed.

(** C9.  For a caller U who is a user of the store and has no record whose
    category matches "Food", creating (50, "Food", "Groceries") stores one
    row owned by U and stamped with the current time; the query by
    category "Food" that follows selects exactly that row and answers with
    its line and the total 50.00. *)
Theorem create_then_query_round_trip :
  forall (env : Env) (cv : contextvars.ContextVar) (d : DB) (U : Z),
    contextvars.get cv = Some U ->
    U <> 0 ->
    In U (map models_user.id (users d)) ->
    write_fault d = None ->
    (forall r, In r (expenses d) -> user_id r = U ->
               Sql.ilike (models_expense.category r) "%Food%" = false) ->
    exists d1,
      tool_create_expenses env cv 50%float "Food" (Some "Groceries") d
      = (Return (mk_ToolDict "success" "Expense stored successfully."
                   (Created (mk_Expense (next_id d) (Some 50%float) (Some "Groceries")
                                        (Some "Food") (Some (datetime_now env)) U))),
         d1)
      /\ expenses d1
         = expenses d ++ [mk_Expense (next_id d) (Some 50%float) (Some "Groceries")
                                     (Some "Food") (Some (datetime_now env)) U]
      /\ select_expenses (open d1) U (Some "Food") None None None
         = [mk_Expense (next_id d) (Some 50%float) (Some "Groceries")
                       (Some "Food") (Some (datetime_now env)) U]
      /\ tool_get_expenses env cv (Some "Food") None None None d1
         = (Return ("Here are your expenses for " +++ dquote +++ "Food" +++ dquote +++ ":"
                      +++ nl
                      +++ ("ID: " +++ str_int (next_id d)
                             +++ " | Description: Groceries | Amount: $50.00 | Category: Food"
                             +++ " | User ID: " +++ str_int U
                             +++ " | Date: " +++ DT.strftime_ymd (datetime_now env))
                      +++ nl +++ nl +++ "Total: $50.00"),
            d1).
Proof.
  intros env cv d U Hget HU Huser Hfault Hfresh.
  assert (Hid : truthy_int (contextvars.get cv) = true).
  { rewrite Hget. simpl. apply Z.eqb_neq in HU. now rewrite HU. }
  set (created := mk_Expense (next_id d) (Some 50%float) (Some "Groceries")
                             (Some "Food") (Some (datetime_now env)) U).
  exists (mk_DB (users d) (expenses d ++ [created]) (next_id d + 1) None).
  assert (Hsel : select_expenses
                   (open (mk_DB (users d) (expenses d ++ [created]) (next_id d + 1) None))
                   U (Some "Food") None None None = [created]).
  { unfold select_expenses, exec_select. cbn [db open expenses].
    rewrite filter_app. rewrite filter_none.
    - simpl. unfold query_where. cbn [user_id created forallb category_filter
                                        description_filter date_filter app truthy_str].
      rewrite Z.eqb_refl. cbn [forallb models_expense.category andb].
      change (Sql.ilike (models_expense.category created) "%Food%")
        with (Sql.ilike (Some "Food") ("%" +++ "Food" +++ "%")).
      rewrite food_matches_food. reflexivity.
    - intros r Hr. unfold query_where.
      destruct (user_id r =? U) eqn:Hu; [| reflexivity].
      apply Z.eqb_eq in Hu. simpl. now rewrite (Hfresh r Hr Hu). }
  split; [| split; [reflexivity | split; [exact Hsel |]]].
  - destruct (tool_create_expenses_cases env cv 50%float "Food" (Some "Groceries") d)
      as [[t [Hrun Ht]] | [text [_ [Htext [_ Hrun]]]]].
    + exfalso. revert Hrun. unfold tool_create_expenses.
      rewrite Hid. cbn [negb].
      unfold try_except, bindS, lift, ret, with_session, modify, commit, flush. cbn.
      rewrite Hfault. cbn. intros Hrun. injection Hrun as <- _. discriminate.
    + injection Htext as <-. rewrite Hrun, Hget. reflexivity.
  - unfold tool_get_expenses. rewrite Hid. cbn [negb].
    unfold try_except, bindS, lift, ret, with_session, get_state. cbn beta iota.
    cbn [parse_if_given truthy_str is_none andb].
    destruct (get_user_found (mk_DB (users d) (expenses d ++ [created]) (next_id d + 1) None)
                             U Huser) as [u Hu].
    rewrite Hget. cbn [uid_of]. rewrite Hu, Hsel.
    unfold render, created. cbn [map amount]. rewrite sum_of_fifty.
    cbn [Py.bind format_all format_expense amount]. rewrite fifty_two_decimals.
    reflexivity.
Qed.

Lemma create_then_query_round_trip_witness :
  exists d1,
    tool_create_expenses Sample.env Sample.as_alice 50%float "Food" (Some "Groceries")
                         Sample.db1
    = (Return (mk_ToolDict "success" "Expense stored successfully."
                 (Created (mk_Expense 6 (Some 50%float) (Some "Groceries")
                                      (Some "Food") (Some (Sample.day 2024 3 5)) 1))),
       d1)
    /\ expenses d1
       = expenses Sample.db1 ++ [mk_Expense 6 (Some 50%float) (Some "Groceries")
                                            (Some "Food") (Some (Sample.day 2024 3 5)) 1]
    /\ select_expenses (open d1) 1 (Some "Food") None None None
       = [mk_Expense 6 (Some 50%float) (Some "Groceries")
                     (Some "Food") (Some (Sample.day 2024 3 5)) 1]
    /\ tool_get_expenses Sample.env Sample.as_alice (Some "Food") None None None d1
       = (Return ("Here are your expenses for " +++ dquote +++ "Food" +++ dquote +++ ":"
                    +++ nl
                    +++ ("ID: " +++ str_int 6
                           +++ " | Description: Groceries | Amount: $50.00 | Category: Food"
                           +++ " | User ID: " +++ str_int 1
                           +++ " | Date: " +++ DT.strftime_ymd (Sample.day 2024 3 5))
                    +++ nl +++ nl +++ "Total: $50.00"),
          d1).
Proof.
  apply (create_then_query_round_trip Sample.env Sample.as_alice Sample.db1 1).
  - reflexivity.
  - discriminate.
  - simpl. now left.
  - reflexivity.
  - intros r Hr Hu. simpl in Hr.
    destruct Hr as [<- | [<- | [<- | []]]]; try reflexivity; simpl in Hu; discriminate.
Defined.

(* --------------------------------------------------------------------- *)
(** ** Bulk update with only the amount supplied                          *)
(* --------------------------------------------------------------------- *)

(** What the update tool writes on a row: all four attributes, since it
    passes all four keywords to [ExpenseUpdate]. *)
Lemma set_all_from_tool :
  forall description amount category date e,
    set_all (mk_ExpenseUpdate description amount (Some category) date
                              [F_description; F_amount; F_category; F_date]) e
    = mk_Expense (id e) amount description (Some category) date (user_id e).
Proof. reflexivity. Qed.

(** The same controller, given an update in which only [amount] was set
    (as the REST route builds it from a request body), touches the amount
    alone. *)
Lemma set_all_amount_only :
  forall description amount category date e,
    set_all (mk_ExpenseUpdate description amount category date [F_amount]) e
    = mk_Expense (id e) amount (models_expense.description e)
                 (models_expense.category e) (models_expense.date e) (user_id e).
Proof. reflexivity. Qed.

(** C2, the failing path.  A bulk update through the tool with only the
    amount supplied, on a category in which the caller has at least one
    record: the tool still passes [description=None] and [date=None] to
    [ExpenseUpdate], so both count as set, [setattr] writes [None] over
    the description and the date of the first matched row, validation of
    that row fails, the session is rolled back and the controller raises
    its 500, on which the tool's [except HTTPException] raises
    [NameError].  No amount is updated. *)
Theorem tool_update_expenses_amount_only_fails :
  forall (env : Env) (cv : contextvars.ContextVar) (category : string)
         (amount : option float) (d : DB) (current_user : models_user.User)
         (m : Expense) (ms : list Expense),
    truthy_int (contextvars.get cv) = true ->
    get_user (open d) (uid_of (contextvars.get cv)) = Some current_user ->
    filter (in_category category current_user) (expenses d) = m :: ms ->
    models_expense.description
      (set_all (mk_ExpenseUpdate None amount (Some category) None
                                 [F_description; F_amount; F_category; F_date]) m) = None
    /\ tool_update_expenses env cv category None amount None d
       = (Raise (NameError "HTTPException"), d).
Proof.
  intros env cv category amount d u m ms Hid Huser Hsel.
  split; [reflexivity |].
  rewrite (tool_update_expenses_run env cv category None amount None None None d Hid
                                    eq_refl eq_refl eq_refl).
  rewrite Huser, update_expenses_by_category_run, Hsel.
  cbn [map validate_all]. rewrite set_all_from_tool. reflexivity.
Qed.

Lemma tool_update_expenses_amount_only_fails_witness :
  models_expense.description
    (set_all (mk_ExpenseUpdate None (Some 100%float) (Some "Travel") None
                               [F_description; F_amount; F_category; F_date])
             Sample.flight) = None
  /\ tool_update_expenses Sample.env Sample.as_alice "Travel" None (Some 100%float) None
                          Sample.db0
     = (Raise (NameError "HTTPException"), Sample.db0).
Proof.
  apply (tool_update_expenses_amount_only_fails
           Sample.env Sample.as_alice "Travel" (Some 100%float) Sample.db0
           Sample.alice Sample.flight []);
    reflexivity.
Defined.

(* --------------------------------------------------------------------- *)
(** ** Exact selection in bulk operations, pattern selection in queries   *)
(* --------------------------------------------------------------------- *)

Lemma in_category_exact :
  forall category u x,
    in_category category u x = true
    <-> (models_expense.category x = Some category /\ user_id x = models_user.id u).
Proof.
  intros category u x. unfold in_category, Sql.eq_str. rewrite andb_true_iff, Z.eqb_eq.
  destruct (models_expense.category x) as [v |].
  - rewrite String.eqb_eq. split; intros [H1 H2]; split; congruence.
  - split; intros [H1 H2]; discriminate.
Qed.

(** The query tool when only a category is given. *)
Lemma tool_get_expenses_by_category :
  forall env cv d u category,
    truthy_int (contextvars.get cv) = true ->
    get_user (open d) (uid_of (contextvars.get cv)) = Some u ->
    tool_get_expenses env cv category None None None d
    = (match render category
                    (select_expenses (open d) (uid_of (contextvars.get cv))
                                     category None None None) with
       | Return text => Return text
       | Raise x => Return ("Error retrieving expenses: " +++ str_exn x)
       end, d).
Proof.
  intros env cv d u category Hid Huser. unfold tool_get_expenses. rewrite Hid.
  cbn [negb]. unfold try_except, bindS, lift, ret, with_session, get_state.
  cbn beta iota. cbn [parse_if_given truthy_str is_none andb]. rewrite Huser.
  destruct (render category _); reflexivity.
Qed.

Lemma selected_when_contained :
  forall d uid selector r v,
    In r (expenses d) ->
    user_id r = uid ->
    models_expense.category r = Some v ->
    contains_ci v selector ->
    In r (select_expenses (open d) uid (Some selector) None None None).
Proof.
  intros d uid selector r v Hr Hu Hv Hc.
  unfold select_expenses, exec_select. apply filter_In. split; [exact Hr |].
  unfold query_where. rewrite Hu, Z.eqb_refl. cbn [andb].
  unfold category_filter.
  destruct (truthy_str (Some selector));
    cbn [app description_filter date_filter forallb]; [| reflexivity].
  rewrite Hv, (ilike_of_contains v selector Hc). reflexivity.
Qed.

Lemma kept_by_bulk_update :
  forall d category u upd r,
    NoDup (map id (expenses d)) ->
    In r (expenses d) ->
    in_category category u r = false ->
    In r (fold_left update_row
                    (map (set_all upd) (filter (in_category category u) (expenses d)))
                    (expenses d)).
Proof.
  intros d category u upd r Hkey Hr Hnot.
  rewrite bulk_update_rows; [| exact Hkey | intros e; apply set_all_keeps_key].
  apply in_map_iff. exists r. now rewrite Hnot.
Qed.

Lemma kept_by_bulk_delete :
  forall d category u r,
    NoDup (map id (expenses d)) ->
    In r (expenses d) ->
    in_category category u r = false ->
    In r (fold_left delete_row (filter (in_category category u) (expenses d))
                    (expenses d)).
Proof.
  intros d category u r Hkey Hr Hnot.
  rewrite bulk_delete_rows by exact Hkey.
  apply filter_In. now rewrite Hnot.
Qed.

(** C10, as the code has it.  Bulk update and bulk delete select the
    caller's rows whose category is exactly the selector; the query
    selects by [ILIKE %selector%].  A row of the caller whose category is
    another string that contains the selector, letter case ignored, is
    therefore selected by the query and is still in the table, as it was,
    after a bulk update or bulk delete with that selector, through the
    controller or through the tools.  When no row of the caller carries
    the selector exactly, both controller functions raise the 404 "No
    expenses found in category" and both tools hand the store back as it
    was. *)
Theorem bulk_selection_exact_query_selection_by_pattern :
  forall (env : Env) (cv : contextvars.ContextVar) (d : DB) (u : models_user.User)
         (selector : string) (r : Expense) (v : string),
    NoDup (map id (expenses d)) ->
    truthy_int (contextvars.get cv) = true ->
    get_user (open d) (uid_of (contextvars.get cv)) = Some u ->
    In r (expenses d) ->
    user_id r = models_user.id u ->
    models_expense.category r = Some v ->
    v <> selector ->
    contains_ci v selector ->
    (forall x, in_category selector u x = true
               <-> (models_expense.category x = Some selector
                    /\ user_id x = models_user.id u))
    /\ In r (select_expenses (open d) (uid_of (contextvars.get cv)) (Some selector)
                             None None None)
    /\ tool_get_expenses env cv (Some selector) None None None d
       = (match render (Some selector)
                       (select_expenses (open d) (uid_of (contextvars.get cv))
                                        (Some selector) None None None) with
          | Return text => Return text
          | Raise x => Return ("Error retrieving expenses: " +++ str_exn x)
          end, d)
    /\ (forall upd,
           In r (expenses (db (snd (update_expenses_by_category selector upd u (open d))))))
    /\ In r (expenses (db (snd (delete_expenses_by_category selector u (open d)))))
    /\ (forall description amount date,
           In r (expenses (snd (tool_update_expenses env cv selector description amount
                                                     date d))))
    /\ In r (expenses (snd (tool_delete_expenses cv selector d)))
    /\ ((forall x, In x (expenses d) -> user_id x = models_user.id u ->
                   models_expense.category x <> Some selector) ->
        (forall upd,
            update_expenses_by_category selector upd u (open d)
            = (Raise (HTTPException 404 (not_found_detail selector)), open d))
        /\ delete_expenses_by_category selector u (open d)
           = (Raise (HTTPException 404 (not_found_detail selector)), open d)
        /\ (forall description amount date,
               snd (tool_update_expenses env cv selector description amount date d) = d)
        /\ snd (tool_delete_expenses cv selector d) = d).
Proof.
  intros env cv d u selector r v Hkey Hid Huser Hr Hown Hv Hne Hc.
  pose proof (get_user_id _ _ _ Huser) as Hu.
  assert (Hnot : in_category selector u r = false).
  { destruct (in_category selector u r) eqn:E; [| reflexivity].
    apply in_category_exact in E. destruct E as [E _]. congruence. }
  assert (Hsame : forall u', get_user (open d) (uid_of (contextvars.get cv)) = Some u' ->
                             u' = u) by (intros u' Hu'; congruence).
  split; [intros x; apply in_category_exact |].
  split; [apply (selected_when_contained d _ selector r v Hr); congruence |].
  split; [now apply (tool_get_expenses_by_category env cv d u) |].
  split.
  { intros upd. rewrite update_expenses_by_category_run.
    pose proof (kept_by_bulk_update d selector u upd r Hkey Hr Hnot) as Hkept.
    destruct (filter (in_category selector u) (expenses d)) as [| m ms]; [exact Hr |].
    destruct (validate_all _); [| exact Hr].
    destruct (write_fault d); [exact Hr | exact Hkept]. }
  split.
  { rewrite delete_expenses_by_category_run.
    pose proof (kept_by_bulk_delete d selector u r Hkey Hr Hnot) as Hkept.
    destruct (filter (in_category selector u) (expenses d)) as [| m ms]; [exact Hr |].
    destruct (write_fault d); [exact Hr | exact Hkept]. }
  split.
  { intros description amount date.
    destruct (tool_update_expenses_cases env cv selector description amount date d)
      as [[-> _] | [u' [upd [l [_ [Hu' [_ [_ ->]]]]]]]]; [exact Hr |].
    rewrite (Hsame u' Hu'). cbn [snd expenses].
    now apply kept_by_bulk_update. }
  split.
  { destruct (tool_delete_expenses_cases cv selector d)
      as [[-> _] | [u' [text [_ [Hu' [_ ->]]]]]]; [exact Hr |].
    rewrite (Hsame u' Hu'). cbn [snd expenses].
    now apply kept_by_bulk_delete. }
  intros Hnone.
  assert (Hempty : filter (in_category selector u) (expenses d) = []).
  { apply filter_none. intros x Hx.
    destruct (in_category selector u x) eqn:E; [| reflexivity].
    apply in_category_exact in E. destruct E as [E1 E2].
    exfalso. exact (Hnone x Hx E2 E1). }
  split; [intros upd; rewrite update_expenses_by_category_run, Hempty; reflexivity |].
  split; [rewrite delete_expenses_by_category_run, Hempty; reflexivity |].
  split.
  - intros description amount date.
    destruct (tool_update_expenses_cases env cv selector description amount date d)
      as [[Hd _] | [u' [upd [l [_ [Hu' [Hsome _]]]]]]]; [exact Hd |].
    rewrite (Hsame u' Hu') in Hsome. contradiction.
  - destruct (tool_delete_expenses_cases cv selector d)
      as [[Hd _] | [u' [text [_ [Hu' [Hsome _]]]]]]; [exact Hd |].
    rewrite (Hsame u' Hu') in Hsome. contradiction.
Qed.

Lemma bulk_selection_exact_query_selection_by_pattern_witness :
  In Sample.lunch
     (select_expenses (open Sample.db0) 1 (Some "Food") None None None)
  /\ In Sample.lunch (expenses (snd (tool_delete_expenses Sample.as_alice "Food" Sample.db0)))
  /\ delete_expenses_by_category "Food" Sample.alice (open Sample.db0)
     = (Raise (HTTPException 404 (not_found_detail "Food")), open Sample.db0).
Proof.
  destruct (bulk_selection_exact_query_selection_by_pattern
              Sample.env Sample.as_alice Sample.db0 Sample.alice "Food" Sample.lunch "food")
    as [_ [Hquery [_ [_ [_ [_ [Hdelete Hnone]]]]]]].
  - exact sample_keys_distinct.
  - reflexivity.
  - reflexivity.
  - simpl. right. now left.
  - reflexivity.
  - reflexivity.
  - discriminate.
  - exists [], []. reflexivity.
  - split; [exact Hquery |]. split; [exact Hdelete |].
    apply Hnone. intros x Hx Hu. simpl in Hx.
    destruct Hx as [<- | [<- | [<- | []]]]; discriminate.
Defined.

(** C10, counterexample to the claim as stated.  Alice holds "food" and
    "Food"; the record under "food" differs from the selector "Food" only
    in letter case, yet bulk delete and bulk update with that selector
    find a match (the other record), report success and change the
    store. *)
Lemma bulk_operations_match_despite_case_variant :
  models_expense.category Sample.lunch = Some "food"
  /\ lower (list_ascii_of_string "food") = lower (list_ascii_of_string "Food")
  /\ In Sample.lunch (expenses Sample.db2)
  /\ user_id Sample.lunch = models_user.id Sample.alice
  /\ tool_delete_expenses Sample.as_alice "Food" Sample.db2
     = (Return (mk_ToolDict "success" "Deleted 1 expenses in category 'Food'." NoData),
        mk_DB [Sample.alice; Sample.bob] [Sample.lunch] 8 None)
  /\ tool_update_expenses Sample.env Sample.as_alice "Food" (Some "Dinner out")
                          (Some 45%float) (Some "1 January 2024") Sample.db2
     = (Return (mk_ToolDict "success" "Updated 1 expenses in category 'Food'."
                  (Updated [mk_ExpenseInDB 7 "Dinner out" 45%float "Food"
                                           (DT.reparse_iso_z (Sample.day 2024 1 1)) 1])),
        mk_DB [Sample.alice; Sample.bob]
              [Sample.lunch;
               mk_Expense 7 (Some 45%float) (Some "Dinner out") (Some "Food")
                          (Some (DT.reparse_iso_z (Sample.day 2024 1 1))) 1]
              8 None).
Proof. vm_compute. repeat split. now left. Qed.

(* --------------------------------------------------------------------- *)
(** ** The primary key is kept by every tool                              *)
(* --------------------------------------------------------------------- *)

Lemma keys_after_bulk_update :
  forall (p : Expense -> bool) (f : Expense -> Expense) rows,
    (forall e, id (f e) = id e) ->
    map id (map (fun r => if p r then f r else r) rows) = map id rows.
Proof.
  intros p f rows Hf. rewrite map_map. apply map_ext. intros r.
  destruct (p r); [apply Hf | reflexivity].
Qed.

Lemma keys_distinct_after_filter :
  forall (p : Expense -> bool) rows,
    NoDup (map id rows) -> NoDup (map id (filter p rows)).
Proof.
  intros p rows. induction rows as [| r rows IH]; intros Hnd; simpl; [constructor |].
  inversion Hnd as [| ? ? Hnotin Hnd']; subst.
  destruct (p r); simpl; [| now apply IH].
  constructor; [| now apply IH].
  intros Hin. apply Hnotin. apply in_map_iff in Hin. destruct Hin as [x [Hx Hxin]].
  apply filter_In in Hxin. rewrite <- Hx. apply in_map. tauto.
Qed.

(** The hypothesis on keys made above is an invariant of the store: each
    tool hands back a well-formed store when it is given one. *)
Lemma tools_keep_store_well_formed :
  forall env cv d,
    well_formed d ->
    (forall c s e k, well_formed (snd (tool_get_expenses env cv c s e k d)))
    /\ (forall a c t, well_formed (snd (tool_create_expenses env cv a c t d)))
    /\ (forall c t a dt, well_formed (snd (tool_update_expenses env cv c t a dt d)))
    /\ (forall c, well_formed (snd (tool_delete_expenses cv c d))).
Proof.
  intros env cv d [Hkey Hbelow]. split; [| split; [| split]].
  - intros c s e k.
    destruct (tool_get_expenses_answer env cv c s e k d) as [-> _]. now split.
  - intros a c t.
    destruct (tool_create_expenses_cases env cv a c t d)
      as [[x [-> _]] | [text [_ [_ [_ ->]]]]]; [now split |].
    cbn [snd]. split; cbn [expenses next_id].
    + rewrite map_app. apply NoDup_app; [exact Hkey | repeat constructor; intros [] |].
      intros i Hi [Heq | []]. cbn in Heq. subst i.
      apply in_map_iff in Hi. destruct Hi as [r [Hr Hin]].
      rewrite Forall_forall in Hbelow. specialize (Hbelow r Hin). lia.
    + apply Forall_app. split.
      * apply (Forall_impl _ (P := fun r => id r < next_id d)); [intros r Hr; lia | exact Hbelow].
      * repeat constructor. cbn. lia.
  - intros c t a dt.
    destruct (tool_update_expenses_cases env cv c t a dt d)
      as [[-> _] | [u [upd [l [_ [_ [_ [_ ->]]]]]]]]; [now split |].
    cbn [snd]. split; cbn [expenses next_id];
      rewrite bulk_update_rows by (exact Hkey || (intros x; apply set_all_keeps_key)).
    + rewrite keys_after_bulk_update by (intros x; apply set_all_keeps_key). exact Hkey.
    + apply Forall_forall. intros r Hr. apply in_map_iff in Hr.
      destruct Hr as [x [Hx Hin]]. rewrite Forall_forall in Hbelow.
      specialize (Hbelow x Hin). subst r.
      destruct (in_category c u x); [| exact Hbelow].
      destruct (set_all_keeps_key upd x) as [-> _]. exact Hbelow.
  - intros c.
    destruct (tool_delete_expenses_cases cv c d)
      as [[-> _] | [u [text [_ [_ [_ ->]]]]]]; [now split |].
    cbn [snd]. split; cbn [expenses next_id]; rewrite bulk_delete_rows by exact Hkey.
    + now apply keys_distinct_after_filter.
    + apply Forall_forall. intros r Hr. apply filter_In in Hr.
      rewrite Forall_forall in Hbelow. now apply Hbelow.
Qed.

(* ===================================================================== *)
(** * Further properties: the functions behind the REST routes           *)
(* ===================================================================== *)

Import expense_controller_crud SpecMore.

Lemma from_orm_fields :
  forall e v,
    from_orm e = Return v ->
    d_id v = id e /\ d_user_id v = user_id e
    /\ description e = Some (d_description v) /\ amount e = Some (d_amount v)
    /\ models_expense.category e = Some (d_category v) /\ date e = Some (d_date v).
Proof.
  intros e v H. unfold from_orm in H.
  destruct (description e), (amount e), (models_expense.category e), (date e);
    try discriminate.
  injection H as <-. repeat split.
Qed.

Lemma from_orm_each_returns :
  forall l vs,
    from_orm_each l = Return vs ->
    map d_id vs = map id l /\ map d_user_id vs = map user_id l
    /\ map (fun v => Some (d_category v)) vs = map models_expense.category l.
Proof.
  induction l as [| e l IH]; intros vs H; simpl in H.
  - injection H as <-. repeat split.
  - destruct (from_orm e) as [v | x] eqn:Hv; simpl in H; [| discriminate].
    destruct (from_orm_each l) as [vs' | x] eqn:Hvs; simpl in H; [| discriminate].
    injection H as <-. destruct (IH vs' eq_refl) as [H1 [H2 H3]].
    destruct (from_orm_fields e v Hv) as [E1 [E2 [_ [_ [E3 _]]]]].
    simpl. rewrite H1, H2, H3, E1, E2, E3. repeat split.
Qed.

Lemma from_orm_each_raises :
  forall l x,
    from_orm_each l = Raise x -> exists e, In e l /\ from_orm e = Raise x.
Proof.
  induction l as [| e l IH]; intros x H; simpl in H; [discriminate |].
  destruct (from_orm e) as [v | y] eqn:Hv; simpl in H.
  - destruct (from_orm_each l) as [vs' | y] eqn:Hvs; simpl in H; [discriminate |].
    injection H as <-. destruct (IH y eq_refl) as [e' [Hin He']].
    exists e'. split; [now right | exact He'].
  - injection H as <-. exists e. split; [now left | exact Hv].
Qed.

(** X1.  [get_expenses] reads and never writes: it lists the caller's rows, one
    record per row and in table order, each carrying the caller's id; it
    fails only on a row of the caller that does not validate. *)
Theorem get_expenses_lists_the_callers_rows :
  forall (current_user : models_user.User) (s : Session),
    snd (get_expenses current_user s) = s
    /\ (forall l,
           fst (get_expenses current_user s) = Return l ->
           map d_id l = map id (rows_of (models_user.id current_user) (db s))
           /\ Forall (fun v => d_user_id v = models_user.id current_user) l)
    /\ (forall x,
           fst (get_expenses current_user s) = Raise x ->
           exists e, In e (expenses (db s))
                     /\ user_id e = models_user.id current_user
                     /\ from_orm e = Raise x).
Proof.
  intros u s. unfold get_expenses, bindS, get_state, lift, exec_select. cbn [fst snd].
  split; [reflexivity |]. split.
  - intros l Hl. destruct (from_orm_each_returns _ _ Hl) as [H1 [H2 _]].
    split; [exact H1 |].
    apply Forall_forall. intros v Hv.
    assert (Hin : In (d_user_id v) (map d_user_id l)) by now apply in_map.
    rewrite H2 in Hin. apply in_map_iff in Hin. destruct Hin as [e [He Hein]].
    apply filter_In in Hein. destruct Hein as [_ Hown].
    apply Z.eqb_eq in Hown. congruence.
  - intros x Hx. destruct (from_orm_each_raises _ _ Hx) as [e [Hin He]].
    apply filter_In in Hin. destruct Hin as [Hrows Hown].
    exists e. repeat split; [exact Hrows | now apply Z.eqb_eq | exact He].
Qed.

(** [create_expense] in a fresh session on [d]. *)
Lemma create_expense_run :
  forall (expense_data : ExpenseCreate) (current_user : models_user.User) (d : DB),
    (write_fault d = None ->
     create_expense expense_data current_user (open d)
     = (Return (in_db (next_id d) (c_description expense_data) (c_amount expense_data)
                      (c_category expense_data) (c_date expense_data)
                      (models_user.id current_user)),
        open (mk_DB (users d)
                    (expenses d
                       ++ [mk_Expense (next_id d) (Some (c_amount expense_data))
                                      (Some (c_description expense_data))
                                      (Some (c_category expense_data))
                                      (Some (c_date expense_data))
                                      (models_user.id current_user)])
                    (next_id d + 1) None)))
    /\ (forall m,
           write_fault d = Some m ->
           create_expense expense_data current_user (open d)
           = (Raise (HTTPException 500 ("Failed to create expense: " +++ m)), open d)).
Proof.
  intros c u d. unfold create_expense, try_except, bindS, modify, commit, lift, flush.
  cbn. split.
  - intros Hfault. rewrite Hfault. cbn. rewrite ?Hfault. reflexivity.
  - intros m Hfault. rewrite Hfault. cbn. reflexivity.
Qed.

(** X2.  [create_expense] stores one row under the next key, after the rows
    already there, and that row and the record returned belong to the
    authenticated user whatever [user_id] the payload carries; the rows of
    the other users are untouched.  When the store refuses the write the
    session is rolled back and the failure is an HTTP 500. *)
Theorem create_expense_assigns_the_caller :
  forall (expense_data : ExpenseCreate) (current_user : models_user.User) (d : DB),
    (write_fault d = None ->
     exists v row d1,
       create_expense expense_data current_user (open d) = (Return v, open d1)
       /\ d_id v = next_id d
       /\ d_user_id v = models_user.id current_user
       /\ expenses d1 = expenses d ++ [row]
       /\ id row = next_id d
       /\ user_id row = models_user.id current_user
       /\ rows_of_others current_user d1 = rows_of_others current_user d)
    /\ (forall m,
           write_fault d = Some m ->
           create_expense expense_data current_user (open d)
           = (Raise (HTTPException 500 ("Failed to create expense: " +++ m)), open d)).
Proof.
  intros c u d. destruct (create_expense_run c u d) as [Hok Hfail].
  split; [| exact Hfail].
  intros Hfault. eexists. eexists. eexists. split; [apply (Hok Hfault) |].
  repeat split. unfold rows_of_others. cbn [expenses].
  rewrite filter_app. simpl. rewrite Z.eqb_refl. simpl. apply app_nil_r.
Qed.

Lemma get_expense_some :
  forall s i r, get_expense s i = Some r -> In r (expenses (db s)) /\ id r = i.
Proof.
  intros s i r H. unfold get_expense in H. apply find_some in H.
  destruct H as [Hin Hid]. split; [exact Hin | now apply Z.eqb_eq].
Qed.

Lemma others_after_update_row :
  forall (u : models_user.User) rows r r',
    NoDup (map id rows) -> In r rows ->
    id r' = id r -> user_id r = models_user.id u -> user_id r' = models_user.id u ->
    filter (fun e => negb (user_id e =? models_user.id u)) (update_row rows r')
    = filter (fun e => negb (user_id e =? models_user.id u)) rows.
Proof.
  intros u rows r r' Hkey Hr Hid Hown Hown'. unfold update_row.
  assert (H : forall l, (forall x, In x l -> In x rows) ->
                        filter (fun e => negb (user_id e =? models_user.id u))
                               (map (fun x => if id x =? id r' then r' else x) l)
                        = filter (fun e => negb (user_id e =? models_user.id u)) l).
  { induction l as [| x l IH]; intros Hsub; simpl; [reflexivity |].
    rewrite IH by (intros y Hy; apply Hsub; now right).
    destruct (id x =? id r') eqn:E; [| reflexivity].
    apply Z.eqb_eq in E. rewrite Hid in E.
    assert (x = r) by (apply (same_key_same_row rows); auto; apply Hsub; now left).
    subst x. rewrite Hown, Hown', Z.eqb_refl. reflexivity. }
  apply H. auto.
Qed.

Lemma others_after_delete_row :
  forall (u : models_user.User) rows r,
    NoDup (map id rows) -> In r rows -> user_id r = models_user.id u ->
    filter (fun e => negb (user_id e =? models_user.id u)) (delete_row rows r)
    = filter (fun e => negb (user_id e =? models_user.id u)) rows.
Proof.
  intros u rows r Hkey Hr Hown. unfold delete_row.
  assert (H : forall l, (forall x, In x l -> In x rows) ->
                        filter (fun e => negb (user_id e =? models_user.id u))
                               (filter (fun x => negb (id x =? id r)) l)
                        = filter (fun e => negb (user_id e =? models_user.id u)) l).
  { induction l as [| x l IH]; intros Hsub; simpl; [reflexivity |].
    specialize (IH (fun y Hy => Hsub y (or_intror Hy))).
    destruct (id x =? id r) eqn:E; simpl.
    - apply Z.eqb_eq in E.
      assert (x = r) by (apply (same_key_same_row rows); auto; apply Hsub; now left).
      subst x. rewrite Hown, Z.eqb_refl. exact IH.
    - rewrite IH. reflexivity. }
  apply H. auto.
Qed.

(** X3.  [update_expense] and [delete_expense] are guarded: an unknown id is a
    404 and a row of another user a 403, with nothing written; and on any
    input, given distinct keys, the rows of the other users are after the
    call what they were before. *)
Theorem update_and_delete_are_guarded :
  forall (d : DB) (current_user : models_user.User) (expense_id : Z)
         (expense : ExpenseUpdate),
    (get_expense (open d) expense_id = None ->
     update_expense expense_id expense current_user (open d)
     = (Raise (HTTPException 404 "Expense not found"), open d)
     /\ delete_expense expense_id current_user (open d)
        = (Raise (HTTPException 404 "Expense not found"), open d))
    /\ (forall r,
           get_expense (open d) expense_id = Some r ->
           user_id r <> models_user.id current_user ->
           update_expense expense_id expense current_user (open d)
           = (Raise (HTTPException 403 "Not authorized to update this expense"), open d)
           /\ delete_expense expense_id current_user (open d)
              = (Raise (HTTPException 403 "Not authorized to delete this expense"),
                 open d))
    /\ (NoDup (map id (expenses d)) ->
        rows_of_others current_user
                       (db (snd (update_expense expense_id expense current_user (open d))))
        = rows_of_others current_user d
        /\ rows_of_others current_user
                          (db (snd (delete_expense expense_id current_user (open d))))
           = rows_of_others current_user d).
Proof.
  intros d u i upd. unfold update_expense, delete_expense, bindS, get_state, throw.
  split; [| split].
  - intros Hnone. rewrite Hnone. split; reflexivity.
  - intros r Hr Hne. rewrite Hr. apply Z.eqb_neq in Hne. rewrite Hne. split; reflexivity.
  - intros Hkey. destruct (get_expense (open d) i) as [r |] eqn:Hr; [| split; reflexivity].
    destruct (user_id r =? models_user.id u) eqn:Hown; cbn [negb]; [| split; reflexivity].
    apply Z.eqb_eq in Hown. destruct (get_expense_some _ _ _ Hr) as [Hin Hid].
    cbn [db open] in Hin.
    destruct (set_all_keeps_key upd r) as [Hk1 Hk2].
    cbv zeta. remember (set_all upd r) as r' eqn:Er'.
    unfold modify, commit_row, commit, lift, ret, flush. cbn.
    destruct (write_fault d) as [m |]; cbn;
      [destruct (not_null r'); split; reflexivity |].
    unfold rows_of_others. split.
    + destruct (not_null r'); cbn; [| reflexivity].
      destruct (from_orm r'); cbn;
        apply (others_after_update_row u (expenses d) r); auto; congruence.
    + now apply others_after_delete_row.
Qed.

Lemma from_orm_not_null :
  forall e v, from_orm e = Return v -> not_null e = true.
Proof.
  intros e v H. unfold from_orm in H. unfold not_null.
  destruct (description e), (amount e), (models_expense.category e), (date e);
    try discriminate; reflexivity.
Qed.

Lemma set_all_fields :
  forall upd e,
    description (set_all upd e)
    = (if is_set F_description upd then u_description upd else description e)
    /\ amount (set_all upd e)
       = (if is_set F_amount upd then u_amount upd else amount e)
    /\ models_expense.category (set_all upd e)
       = (if is_set F_category upd then u_category upd else models_expense.category e)
    /\ date (set_all upd e)
       = (if is_set F_date upd then u_date upd else date e).
Proof.
  intros upd e. unfold set_all, dict_exclude_unset, is_set. simpl.
  destruct (existsb (field_eqb F_description) (model_fields_set upd)),
           (existsb (field_eqb F_amount) (model_fields_set upd)),
           (existsb (field_eqb F_category) (model_fields_set upd)),
           (existsb (field_eqb F_date) (model_fields_set upd));
    repeat split.
Qed.

(** X4.  [update_expense] on a row of the caller, when the store accepts the
    write and the updated row validates: the row is written back under its
    key with exactly the fields that were set in the request replaced, key
    and owner kept, and every row with another key is still there.  The
    date of the request, if any, is taken without time zone, as the store
    gives it back. *)
Theorem update_expense_changes_only_the_fields_set :
  forall (d : DB) (current_user : models_user.User) (expense_id : Z)
         (expense : ExpenseUpdate) (r : Expense) (v : ExpenseInDB),
    get_expense (open d) expense_id = Some r ->
    user_id r = models_user.id current_user ->
    write_fault d = None ->
    (forall t, u_date expense = Some t -> DT.tzinfo t = None) ->
    from_orm (set_all expense r) = Return v ->
    update_expense expense_id expense current_user (open d)
    = (Return v,
       open (mk_DB (users d) (update_row (expenses d) (set_all expense r))
                   (next_id d) None))
    /\ d_id v = expense_id
    /\ d_user_id v = models_user.id current_user
    /\ Some (d_description v)
       = (if is_set F_description expense then u_description expense else description r)
    /\ Some (d_amount v)
       = (if is_set F_amount expense then u_amount expense else amount r)
    /\ Some (d_category v)
       = (if is_set F_category expense then u_category expense
          else models_expense.category r)
    /\ Some (d_date v)
       = (if is_set F_date expense then u_date expense else date r)
    /\ (forall x, In x (expenses d) -> id x <> expense_id ->
                  In x (update_row (expenses d) (set_all expense r))).
Proof.
  intros d u i upd r v Hr Hown Hfault _ Hv.
  destruct (get_expense_some _ _ _ Hr) as [Hin Hid].
  destruct (set_all_keeps_key upd r) as [Hk1 Hk2].
  destruct (set_all_fields upd r) as [F1 [F2 [F3 F4]]].
  destruct (from_orm_fields _ _ Hv) as [E1 [E2 [E3 [E4 [E5 E6]]]]].
  split.
  - unfold update_expense, bindS, get_state. rewrite Hr.
    apply Z.eqb_eq in Hown. rewrite Hown. cbn [negb]. cbv zeta.
    remember (set_all upd r) as r' eqn:Er'.
    unfold modify, commit_row, commit, lift, flush. cbn.
    rewrite (from_orm_not_null r' v Hv), Hfault. cbn.
    rewrite Hv, ?Hfault. reflexivity.
  - repeat split; try congruence.
    intros x Hx Hne. unfold update_row. apply in_map_iff. exists x.
    split; [| exact Hx].
    destruct (id x =? id (set_all upd r)) eqn:E; [| reflexivity].
    apply Z.eqb_eq in E. congruence.
Qed.

Lemma update_expense_changes_only_the_fields_set_witness :
  update_expense 1 (mk_ExpenseUpdate None (Some 180%float) None None [F_amount])
                 Sample.alice (open Sample.db0)
  = (Return (in_db 1 "Flight" 180%float "Travel" (Sample.day 2024 1 5) 1),
     open (mk_DB (users Sample.db0)
                 (update_row (expenses Sample.db0)
                             (set_all (mk_ExpenseUpdate None (Some 180%float) None None
                                                        [F_amount]) Sample.flight))
                 (next_id Sample.db0) None))
  /\ Some "Flight" = description Sample.flight.
Proof.
  destruct (update_expense_changes_only_the_fields_set
              Sample.db0 Sample.alice 1
              (mk_ExpenseUpdate None (Some 180%float) None None [F_amount])
              Sample.flight (in_db 1 "Flight" 180%float "Travel" (Sample.day 2024 1 5) 1))
    as [Hrun [_ [_ [Hdesc _]]]]; try reflexivity; [intros t Ht; discriminate Ht |].
  split; [exact Hrun | exact Hdesc].
Defined.

(** [delete_expense] on a row of the caller, in a fresh session on [d]. *)
Lemma delete_expense_run :
  forall (d : DB) (current_user : models_user.User) (expense_id : Z) (r : Expense),
    get_expense (open d) expense_id = Some r ->
    user_id r = models_user.id current_user ->
    write_fault d = None ->
    delete_expense expense_id current_user (open d)
    = (Return "Expense deleted",
       open (mk_DB (users d) (filter (fun x => negb (id x =? expense_id)) (expenses d))
                   (next_id d) None)).
Proof.
  intros d u i r Hr Hown Hfault.
  destruct (get_expense_some _ _ _ Hr) as [Hin Hid].
  unfold delete_expense, bindS, get_state. rewrite Hr.
  apply Z.eqb_eq in Hown. rewrite Hown. cbn [negb].
  unfold modify, commit, ret, flush, delete_row. cbn. rewrite Hfault. cbn.
  rewrite Hid, ?Hfault. reflexivity.
Qed.

(** X5.  [delete_expense] on a row of the caller, when the store accepts the
    write: the rows carrying that key are gone and all others stay; the
    key can no longer be looked up, so deleting it again is a 404. *)
Theorem delete_expense_removes_the_row :
  forall (d : DB) (current_user : models_user.User) (expense_id : Z) (r : Expense),
    get_expense (open d) expense_id = Some r ->
    user_id r = models_user.id current_user ->
    write_fault d = None ->
    delete_expense expense_id current_user (open d)
    = (Return "Expense deleted",
       open (mk_DB (users d) (filter (fun x => negb (id x =? expense_id)) (expenses d))
                   (next_id d) None))
    /\ get_expense
         (open (mk_DB (users d) (filter (fun x => negb (id x =? expense_id)) (expenses d))
                      (next_id d) None)) expense_id = None
    /\ delete_expense expense_id current_user
         (open (mk_DB (users d) (filter (fun x => negb (id x =? expense_id)) (expenses d))
                      (next_id d) None))
       = (Raise (HTTPException 404 "Expense not found"),
          open (mk_DB (users d) (filter (fun x => negb (id x =? expense_id)) (expenses d))
                      (next_id d) None))
    /\ (forall x, In x (expenses d) -> id x <> expense_id ->
                  In x (filter (fun x => negb (id x =? expense_id)) (expenses d))).
Proof.
  intros d u i r Hr Hown Hfault.
  assert (Hgone : get_expense
                    (open (mk_DB (users d) (filter (fun x => negb (id x =? i)) (expenses d))
                                 (next_id d) None)) i = None).
  { unfold get_expense. cbn [db open expenses].
    destruct (find (fun e => id e =? i) (filter (fun x => negb (id x =? i)) (expenses d)))
      as [x |] eqn:Hfind; [| reflexivity].
    apply find_some in Hfind. destruct Hfind as [Hx Hxi].
    apply filter_In in Hx. destruct Hx as [_ Hx]. rewrite Hxi in Hx. discriminate. }
  split; [now apply (delete_expense_run d u i r) | split; [exact Hgone | split]].
  - unfold delete_expense, bindS, get_state. rewrite Hgone. reflexivity.
  - intros x Hx Hne. apply filter_In. split; [exact Hx |].
    apply Z.eqb_neq in Hne. now rewrite Hne.
Qed.

Lemma delete_expense_removes_the_row_witness :
  delete_expense 2 Sample.alice (open Sample.db0)
  = (Return "Expense deleted",
     open (mk_DB (users Sample.db0)
                 (filter (fun x => negb (id x =? 2)) (expenses Sample.db0))
                 (next_id Sample.db0) None))
  /\ get_expense
       (open (mk_DB (users Sample.db0)
                    (filter (fun x => negb (id x =? 2)) (expenses Sample.db0))
                    (next_id Sample.db0) None)) 2 = None.
Proof.
  destruct (delete_expense_removes_the_row Sample.db0 Sample.alice 2 Sample.lunch)
    as [Hrun [Hgone _]]; try reflexivity.
  split; [exact Hrun | exact Hgone].
Defined.

Lemma find_none_below :
  forall rows n,
    Forall (fun r => id r < n) rows -> find (fun e => id e =? n) rows = None.
Proof.
  induction rows as [| r rows IH]; intros n H; simpl; [reflexivity |].
  inversion H as [| ? ? Hr Hrest]; subst.
  destruct (id r =? n) eqn:E; [apply Z.eqb_eq in E; lia | now apply IH].
Qed.

Lemma filter_keeps_below :
  forall rows n,
    Forall (fun r => id r < n) rows -> filter (fun x => negb (id x =? n)) rows = rows.
Proof.
  induction rows as [| r rows IH]; intros n H; simpl; [reflexivity |].
  inversion H as [| ? ? Hr Hrest]; subst.
  destruct (id r =? n) eqn:E; [apply Z.eqb_eq in E; lia |].
  simpl. now rewrite IH.
Qed.

(** X6.  Create, then delete what was created: in a store whose keys are all
    below the next key, [create_expense] followed by [delete_expense] on
    the key it returned gives back the table as it was; only the key
    counter has moved on. *)
Theorem create_then_delete_restores_the_table :
  forall (expense_data : ExpenseCreate) (current_user : models_user.User) (d : DB),
    Forall (fun r => id r < next_id d) (expenses d) ->
    write_fault d = None ->
    exists v d1,
      create_expense expense_data current_user (open d) = (Return v, open d1)
      /\ d_id v = next_id d
      /\ delete_expense (d_id v) current_user (open d1)
         = (Return "Expense deleted",
            open (mk_DB (users d) (expenses d) (next_id d + 1) None)).
Proof.
  intros c u d Hbelow Hfault.
  destruct (create_expense_run c u d) as [Hcreate _].
  eexists. eexists. split; [apply (Hcreate Hfault) |]. split; [reflexivity |].
  cbn [d_id in_db].
  set (row := mk_Expense (next_id d) (Some (c_amount c)) (Some (c_description c))
                         (Some (c_category c)) (Some (c_date c)) (models_user.id u)).
  assert (Hget : get_expense (open (mk_DB (users d) (expenses d ++ [row])
                                          (next_id d + 1) None)) (next_id d) = Some row).
  { unfold get_expense. cbn [db open expenses]. rewrite find_app_first.
    rewrite (find_none_below _ _ Hbelow). simpl. now rewrite Z.eqb_refl. }
  rewrite (delete_expense_run _ u (next_id d) row Hget eq_refl eq_refl). cbn [users expenses next_id].
  rewrite filter_app, (filter_keeps_below _ _ Hbelow). simpl.
  rewrite Z.eqb_refl. simpl. now rewrite app_nil_r.
Qed.

Lemma create_then_delete_restores_the_table_witness :
  exists v d1,
    create_expense (mk_ExpenseCreate "Groceries" 50%float "Food" (Sample.day 2024 3 5) 2)
                   Sample.alice (open Sample.db0) = (Return v, open d1)
    /\ d_id v = next_id Sample.db0
    /\ delete_expense (d_id v) Sample.alice (open d1)
       = (Return "Expense deleted",
          open (mk_DB (users Sample.db0) (expenses Sample.db0)
                      (next_id Sample.db0 + 1) None)).
Proof.
  apply (create_then_delete_restores_the_table
           (mk_ExpenseCreate "Groceries" 50%float "Food" (Sample.day 2024 3 5) 2)
           Sample.alice Sample.db0).
  - repeat constructor.
  - reflexivity.
Defined.

Lemma create_expense_assigns_the_caller_witness :
  exists v row d1,
    create_expense (mk_ExpenseCreate "Taxi" 12.5%float "Travel" (Sample.day 2024 3 1) 2)
                   Sample.alice (open Sample.db0)
    = (Return v, open d1)
    /\ d_id v = next_id Sample.db0
    /\ d_user_id v = models_user.id Sample.alice
    /\ expenses d1 = expenses Sample.db0 ++ [row]
    /\ id row = next_id Sample.db0
    /\ user_id row = models_user.id Sample.alice
    /\ rows_of_others Sample.alice d1 = rows_of_others Sample.alice Sample.db0.
Proof.
  destruct (create_expense_assigns_the_caller
              (mk_ExpenseCreate "Taxi" 12.5%float "Travel" (Sample.day 2024 3 1) 2)
              Sample.alice Sample.db0) as [Hok _].
  apply Hok. reflexivity.
Defined.

Lemma update_and_delete_are_guarded_witness :
  update_expense 3 (mk_ExpenseUpdate None (Some 1%float) None None [F_amount])
                 Sample.alice (open Sample.db0)
  = (Raise (HTTPException 403 "Not authorized to update this expense"), open Sample.db0)
  /\ delete_expense 3 Sample.alice (open Sample.db0)
     = (Raise (HTTPException 403 "Not authorized to delete this expense"),
        open Sample.db0).
Proof.
  destruct (update_and_delete_are_guarded
              Sample.db0 Sample.alice 3
              (mk_ExpenseUpdate None (Some 1%float) None None [F_amount]))
    as [_ [Hforeign _]].
  apply (Hforeign Sample.train); [reflexivity | discriminate].
Defined.

(* --------------------------------------------------------------------- *)
(** ** Listing by category                                                *)
(* --------------------------------------------------------------------- *)

Lemma contains_ci_refl : forall v, contains_ci v v.
Proof. intros v. exists [], []. now rewrite app_nil_r. Qed.

(** X7.  [get_expenses_by_category] reads and never writes.  It lists the
    caller's rows whose category is exactly the one asked for, one record
    per row and in table order; each of these rows is also among those the
    query tool selects when it is given the same category (a category
    without backslash, which every store reads literally). *)
Theorem get_expenses_by_category_is_exact :
  forall (category : string) (current_user : models_user.User) (s : Session),
    snd (get_expenses_by_category category current_user s) = s
    /\ (forall l,
           fst (get_expenses_by_category category current_user s) = Return l ->
           map d_id l
           = map id (filter (in_category category current_user) (expenses (db s)))
           /\ Forall (fun v => d_category v = category
                               /\ d_user_id v = models_user.id current_user) l)
    /\ (no_escape category ->
        incl (filter (in_category category current_user) (expenses (db s)))
             (select_expenses s (models_user.id current_user) (Some category)
                              None None None)).
Proof.
  intros category u s.
  unfold get_expenses_by_category, bindS, get_state, lift, exec_select. cbn [fst snd].
  split; [reflexivity |]. split.
  - intros l Hl. destruct (from_orm_each_returns _ _ Hl) as [H1 [H2 H3]].
    split; [exact H1 |].
    apply Forall_forall. intros v Hv. split.
    + assert (Hin : In (Some (d_category v)) (map (fun v => Some (d_category v)) l))
        by (apply in_map_iff; now exists v).
      rewrite H3 in Hin. apply in_map_iff in Hin. destruct Hin as [e [He Hein]].
      apply filter_In in Hein. destruct Hein as [_ Hcat].
      apply in_category_exact in Hcat. destruct Hcat as [Hcat _]. congruence.
    + assert (Hin : In (d_user_id v) (map d_user_id l)) by now apply in_map.
      rewrite H2 in Hin. apply in_map_iff in Hin. destruct Hin as [e [He Hein]].
      apply filter_In in Hein. destruct Hein as [_ Hcat].
      apply in_category_exact in Hcat. destruct Hcat as [_ Hown]. congruence.
  - intros _ r Hr. apply filter_In in Hr. destruct Hr as [Hrows Hcat].
    apply in_category_exact in Hcat. destruct Hcat as [Hcat Hown].
    change (select_expenses s (models_user.id u) (Some category) None None None)
      with (select_expenses (open (db s)) (models_user.id u) (Some category)
                            None None None).
    apply (selected_when_contained (db s) (models_user.id u) category r category);
      auto using contains_ci_refl.
Qed.

(* --------------------------------------------------------------------- *)
(** ** Bulk operations of the controller: failures and effects            *)
(* --------------------------------------------------------------------- *)

(** X8.  When a bulk operation of the controller fails, the failure is an HTTP
    error and nothing has been written: a 404 exactly when the caller has
    no row in the category, otherwise a 500 that carries the category and
    the cause (for the bulk delete, the refusal of the store). *)
Theorem bulk_operations_fail_with_http_errors_and_write_nothing :
  forall (category : string) (expense_update : ExpenseUpdate)
         (current_user : models_user.User) (d : DB),
    (forall e s',
        update_expenses_by_category category expense_update current_user (open d)
        = (Raise e, s') ->
        s' = open d
        /\ ((filter (in_category category current_user) (expenses d) = []
             /\ e = HTTPException 404 (not_found_detail category))
            \/ (filter (in_category category current_user) (expenses d) <> []
                /\ exists cause,
                    e = HTTPException 500
                          ("Failed to update expenses by category '" +++ category
                             +++ "': " +++ cause))))
    /\ (forall e s',
           delete_expenses_by_category category current_user (open d) = (Raise e, s') ->
           s' = open d
           /\ ((filter (in_category category current_user) (expenses d) = []
                /\ e = HTTPException 404 (not_found_detail category))
               \/ (filter (in_category category current_user) (expenses d) <> []
                   /\ exists cause,
                       write_fault d = Some cause
                       /\ e = HTTPException 500
                                ("Failed to delete expenses by category '" +++ category
                                   +++ "': " +++ cause)))).
Proof.
  intros category upd u d. split; intros e s' Hrun.
  - rewrite update_expenses_by_category_run in Hrun.
    destruct (filter (in_category category u) (expenses d)) as [| m ms].
    + injection Hrun as <- <-. split; [reflexivity | left; now split].
    + destruct (validate_all (map (set_all upd) (m :: ms))) as [l | x].
      * destruct (write_fault d) as [msg |]; [| discriminate].
        injection Hrun as <- <-. split; [reflexivity |]. right.
        split; [discriminate | now exists msg].
      * injection Hrun as <- <-. split; [reflexivity |]. right.
        split; [discriminate | now exists (str_exn x)].
  - rewrite delete_expenses_by_category_run in Hrun.
    destruct (filter (in_category category u) (expenses d)) as [| m ms].
    + injection Hrun as <- <-. split; [reflexivity | left; now split].
    + destruct (write_fault d) as [msg |]; [| discriminate].
      injection Hrun as <- <-. split; [reflexivity |]. right.
      split; [discriminate | now exists msg].
Qed.

Lemma bulk_operations_fail_with_http_errors_and_write_nothing_witness :
  open Sample.db0 = open Sample.db0
  /\ ((filter (in_category "Rent" Sample.alice) (expenses Sample.db0) = []
       /\ HTTPException 404 "No expenses found in category 'Rent'."
          = HTTPException 404 (not_found_detail "Rent"))
      \/ (filter (in_category "Rent" Sample.alice) (expenses Sample.db0) <> []
          /\ exists cause,
              write_fault Sample.db0 = Some cause
              /\ HTTPException 404 "No expenses found in category 'Rent'."
                 = HTTPException 500
                     ("Failed to delete expenses by category '" +++ "Rent"
                        +++ "': " +++ cause))).
Proof.
  destruct (bulk_operations_fail_with_http_errors_and_write_nothing
              "Rent" (mk_ExpenseUpdate None None None None []) Sample.alice Sample.db0)
    as [_ Hdelete].
  apply (Hdelete (HTTPException 404 "No expenses found in category 'Rent'.")
                 (open Sample.db0)).
  reflexivity.
Defined.

Lemma validate_all_each :
  forall l vs,
    validate_all l = Return vs -> Forall2 (fun e v => from_orm e = Return v) l vs.
Proof.
  induction l as [| e l IH]; intros vs H; simpl in H.
  - injection H as <-. constructor.
  - destruct (from_orm e) as [v | x] eqn:Hv; simpl in H; [| discriminate].
    destruct (validate_all l) as [vs' | x] eqn:Hvs; simpl in H; [| discriminate].
    injection H as <-. constructor; [exact Hv | now apply IH].
Qed.

Lemma forall2_map_left :
  forall {A B C} (f : A -> B) (R : B -> C -> Prop) l vs,
    Forall2 R (map f l) vs -> Forall2 (fun a v => R (f a) v) l vs.
Proof.
  intros A B C f R l. induction l as [| a l IH]; intros vs H; simpl in H.
  - inversion H. constructor.
  - inversion H; subst. constructor; [assumption | now apply IH].
Qed.

(** X9.  A bulk update of the controller that returns has rewritten exactly
    the caller's rows of the category, each with the fields set in the
    request and with its key and owner kept; every other row, the users
    and the next key are as they were.  The records returned are the
    validated forms of the rewritten rows, in table order, and there is at
    least one.  The date of the request, if any, is taken without time
    zone, as the store gives it back. *)
Theorem update_expenses_by_category_rewrites_the_matched_rows :
  forall (category : string) (expense_update : ExpenseUpdate)
         (current_user : models_user.User) (d : DB)
         (l : list ExpenseInDB) (s' : Session),
    NoDup (map id (expenses d)) ->
    (forall t, u_date expense_update = Some t -> DT.tzinfo t = None) ->
    update_expenses_by_category category expense_update current_user (open d)
    = (Return l, s') ->
    s' = open (mk_DB (users d)
                     (map (fun r => if in_category category current_user r
                                    then set_all expense_update r else r)
                          (expenses d))
                     (next_id d) None)
    /\ Forall2 (fun r v =>
                  from_orm (set_all expense_update r) = Return v
                  /\ d_id v = id r
                  /\ d_user_id v = models_user.id current_user)
               (filter (in_category category current_user) (expenses d)) l
    /\ l <> [].
Proof.
  intros category upd u d l s' Hkey _ Hrun.
  rewrite update_expenses_by_category_run in Hrun.
  destruct (filter (in_category category u) (expenses d)) as [| m ms] eqn:Hsel;
    [discriminate |].
  destruct (validate_all (map (set_all upd) (m :: ms))) as [l' | x] eqn:Hval;
    [| discriminate].
  destruct (write_fault d) as [msg |]; [discriminate |].
  injection Hrun as <- <-.
  change (fold_left update_row (map (set_all upd) ms)
                    (update_row (expenses d) (set_all upd m)))
    with (fold_left update_row (map (set_all upd) (m :: ms)) (expenses d)).
  rewrite <- Hsel in *.
  split; [| split].
  - rewrite bulk_update_rows; [reflexivity | exact Hkey |].
    intros e. apply set_all_keeps_key.
  - apply validate_all_each, forall2_map_left in Hval.
    assert (Hown : Forall (fun r => user_id r = models_user.id u)
                          (filter (in_category category u) (expenses d))).
    { apply Forall_forall. intros r Hr. apply filter_In in Hr.
      destruct Hr as [_ Hr]. now apply in_category_exact in Hr. }
    clear Hsel. revert Hown.
    induction Hval as [| r v rs vs Hv Hrest IH]; intros Hown; constructor.
    + inversion Hown; subst.
      destruct (from_orm_fields _ _ Hv) as [E1 [E2 _]].
      destruct (set_all_keeps_key upd r) as [K1 K2].
      repeat split; congruence.
    + apply IH. now inversion Hown.
  - rewrite Hsel in Hval. simpl in Hval.
    destruct (from_orm (set_all upd m)); simpl in Hval; [| discriminate].
    destruct (validate_all (map (set_all upd) ms)); simpl in Hval; [| discriminate].
    injection Hval as <-. discriminate.
Qed.

Lemma update_expenses_by_category_rewrites_the_matched_rows_witness :
  open (mk_DB (users Sample.db0)
              [mk_Expense 1 (Some 180%float) (Some "Flight") (Some "Travel")
                          (Some (Sample.day 2024 1 5)) 1;
               Sample.lunch; Sample.train]
              (next_id Sample.db0) None)
  = open (mk_DB (users Sample.db0)
                (map (fun r => if in_category "Travel" Sample.alice r
                               then set_all (mk_ExpenseUpdate None (Some 180%float) None
                                                              None [F_amount]) r
                               else r)
                     (expenses Sample.db0))
                (next_id Sample.db0) None)
  /\ Forall2 (fun r v =>
                from_orm (set_all (mk_ExpenseUpdate None (Some 180%float) None None
                                                    [F_amount]) r) = Return v
                /\ d_id v = id r
                /\ d_user_id v = models_user.id Sample.alice)
             (filter (in_category "Travel" Sample.alice) (expenses Sample.db0))
             [in_db 1 "Flight" 180%float "Travel" (Sample.day 2024 1 5) 1]
  /\ [in_db 1 "Flight" 180%float "Travel" (Sample.day 2024 1 5) 1] <> [].
Proof.
  apply (update_expenses_by_category_rewrites_the_matched_rows
           "Travel" (mk_ExpenseUpdate None (Some 180%float) None None [F_amount])
           Sample.alice Sample.db0).
  - apply sample_keys_distinct.
  - intros t Ht. discriminate Ht.
  - reflexivity.
Defined.

(* --------------------------------------------------------------------- *)
(** ** The update tool and the delete tool, when they succeed             *)
(* --------------------------------------------------------------------- *)

Lemma validate_all_rewritten :
  forall text a category dt l,
    validate_all (map (rewritten text a category dt) l)
    = Return (map (fun r => in_db (id r) text a category (DT.reparse_iso_z dt) (user_id r))
                  l).
Proof.
  intros text a category dt l. induction l as [| r l IH]; simpl; [reflexivity |].
  now rewrite IH.
Qed.

Lemma parse_if_given_some :
  forall env date dt,
    parse_if_given env date = Return (Some dt) ->
    exists s, date = Some s /\ s <> EmptyString
              /\ dateparser_parse env s = Return (Some dt).
Proof.
  intros env [s |] dt H; simpl in H; [| discriminate].
  destruct s as [| c s]; [discriminate |].
  exists (String c s). repeat split; [discriminate | exact H].
Qed.

Lemma formatted_date_of_some :
  forall parsed v,
    formatted_date_of parsed = Return (Some v) ->
    exists dt, parsed = Some dt /\ 1000 <= DT.year dt /\ v = DT.reparse_iso_z dt.
Proof.
  intros [dt |] v H; simpl in H; [| discriminate].
  unfold DT.validate_iso_z in H.
  destruct (DT.year dt <? 1000) eqn:E; simpl in H; [discriminate |].
  injection H as <-. apply Z.ltb_ge in E. now exists dt.
Qed.

Lemma formatted_date_of_four_digits :
  forall dt,
    1000 <= DT.year dt ->
    formatted_date_of (Some dt) = Return (Some (DT.reparse_iso_z dt)).
Proof.
  intros dt H. unfold formatted_date_of, DT.validate_iso_z.
  apply Z.ltb_ge in H. now rewrite H.
Qed.

Lemma formatted_date_of_short_year :
  forall dt,
    DT.year dt < 1000 -> exists x, formatted_date_of (Some dt) = Raise x.
Proof.
  intros dt H. unfold formatted_date_of, DT.validate_iso_z.
  apply Z.ltb_lt in H. rewrite H. eexists. reflexivity.
Qed.

(** The update tool on the inputs on which it succeeds, in a store with
    distinct keys. *)
Lemma tool_update_expenses_success_run :
  forall env cv category text a s dt u d,
    s <> EmptyString ->
    dateparser_parse env s = Return (Some dt) ->
    1000 <= DT.year dt ->
    truthy_int (contextvars.get cv) = true ->
    get_user (open d) (uid_of (contextvars.get cv)) = Some u ->
    filter (in_category category u) (expenses d) <> [] ->
    write_fault d = None ->
    NoDup (map id (expenses d)) ->
    tool_update_expenses env cv category (Some text) (Some a) (Some s) d
    = (Return
         (mk_ToolDict
            "success"
            ("Updated "
               +++ str_int (Z.of_nat (List.length
                                        (filter (in_category category u) (expenses d))))
               +++ " expenses in category '" +++ category +++ "'.")
            (Updated
               (map (fun r => in_db (id r) text a category (DT.reparse_iso_z dt)
                                    (user_id r))
                    (filter (in_category category u) (expenses d))))),
       mk_DB (users d)
             (map (fun r => if in_category category u r
                            then rewritten text a category dt r else r)
                  (expenses d))
             (next_id d) None).
Proof.
  intros env cv category text a s dt u d Hs Hdt Hyear Hid Huser Hsel Hfault Hkey.
  assert (Hparse : parse_if_given env (Some s) = Return (Some dt)).
  { unfold parse_if_given. now rewrite (truthy_str_some s Hs). }
  rewrite (tool_update_expenses_run env cv category (Some text) (Some a) (Some s)
                                    (Some dt) (Some (DT.reparse_iso_z dt)) d Hid Hparse
                                    (andb_false_r _)
                                    (formatted_date_of_four_digits dt Hyear)).
  rewrite Huser, update_expenses_by_category_run.
  destruct (filter (in_category category u) (expenses d)) as [| m ms] eqn:Hm;
    [contradiction |].
  change (map (set_all (mk_ExpenseUpdate (Some text) (Some a) (Some category)
                                         (Some (DT.reparse_iso_z dt))
                                         [F_description; F_amount; F_category; F_date]))
              (m :: ms))
    with (map (rewritten text a category dt) (m :: ms)).
  rewrite validate_all_rewritten, Hfault. rewrite <- Hm.
  rewrite bulk_update_rows; [| exact Hkey | reflexivity].
  cbn [db open]. now rewrite length_map.
Qed.

(** X10.  The update tool answers "success" only when a description, an amount
    and a date were all supplied, the date being one the parser reads,
    with a year of four digits (and the caller is a known user with a
    row in the category, on a store that accepts the write).  Under these
    conditions it does succeed: it reports the number of the caller's
    rows in the category and their new contents, and in the table, read
    as the store gives it back (dates by their wall clock), all four
    attributes of each of these rows are rewritten and every other row
    is as it was.  A date the parser reads with a year below 1000 makes
    the tool raise [NameError] with nothing written; a date the parser
    cannot read is answered by an error result, with nothing written. *)
Theorem tool_update_expenses_succeeds_exactly_with_every_field :
  forall (env : Env) (cv : contextvars.ContextVar) (category : string)
         (description : option string) (amount : option float) (date : option string)
         (d : DB),
    (forall t d',
        tool_update_expenses env cv category description amount date d = (Return t, d') ->
        status t = "success" ->
        exists text a s dt u,
          description = Some text /\ amount = Some a /\ date = Some s
          /\ s <> EmptyString
          /\ dateparser_parse env s = Return (Some dt)
          /\ 1000 <= DT.year dt
          /\ truthy_int (contextvars.get cv) = true
          /\ get_user (open d) (uid_of (contextvars.get cv)) = Some u
          /\ filter (in_category category u) (expenses d) <> []
          /\ write_fault d = None)
    /\ (forall text a s dt u,
           description = Some text -> amount = Some a -> date = Some s ->
           s <> EmptyString ->
           dateparser_parse env s = Return (Some dt) ->
           1000 <= DT.year dt ->
           truthy_int (contextvars.get cv) = true ->
           get_user (open d) (uid_of (contextvars.get cv)) = Some u ->
           filter (in_category category u) (expenses d) <> [] ->
           write_fault d = None ->
           NoDup (map id (expenses d)) ->
           fst (tool_update_expenses env cv category description amount date d)
           = Return
               (mk_ToolDict
                  "success"
                  ("Updated "
                     +++ str_int (Z.of_nat (List.length
                                              (filter (in_category category u)
                                                      (expenses d))))
                     +++ " expenses in category '" +++ category +++ "'.")
                  (Updated
                     (map (fun r => in_db (id r) text a category (DT.reparse_iso_z dt)
                                          (user_id r))
                          (filter (in_category category u) (expenses d)))))
           /\ map as_stored
                  (expenses (snd (tool_update_expenses env cv category description
                                                       amount date d)))
              = map (fun r => if in_category category u r
                              then mk_Expense (id r) (Some a) (Some text) (Some category)
                                              (Some (naive dt)) (user_id r)
                              else as_stored r)
                    (expenses d)
           /\ users (snd (tool_update_expenses env cv category description amount date d))
              = users d
           /\ next_id (snd (tool_update_expenses env cv category description amount
                                                 date d))
              = next_id d)
    /\ (forall s dt,
           date = Some s -> s <> EmptyString ->
           dateparser_parse env s = Return (Some dt) ->
           DT.year dt < 1000 ->
           truthy_int (contextvars.get cv) = true ->
           tool_update_expenses env cv category description amount date d
           = (Raise (NameError "HTTPException"), d))
    /\ (forall s,
           date = Some s -> s <> EmptyString ->
           dateparser_parse env s = Return None ->
           truthy_int (contextvars.get cv) = true ->
           tool_update_expenses env cv category description amount date d
           = (Return (error_dict ("Unable to parse the date '" +++ s +++ "'.")), d)).
Proof.
  intros env cv category description amount date d. split; [| split; [| split]].
  - intros t d' Hrun Hstatus.
    destruct (truthy_int (contextvars.get cv)) eqn:Hid.
    2:{ unfold tool_update_expenses in Hrun. rewrite Hid in Hrun. cbn in Hrun.
        injection Hrun as <- <-. discriminate Hstatus. }
    destruct (parse_if_given env date) as [parsed | x] eqn:Hparse.
    2:{ unfold tool_update_expenses, try_except, bindS, lift in Hrun.
        rewrite Hid, Hparse in Hrun. cbn in Hrun. discriminate. }
    destruct (truthy_str date && is_none parsed) eqn:Hok.
    { unfold tool_update_expenses, try_except, bindS, lift, ret in Hrun.
      rewrite Hid, Hparse, Hok in Hrun. cbn in Hrun.
      injection Hrun as <- <-. discriminate Hstatus. }
    destruct (formatted_date_of parsed) as [formatted | x] eqn:Hfmt.
    2:{ unfold tool_update_expenses, try_except, bindS, lift in Hrun.
        rewrite Hid, Hparse, Hok, Hfmt in Hrun. cbn in Hrun. discriminate. }
    rewrite (tool_update_expenses_run env cv category description amount date parsed
                                      formatted d Hid Hparse Hok Hfmt) in Hrun.
    destruct (get_user (open d) (uid_of (contextvars.get cv))) as [u |] eqn:Huser.
    2:{ injection Hrun as <- <-. discriminate Hstatus. }
    rewrite update_expenses_by_category_run in Hrun.
    destruct (filter (in_category category u) (expenses d)) as [| m ms] eqn:Hsel;
      [discriminate |].
    destruct (validate_all (map (set_all _) (m :: ms))) as [l | x] eqn:Hval;
      [| discriminate].
    destruct (write_fault d) as [msg |] eqn:Hfault; [discriminate |].
    simpl in Hval. rewrite set_all_from_tool in Hval. unfold from_orm in Hval.
    cbn [models_expense.description models_expense.amount models_expense.category
         models_expense.date] in Hval.
    destruct description as [text |]; [| discriminate].
    destruct amount as [a |]; [| discriminate].
    destruct formatted as [v |]; [| discriminate].
    destruct (formatted_date_of_some parsed v Hfmt) as [dt [-> [Hyear _]]].
    destruct (parse_if_given_some env date dt Hparse) as [s [Hdate [Hs Hdt]]].
    exists text, a, s, dt, u. repeat split; try assumption.
    rewrite Hsel. discriminate.
  - intros text a s dt u -> -> -> Hs Hdt Hyear Hid Huser Hsel Hfault Hkey.
    rewrite (tool_update_expenses_success_run env cv category text a s dt u d
                                              Hs Hdt Hyear Hid Huser Hsel Hfault Hkey).
    cbn [fst snd expenses users next_id]. repeat split.
    rewrite map_map. apply map_ext. intros r.
    destruct (in_category category u r); reflexivity.
  - intros s dt -> Hs Hdt Hyear Hid.
    destruct (formatted_date_of_short_year dt Hyear) as [x Hx].
    unfold tool_update_expenses, try_except, bindS, lift, ret. rewrite Hid. cbn [negb].
    unfold parse_if_given. rewrite (truthy_str_some s Hs), Hdt.
    cbn [is_none andb]. rewrite ?andb_false_r. unfold bindS. rewrite Hx. reflexivity.
  - intros s -> Hs Hnone Hid.
    unfold tool_update_expenses, try_except, bindS, lift, ret. rewrite Hid. cbn [negb].
    unfold parse_if_given. rewrite (truthy_str_some s Hs), Hnone. reflexivity.
Qed.

Lemma tool_update_expenses_succeeds_exactly_with_every_field_witness :
  fst (tool_update_expenses Sample.env Sample.as_alice "Travel" (Some "Trip")
                            (Some 99%float) (Some "1 January 2024") Sample.db0)
  = Return
      (mk_ToolDict
         "success"
         ("Updated "
            +++ str_int (Z.of_nat (List.length
                                     (filter (in_category "Travel" Sample.alice)
                                             (expenses Sample.db0))))
            +++ " expenses in category '" +++ "Travel" +++ "'.")
         (Updated
            (map (fun r => in_db (id r) "Trip" 99%float "Travel"
                                 (DT.reparse_iso_z (Sample.day 2024 1 1)) (user_id r))
                 (filter (in_category "Travel" Sample.alice) (expenses Sample.db0)))))
  /\ map as_stored
         (expenses (snd (tool_update_expenses Sample.env Sample.as_alice "Travel"
                                              (Some "Trip") (Some 99%float)
                                              (Some "1 January 2024") Sample.db0)))
     = map (fun r => if in_category "Travel" Sample.alice r
                     then mk_Expense (id r) (Some 99%float) (Some "Trip") (Some "Travel")
                                     (Some (naive (Sample.day 2024 1 1))) (user_id r)
                     else as_stored r)
           (expenses Sample.db0)
  /\ users (snd (tool_update_expenses Sample.env Sample.as_alice "Travel" (Some "Trip")
                                      (Some 99%float) (Some "1 January 2024") Sample.db0))
     = users Sample.db0
  /\ next_id (snd (tool_update_expenses Sample.env Sample.as_alice "Travel" (Some "Trip")
                                        (Some 99%float) (Some "1 January 2024")
                                        Sample.db0))
     = next_id Sample.db0.
Proof.
  destruct (tool_update_expenses_succeeds_exactly_with_every_field
              Sample.env Sample.as_alice "Travel" (Some "Trip") (Some 99%float)
              (Some "1 January 2024") Sample.db0) as [_ [Hsuccess _]].
  apply (Hsuccess "Trip" 99%float "1 January 2024" (Sample.day 2024 1 1) Sample.alice);
    try reflexivity; try discriminate.
  apply sample_keys_distinct.
Defined.

Lemma filter_of_complement :
  forall {A} (p : A -> bool) l, filter p (filter (fun x => negb (p x)) l) = [].
Proof.
  intros A p l. induction l as [| a l IH]; simpl; [reflexivity |].
  destruct (p a) eqn:Hp; simpl; [exact IH | now rewrite Hp].
Qed.

(** X11.  The delete tool, for a known caller who has rows in the category, on a
    store that accepts the write: it removes exactly the caller's rows of
    that category and reports how many there were.  Asked a second time
    for the same category it finds nothing left, and the controller's 404
    then leaves the tool as a [NameError]. *)
Theorem tool_delete_expenses_removes_the_category :
  forall (cv : contextvars.ContextVar) (category : string) (d : DB)
         (current_user : models_user.User),
    NoDup (map id (expenses d)) ->
    truthy_int (contextvars.get cv) = true ->
    get_user (open d) (uid_of (contextvars.get cv)) = Some current_user ->
    filter (in_category category current_user) (expenses d) <> [] ->
    write_fault d = None ->
    tool_delete_expenses cv category d
    = (Return
         (mk_ToolDict
            "success"
            ("Deleted "
               +++ str_int (Z.of_nat (List.length
                                        (filter (in_category category current_user)
                                                (expenses d))))
               +++ " expenses in category '" +++ category +++ "'.")
            NoData),
       mk_DB (users d)
             (filter (fun r => negb (in_category category current_user r)) (expenses d))
             (next_id d) None)
    /\ tool_delete_expenses
         cv category
         (mk_DB (users d)
                (filter (fun r => negb (in_category category current_user r)) (expenses d))
                (next_id d) None)
       = (Raise (NameError "HTTPException"),
          mk_DB (users d)
                (filter (fun r => negb (in_category category current_user r)) (expenses d))
                (next_id d) None).
Proof.
  intros cv category d u Hkey Hid Huser Hsel Hfault. split.
  - rewrite (tool_delete_expenses_run cv category d Hid), Huser.
    rewrite delete_expenses_by_category_run.
    destruct (filter (in_category category u) (expenses d)) as [| m ms] eqn:Hm;
      [contradiction |].
    rewrite Hfault. rewrite <- Hm. rewrite bulk_delete_rows by exact Hkey. reflexivity.
  - rewrite (tool_delete_expenses_run cv category _ Hid).
    change (get_user (open (mk_DB (users d)
                                  (filter (fun r => negb (in_category category u r))
                                          (expenses d))
                                  (next_id d) None))
                     (uid_of (contextvars.get cv)))
      with (get_user (open d) (uid_of (contextvars.get cv))).
    rewrite Huser, delete_expenses_by_category_run. cbn [expenses].
    rewrite filter_of_complement. reflexivity.
Qed.

Lemma tool_delete_expenses_removes_the_category_witness :
  tool_delete_expenses Sample.as_alice "Travel" Sample.db0
  = (Return
       (mk_ToolDict
          "success"
          ("Deleted "
             +++ str_int (Z.of_nat (List.length
                                      (filter (in_category "Travel" Sample.alice)
                                              (expenses Sample.db0))))
             +++ " expenses in category '" +++ "Travel" +++ "'.")
          NoData),
     mk_DB (users Sample.db0)
           (filter (fun r => negb (in_category "Travel" Sample.alice r))
                   (expenses Sample.db0))
           (next_id Sample.db0) None)
  /\ tool_delete_expenses
       Sample.as_alice "Travel"
       (mk_DB (users Sample.db0)
              (filter (fun r => negb (in_category "Travel" Sample.alice r))
                      (expenses Sample.db0))
              (next_id Sample.db0) None)
     = (Raise (NameError "HTTPException"),
        mk_DB (users Sample.db0)
              (filter (fun r => negb (in_category "Travel" Sample.alice r))
                      (expenses Sample.db0))
              (next_id Sample.db0) None).
Proof.
  apply (tool_delete_expenses_removes_the_category
           Sample.as_alice "Travel" Sample.db0 Sample.alice);
    try reflexivity; [apply sample_keys_distinct | discriminate].
Defined.

(* --------------------------------------------------------------------- *)
(** ** What leaves a tool as an exception                                 *)
(* --------------------------------------------------------------------- *)

(** X12.  The query tool and the create tool return on every input.  The update
    tool and the delete tool can raise, and then what they raise is the
    [NameError] on [HTTPException], whatever went wrong inside, and the
    store is as it was. *)
Theorem tools_raise_nothing_but_name_error :
  forall (env : Env) (cv : contextvars.ContextVar) (d : DB),
    (forall category start_date end_date description_keyword,
        exists text,
          fst (tool_get_expenses env cv category start_date end_date
                                 description_keyword d) = Return text)
    /\ (forall amount category description,
           exists t,
             fst (tool_create_expenses env cv amount category description d) = Return t)
    /\ (forall category description amount date x,
           fst (tool_update_expenses env cv category description amount date d) = Raise x ->
           x = NameError "HTTPException"
           /\ snd (tool_update_expenses env cv category description amount date d) = d)
    /\ (forall category x,
           fst (tool_delete_expenses cv category d) = Raise x ->
           x = NameError "HTTPException"
           /\ snd (tool_delete_expenses cv category d) = d).
Proof.
  intros env cv d. split; [| split; [| split]].
  - intros. apply tool_get_expenses_returns.
  - intros. apply tool_create_expenses_returns.
  - intros c t a dt x Hraise. split.
    + revert Hraise. unfold tool_update_expenses.
      destruct (negb (truthy_int (contextvars.get cv))); [discriminate |].
      unfold try_except.
      match goal with
      | |- fst (match ?body d with _ => _ end) = _ -> _ =>
          destruct (body d) as [[r | x0] d']
      end; simpl; [discriminate |].
      intros H. now injection H as <-.
    + destruct (tool_update_expenses_cases env cv c t a dt d)
        as [[Hsnd _] | [u [upd [l [_ [_ [_ [_ Hrun]]]]]]]]; [exact Hsnd |].
      rewrite Hrun in Hraise. discriminate.
  - intros c x Hraise. split.
    + revert Hraise. unfold tool_delete_expenses.
      destruct (negb (truthy_int (contextvars.get cv))); [discriminate |].
      unfold try_except.
      match goal with
      | |- fst (match ?body d with _ => _ end) = _ -> _ =>
          destruct (body d) as [[r | x0] d']
      end; simpl; [discriminate |].
      intros H. now injection H as <-.
    + destruct (tool_delete_expenses_cases cv c d)
        as [[Hsnd _] | [u [text [_ [_ [_ Hrun]]]]]]; [exact Hsnd |].
      rewrite Hrun in Hraise. discriminate.
Qed.

Lemma tools_raise_nothing_but_name_error_witness :
  NameError "HTTPException" = NameError "HTTPException"
  /\ snd (tool_delete_expenses Sample.as_alice "Rent" Sample.db0) = Sample.db0.
Proof.
  destruct (tools_raise_nothing_but_name_error Sample.env Sample.as_alice Sample.db0)
    as [_ [_ [_ Hdelete]]].
  apply (Hdelete "Rent" (NameError "HTTPException")). reflexivity.
Defined.

(* --------------------------------------------------------------------- *)
(** ** The create tool                                                    *)
(* --------------------------------------------------------------------- *)

(** X13.  The create tool once the identity is set.  The description, optional
    in the tool's signature, is required by [ExpenseCreate]: without it
    the tool answers with an error result and stores nothing.  With a
    description it stores one row under the next key, owned by the caller
    and dated with the current time, unless the store refuses the write,
    in which case the refusal is the message of an error result and
    nothing is stored. *)
Theorem tool_create_expenses_outcomes :
  forall (env : Env) (cv : contextvars.ContextVar) (amount : float)
         (category : string) (description : option string) (d : DB),
    truthy_int (contextvars.get cv) = true ->
    (description = None ->
     exists m,
       tool_create_expenses env cv amount category description d
       = (Return (error_dict m), d))
    /\ (forall text m,
           description = Some text -> write_fault d = Some m ->
           tool_create_expenses env cv amount category description d
           = (Return (error_dict m), d))
    /\ (forall text,
           description = Some text -> write_fault d = None ->
           tool_create_expenses env cv amount category description d
           = (Return (mk_ToolDict
                        "success" "Expense stored successfully."
                        (Created (mk_Expense (next_id d) (Some amount) (Some text)
                                             (Some category) (Some (datetime_now env))
                                             (uid_of (contextvars.get cv))))),
              mk_DB (users d)
                    (expenses d
                       ++ [mk_Expense (next_id d) (Some amount) (Some text)
                                      (Some category) (Some (datetime_now env))
                                      (uid_of (contextvars.get cv))])
                    (next_id d + 1) None)).
Proof.
  intros env cv amount category description d Hid.
  unfold tool_create_expenses. rewrite Hid. cbn [negb].
  unfold try_except, bindS, lift, ret, with_session, modify, commit, flush.
  split; [| split].
  - intros ->. cbn. eexists. reflexivity.
  - intros text m -> Hfault. cbn. rewrite Hfault. reflexivity.
  - intros text -> Hfault. cbn. rewrite Hfault. cbn. rewrite ?Hfault. reflexivity.
Qed.

Lemma tool_create_expenses_outcomes_witness :
  exists m,
    tool_create_expenses Sample.env Sample.as_alice 12.5%float "Travel" None Sample.db0
    = (Return (error_dict m), Sample.db0).
Proof.
  destruct (tool_create_expenses_outcomes
              Sample.env Sample.as_alice 12.5%float "Travel" None Sample.db0 eq_refl)
    as [Hmissing _].
  apply Hmissing. reflexivity.
Defined.

(* --------------------------------------------------------------------- *)
(** ** An identity that is not a user of the store                        *)
(* --------------------------------------------------------------------- *)

(** X14.  When the identity slot holds an id under which the store has no user,
    the query, update and delete tools write nothing and never answer
    with a listing or a success: the query tool answers with an error
    text, "Error: User not found." when no date is given; the update tool
    answers, if it answers, with an error result, "User not found." when
    no date is given; the delete tool answers "User not found.". *)
Theorem unknown_user_is_answered_by_an_error :
  forall (env : Env) (cv : contextvars.ContextVar) (d : DB),
    truthy_int (contextvars.get cv) = true ->
    get_user (open d) (uid_of (contextvars.get cv)) = None ->
    (forall category start_date end_date description_keyword,
        exists msg,
          tool_get_expenses env cv category start_date end_date description_keyword d
          = (Return msg, d)
          /\ String.prefix "Error" msg = true)
    /\ (forall category description_keyword,
           tool_get_expenses env cv category None None description_keyword d
           = (Return "Error: User not found.", d))
    /\ (forall category description amount date,
           snd (tool_update_expenses env cv category description amount date d) = d
           /\ forall t,
               fst (tool_update_expenses env cv category description amount date d)
               = Return t ->
               status t = "error")
    /\ (forall category description amount,
           tool_update_expenses env cv category description amount None d
           = (Return (error_dict "User not found."), d))
    /\ (forall category,
           tool_delete_expenses cv category d
           = (Return (error_dict "User not found."), d)).
Proof.
  intros env cv d Hid Huser. split; [| split; [| split; [| split]]].
  - intros category s e k. unfold tool_get_expenses. rewrite Hid. cbn [negb].
    unfold try_except, bindS, lift, ret, with_session, get_state. cbn beta.
    destruct (parse_if_given env s) as [ps | xs]; cbn beta iota;
      [| eexists; split; reflexivity].
    destruct (parse_if_given env e) as [pe | xe]; cbn beta iota;
      [| eexists; split; reflexivity].
    destruct (truthy_str s && is_none ps); cbn beta iota;
      [eexists; split; reflexivity |].
    destruct (truthy_str e && is_none pe); cbn beta iota;
      [eexists; split; reflexivity |].
    match goal with
    | |- context [match ?g with Return _ => _ | Raise _ => _ end] =>
        match g with
        | match ps with _ => _ end => destruct g as [[|] | xg]
        end
    end; cbn beta iota; try (eexists; split; reflexivity).
    rewrite Huser. eexists. split; reflexivity.
  - intros category k. unfold tool_get_expenses. rewrite Hid. cbn [negb].
    unfold try_except, bindS, lift, ret, with_session, get_state. cbn beta iota.
    cbn [parse_if_given truthy_str is_none andb]. rewrite Huser. reflexivity.
  - intros category description amount date.
    destruct (parse_if_given env date) as [parsed | x] eqn:Hparse.
    2:{ unfold tool_update_expenses, try_except, bindS, lift. rewrite Hid, Hparse.
        cbn. split; [reflexivity | intros t Ht; discriminate]. }
    destruct (truthy_str date && is_none parsed) eqn:Hok.
    { unfold tool_update_expenses, try_except, bindS, lift, ret.
      rewrite Hid, Hparse, Hok. cbn. split; [reflexivity |].
      intros t Ht. injection Ht as <-. reflexivity. }
    destruct (formatted_date_of parsed) as [formatted | x] eqn:Hfmt.
    2:{ unfold tool_update_expenses, try_except, bindS, lift.
        rewrite Hid, Hparse, Hok, Hfmt. cbn.
        split; [reflexivity | intros t Ht; discriminate]. }
    rewrite (tool_update_expenses_run env cv category description amount date parsed
                                      formatted d Hid Hparse Hok Hfmt), Huser.
    split; [reflexivity |]. intros t Ht. injection Ht as <-. reflexivity.
  - intros category description amount.
    rewrite (tool_update_expenses_run env cv category description amount None None None d
                                      Hid eq_refl eq_refl eq_refl), Huser.
    reflexivity.
  - intros category. rewrite (tool_delete_expenses_run cv category d Hid), Huser.
    reflexivity.
Qed.

Lemma unknown_user_is_answered_by_an_error_witness :
  tool_delete_expenses (Some (Some 9)) "Travel" Sample.db0
  = (Return (error_dict "User not found."), Sample.db0).
Proof.
  destruct (unknown_user_is_answered_by_an_error
              Sample.env (Some (Some 9)) Sample.db0 eq_refl eq_refl)
    as [_ [_ [_ [_ Hdelete]]]].
  apply Hdelete.
Defined.

(* --------------------------------------------------------------------- *)
(** ** The primary key is kept by every writer                            *)
(* --------------------------------------------------------------------- *)

Lemma keys_after_update_row :
  forall rows obj, map id (update_row rows obj) = map id rows.
Proof.
  intros rows obj. unfold update_row. rewrite map_map. apply map_ext. intros r.
  destruct (id r =? id obj) eqn:E; [| reflexivity].
  apply Z.eqb_eq in E. congruence.
Qed.

Lemma keys_after_updates :
  forall objs rows, map id (fold_left update_row objs rows) = map id rows.
Proof.
  induction objs as [| o objs IH]; intros rows; simpl; [reflexivity |].
  now rewrite IH, keys_after_update_row.
Qed.

Lemma well_formed_by_keys :
  forall us us' rows rows' n w w',
    map id rows' = map id rows ->
    well_formed (mk_DB us rows n w) -> well_formed (mk_DB us' rows' n w').
Proof.
  intros us us' rows rows' n w w' Hk [H1 H2]. cbn [expenses next_id] in *. split.
  - cbn [expenses]. now rewrite Hk.
  - cbn [expenses next_id].
    apply (proj1 (Forall_map id (fun i => i < n) rows')). rewrite Hk.
    now apply (proj2 (Forall_map id (fun i => i < n) rows)).
Qed.

Lemma well_formed_after_filter :
  forall us us' rows n w w' (p : Expense -> bool),
    well_formed (mk_DB us rows n w) -> well_formed (mk_DB us' (filter p rows) n w').
Proof.
  intros us us' rows n w w' p [H1 H2]. cbn [expenses next_id] in *. split.
  - now apply keys_distinct_after_filter.
  - cbn [expenses next_id]. apply Forall_forall. intros r Hr.
    apply filter_In in Hr. rewrite Forall_forall in H2. now apply H2.
Qed.

Lemma well_formed_after_insert :
  forall us us' rows n w w' a b c dt uid,
    well_formed (mk_DB us rows n w) ->
    well_formed (mk_DB us' (rows ++ [mk_Expense n a b c dt uid]) (n + 1) w').
Proof.
  intros us us' rows n w w' a b c dt uid [H1 H2]. cbn [expenses next_id] in *. split.
  - cbn [expenses]. rewrite map_app. apply NoDup_app; [exact H1 | repeat constructor; intros [] |].
    intros i Hi [Heq | []]. cbn in Heq. subst i.
    apply in_map_iff in Hi. destruct Hi as [r [Hr Hin]].
    rewrite Forall_forall in H2. specialize (H2 r Hin). lia.
  - cbn [expenses next_id]. apply Forall_app. split.
    + apply (Forall_impl _ (P := fun r => id r < n)); [intros r Hr; lia | exact H2].
    + repeat constructor. cbn. lia.
Qed.

Lemma well_formed_same :
  forall d, well_formed d -> well_formed (mk_DB (users d) (expenses d) (next_id d)
                                                (write_fault d)).
Proof. intros [us rows n w] H. exact H. Qed.

(** X16.  Distinct ids, all below the next key to assign, is an invariant of
    every function of the controller that writes: whatever a call does
    (return or raise), it hands back a store in which this still
    holds. *)
Theorem controller_keeps_store_well_formed :
  forall (d : DB) (current_user : models_user.User),
    well_formed d ->
    (forall expense_data,
        well_formed (db (snd (create_expense expense_data current_user (open d)))))
    /\ (forall expense_id expense,
           well_formed (db (snd (update_expense expense_id expense current_user
                                                (open d)))))
    /\ (forall expense_id,
           well_formed (db (snd (delete_expense expense_id current_user (open d)))))
    /\ (forall category expense_update,
           well_formed (db (snd (update_expenses_by_category category expense_update
                                                             current_user (open d)))))
    /\ (forall category,
           well_formed (db (snd (delete_expenses_by_category category current_user
                                                             (open d))))).
Proof.
  intros d u Hwf. destruct d as [us rows n w]. split; [| split; [| split; [| split]]].
  - intros c. destruct (create_expense_run c u (mk_DB us rows n w)) as [Hok Hfail].
    cbn [write_fault users expenses next_id] in *.
    destruct w as [m |].
    + rewrite (Hfail m eq_refl). exact Hwf.
    + rewrite (Hok eq_refl). cbn [snd db open]. now apply (well_formed_after_insert us us rows n None None).
  - intros i upd. unfold update_expense, bindS, get_state, throw.
    destruct (get_expense (open (mk_DB us rows n w)) i) as [r |]; [| exact Hwf].
    destruct (negb (user_id r =? models_user.id u)); [exact Hwf |].
    cbv zeta. remember (set_all upd r) as r' eqn:Er'.
    unfold modify, commit_row, commit, lift, flush. cbn.
    destruct (not_null r'); cbn; [| exact Hwf].
    destruct w as [m |]; cbn; [exact Hwf |].
    destruct (from_orm r'); cbn;
      apply (well_formed_by_keys us us rows (update_row rows r') n None None);
      auto using keys_after_update_row.
  - intros i. unfold delete_expense, bindS, get_state, throw.
    destruct (get_expense (open (mk_DB us rows n w)) i) as [r |]; [| exact Hwf].
    destruct (negb (user_id r =? models_user.id u)); [exact Hwf |].
    unfold modify, commit, ret, flush, delete_row. cbn.
    destruct w as [m |]; cbn; [exact Hwf |].
    now apply (well_formed_after_filter us us rows n None None).
  - intros category upd. rewrite update_expenses_by_category_run.
    cbn [expenses users next_id write_fault].
    destruct (filter (in_category category u) rows) as [| m ms]; [exact Hwf |].
    destruct (validate_all (map (set_all upd) (m :: ms))); [| exact Hwf].
    destruct w as [msg |]; [exact Hwf |]. cbn [snd db open].
    apply (well_formed_by_keys us us rows _ n None None); [| exact Hwf].
    apply keys_after_updates.
  - intros category. rewrite delete_expenses_by_category_run.
    cbn [expenses users next_id write_fault].
    destruct (filter (in_category category u) rows) as [| m ms]; [exact Hwf |].
    destruct w as [msg |]; [exact Hwf |]. cbn [snd db open].
    rewrite fold_delete_row.
    now apply (well_formed_after_filter us us rows n None None).
Qed.

Lemma controller_keeps_store_well_formed_witness :
  (forall expense_data,
      well_formed (db (snd (create_expense expense_data Sample.alice
                                           (open Sample.db0)))))
  /\ (forall expense_id expense,
         well_formed (db (snd (update_expense expense_id expense Sample.alice
                                              (open Sample.db0)))))
  /\ (forall expense_id,
         well_formed (db (snd (delete_expense expense_id Sample.alice
                                              (open Sample.db0)))))
  /\ (forall category expense_update,
         well_formed (db (snd (update_expenses_by_category category expense_update
                                                           Sample.alice
                                                           (open Sample.db0)))))
  /\ (forall category,
         well_formed (db (snd (delete_expenses_by_category category Sample.alice
                                                           (open Sample.db0))))).
Proof.
  apply (controller_keeps_store_well_formed Sample.db0 Sample.alice).
  split; [apply sample_keys_distinct | repeat constructor].
Defined.

(* --------------------------------------------------------------------- *)
(** ** Which rows the query tool selects                                  *)
(* --------------------------------------------------------------------- *)

Lemma ilike_contained :
  forall c column,
    wildcard_free c ->
    (Sql.ilike column ("%" +++ c +++ "%") = true
     <-> exists v, column = Some v /\ contains_ci v c).
Proof.
  intros c [v |] Hfree; split.
  - intros H. exists v. split; [reflexivity | now apply contains_of_ilike].
  - intros [v' [Hv Hc]]. injection Hv as <-. now apply ilike_of_contains.
  - intros H. discriminate H.
  - intros [v' [Hv _]]. discriminate Hv.
Qed.

Lemma category_filter_holds :
  forall category r,
    (forall c, category = Some c -> wildcard_free c) ->
    (forallb (fun f => f r) (category_filter category) = true
     <-> text_matches category (models_expense.category r)).
Proof.
  intros [c |] r Hfree; simpl; [| tauto].
  destruct c as [| a c]; simpl; [split; auto |].
  rewrite andb_true_r.
  rewrite (ilike_contained (String a c) (models_expense.category r) (Hfree _ eq_refl)).
  split; [intros H; now right | intros [H | H]; [discriminate H | exact H]].
Qed.

Lemma description_filter_holds :
  forall description_keyword r,
    (forall k, description_keyword = Some k -> wildcard_free k) ->
    (forallb (fun f => f r) (description_filter description_keyword) = true
     <-> text_matches description_keyword (description r)).
Proof.
  intros [c |] r Hfree; simpl; [| tauto].
  destruct c as [| a c]; simpl; [split; auto |].
  rewrite andb_true_r.
  rewrite (ilike_contained (String a c) (description r) (Hfree _ eq_refl)).
  split; [intros H; now right | intros [H | H]; [discriminate H | exact H]].
Qed.

Lemma db_le_wall : forall a b, DT.db_le a b = true <-> wall a <= wall b.
Proof. intros a b. unfold DT.db_le, wall. apply Z.leb_le. Qed.

Lemma date_filter_holds :
  forall a b r,
    forallb (fun f => f r) (date_filter a b) = true <-> in_range a b (date r).
Proof.
  intros [a |] [b |] r; unfold in_range, date_filter, on_date; simpl;
    [| | | tauto]; rewrite andb_true_r.
  - destruct (date r) as [t |]; split.
    + intros H. apply andb_true_iff in H. destruct H as [H1 H2].
      exists t. split; [reflexivity |].
      split; intros x Hx; injection Hx as <-; now apply db_le_wall.
    + intros [t' [Ht [H1 H2]]]. injection Ht as <-. apply andb_true_iff.
      split; apply db_le_wall; auto.
    + intros H. discriminate H.
    + intros [t' [Ht _]]. discriminate Ht.
  - destruct (date r) as [t |]; split.
    + intros H. exists t. split; [reflexivity |].
      split; intros x Hx; [injection Hx as <-; now apply db_le_wall | discriminate Hx].
    + intros [t' [Ht [H1 _]]]. injection Ht as <-. apply db_le_wall. auto.
    + intros H. discriminate H.
    + intros [t' [Ht _]]. discriminate Ht.
  - destruct (date r) as [t |]; split.
    + intros H. exists t. split; [reflexivity |].
      split; intros x Hx; [discriminate Hx | injection Hx as <-; now apply db_le_wall].
    + intros [t' [Ht [_ H2]]]. injection Ht as <-. apply db_le_wall. auto.
    + intros H. discriminate H.
    + intros [t' [Ht _]]. discriminate Ht.
Qed.

(** X17.  The rows the query tool selects, for filters without wildcard
    or escape characters: a row is selected exactly when it is a row of
    the caller,
    its category contains the category filter and its description the
    keyword (letter case ignored; an absent or empty filter holds on
    every row, a given one on no row whose column is NULL), and its date
    lies between the bounds that were given, both bounds included. *)
Theorem query_selection_is_characterised :
  forall (d : DB) (uid : Z) (category description_keyword : option string)
         (parsed_start_date parsed_end_date : option DT.datetime) (r : Expense),
    (forall c, category = Some c -> plain_text c) ->
    (forall k, description_keyword = Some k -> plain_text k) ->
    (In r (select_expenses (open d) uid category description_keyword
                           parsed_start_date parsed_end_date)
     <-> (In r (expenses d)
          /\ user_id r = uid
          /\ text_matches category (models_expense.category r)
          /\ text_matches description_keyword (description r)
          /\ in_range parsed_start_date parsed_end_date (date r))).
Proof.
  intros d uid category k ps pe r Hc Hk.
  unfold select_expenses, exec_select, query_where. cbn [db open].
  rewrite filter_In, andb_true_iff, Z.eqb_eq, !forallb_app, !andb_true_iff.
  rewrite (category_filter_holds category r (fun c H => proj1 (Hc c H))).
  rewrite (description_filter_holds k r (fun c H => proj1 (Hk c H))).
  rewrite (date_filter_holds ps pe r).
  tauto.
Qed.

Lemma query_selection_is_characterised_witness :
  In Sample.flight
     (select_expenses (open Sample.db0) 1 (Some "trav") None
                      (Some (Sample.day 2024 1 1)) (Some (Sample.day 2024 1 5)))
  <-> (In Sample.flight (expenses Sample.db0)
       /\ user_id Sample.flight = 1
       /\ text_matches (Some "trav") (models_expense.category Sample.flight)
       /\ text_matches None (description Sample.flight)
       /\ in_range (Some (Sample.day 2024 1 1)) (Some (Sample.day 2024 1 5))
                   (date Sample.flight)).
Proof.
  apply (query_selection_is_characterised
           Sample.db0 1 (Some "trav") None
           (Some (Sample.day 2024 1 1)) (Some (Sample.day 2024 1 5)) Sample.flight).
  - intros c Hc. injection Hc as <-. split; [repeat constructor; discriminate |].
    intros Hin. simpl in Hin. intuition discriminate.
  - intros k Hk. discriminate Hk.
Defined.

(** X18.  The text of a filter is used as a [LIKE] pattern: a percent sign in
    it stands for any run of characters.  A category filter [a%b]
    selects every row of the caller whose category holds [a] and, later
    on, [b], letter case ignored, whatever stands between them ([a] and
    [b] without backslash). *)
Theorem category_filter_wildcards_are_live :
  forall (d : DB) (uid : Z) (before after : string) (r : Expense) (v : string)
         (pre mid post : list ascii),
    no_escape before ->
    no_escape after ->
    In r (expenses d) ->
    user_id r = uid ->
    models_expense.category r = Some v ->
    lower (list_ascii_of_string v)
    = pre ++ lower (list_ascii_of_string before) ++ mid
          ++ lower (list_ascii_of_string after) ++ post ->
    In r (select_expenses (open d) uid (Some (before +++ "%" +++ after)) None None None).
Proof.
  intros d uid c1 c2 r v pre mid post _ _ Hr Hu Hv Hshape.
  unfold select_expenses, exec_select. apply filter_In. split; [exact Hr |].
  unfold query_where. rewrite Hu, Z.eqb_refl. cbn [andb].
  unfold category_filter.
  assert (Htruthy : truthy_str (Some (c1 +++ "%" +++ c2)) = true)
    by (destruct c1; reflexivity).
  rewrite Htruthy. cbn [app description_filter date_filter forallb].
  rewrite andb_true_r, Hv. unfold Sql.ilike.
  rewrite lower_pattern, Hshape, !list_ascii_of_string_append.
  unfold lower. rewrite !map_app. fold (lower (list_ascii_of_string c1)).
  fold (lower (list_ascii_of_string c2)).
  change (map lower_ascii (list_ascii_of_string "%")) with [Sql.pct].
  apply like_pct_skip. rewrite like_pct_unfold. apply orb_true_iff. left.
  rewrite <- app_assoc. apply like_own_text.
  change ([Sql.pct] ++ lower (list_ascii_of_string c2))
    with (Sql.pct :: lower (list_ascii_of_string c2)).
  cbn [app]. apply like_pct_skip. rewrite like_pct_unfold. apply orb_true_iff. left.
  apply like_own_text. apply like_pct_all.
Qed.

Lemma category_filter_wildcards_are_live_witness :
  In Sample.flight
     (select_expenses (open Sample.db0) 1 (Some ("tr" +++ "%" +++ "l")) None None None).
Proof.
  apply (category_filter_wildcards_are_live
           Sample.db0 1 "tr" "l" Sample.flight "Travel"
           [] (list_ascii_of_string "ave") []);
    try reflexivity;
    try (intros Hin; simpl in Hin; intuition discriminate).
  simpl. now left.
Defined.

(* --------------------------------------------------------------------- *)
(** ** What the endpoint answers                                          *)
(* --------------------------------------------------------------------- *)

Lemma find_all_false :
  forall {A} (p : A -> bool) l, Forall (fun x => p x = false) l -> find p l = None.
Proof.
  intros A p l H. induction H as [| x l Hx Hl IH]; simpl; [reflexivity |].
  now rewrite Hx.
Qed.

Lemma last_ai_message_found :
  forall pre i c t post,
    Forall (fun m => is_ai m = false) post ->
    last_ai_message (pre ++ AIMessage i c t :: post) = Some (AIMessage i c t).
Proof.
  intros pre i c t post Hpost. unfold last_ai_message.
  rewrite rev_app_distr. simpl. rewrite <- app_assoc, find_app_first.
  rewrite find_all_false; [reflexivity |].
  apply Forall_forall. intros m Hm. apply in_rev in Hm.
  rewrite Forall_forall in Hpost. now apply Hpost.
Qed.

Lemma last_ai_message_none :
  forall l, Forall (fun m => is_ai m = false) l -> last_ai_message l = None.
Proof.
  intros l H. unfold last_ai_message. apply find_all_false.
  apply Forall_forall. intros m Hm. apply in_rev in Hm.
  rewrite Forall_forall in H. now apply H.
Qed.

Lemma query_agent_run :
  forall (compiled_graph_invoke : string -> list message -> St World State)
         (request_messages : string) (current_user : models_user.User) (w : World),
    fst (query_agent compiled_graph_invoke request_messages current_user w)
    = match compiled_graph_invoke
              "1" [HumanMessage None request_messages]
              (set_current_user_id w (Some (Some (models_user.id current_user)))) with
      | (Raise e, _) => Raise (HTTPException 500 (str_exn e))
      | (Return st, _) =>
          match messages st with
          | [] => Raise (HTTPException 500 "No messages returned from the agent.")
          | _ :: _ =>
              match last_ai_message (messages st) with
              | None => Raise (HTTPException 500 "No AI message found in the response.")
              | Some assistant_message => Return (content assistant_message)
              end
          end
      end.
Proof.
  intros invoke req u w.
  unfold query_agent, try_except, bindS, try_finally, contextvars.set,
    contextvars.reset; simpl.
  destruct (invoke "1" [HumanMessage None req]
                   (set_current_user_id w (Some (Some (models_user.id u)))))
    as [[st | e] w']; simpl; [| reflexivity].
  destruct (messages st) as [| m ms]; simpl; [reflexivity |].
  destruct (last_ai_message (m :: ms)); reflexivity.
Qed.

(** X19.  What [query_agent] answers.  When the turn raises, the endpoint
    raises HTTP 500 with the text of the exception.  When the turn
    returns, the answer is the content of the last AI message of the
    returned history, whatever follows it; an empty history, or one
    without any AI message, is an HTTP 500 with the matching text.  The
    endpoint raises nothing but HTTP 500. *)
Theorem query_agent_outcomes :
  forall (compiled_graph_invoke : string -> list message -> St World State)
         (request_messages : string) (current_user : models_user.User) (w : World),
    (forall e w',
        compiled_graph_invoke
          "1" [HumanMessage None request_messages]
          (set_current_user_id w (Some (Some (models_user.id current_user))))
        = (Raise e, w') ->
        fst (query_agent compiled_graph_invoke request_messages current_user w)
        = Raise (HTTPException 500 (str_exn e)))
    /\ (forall st w',
           compiled_graph_invoke
             "1" [HumanMessage None request_messages]
             (set_current_user_id w (Some (Some (models_user.id current_user))))
           = (Return st, w') ->
           (messages st = [] ->
            fst (query_agent compiled_graph_invoke request_messages current_user w)
            = Raise (HTTPException 500 "No messages returned from the agent."))
           /\ (forall pre i c t post,
                  messages st = pre ++ AIMessage i c t :: post ->
                  Forall (fun m => is_ai m = false) post ->
                  fst (query_agent compiled_graph_invoke request_messages current_user w)
                  = Return c)
           /\ (messages st <> [] ->
               Forall (fun m => is_ai m = false) (messages st) ->
               fst (query_agent compiled_graph_invoke request_messages current_user w)
               = Raise (HTTPException 500 "No AI message found in the response.")))
    /\ (forall x,
           fst (query_agent compiled_graph_invoke request_messages current_user w)
           = Raise x ->
           is_http 500 x).
Proof.
  intros invoke req u w. rewrite query_agent_run. split; [| split].
  - intros e w' ->. reflexivity.
  - intros st w' ->. split; [| split].
    + intros ->. reflexivity.
    + intros pre i c t post Hst Hpost.
      rewrite Hst, (last_ai_message_found pre i c t post Hpost).
      destruct pre; reflexivity.
    + intros Hne Hnone. rewrite (last_ai_message_none _ Hnone).
      destruct (messages st); [contradiction | reflexivity].
  - intros x.
    destruct (invoke "1" [HumanMessage None req]
                     (set_current_user_id w (Some (Some (models_user.id u)))))
      as [[st | e] w']; [| intros H; injection H as <-; eexists; reflexivity].
    destruct (messages st) as [| m ms];
      [intros H; injection H as <-; eexists; reflexivity |].
    destruct (last_ai_message (m :: ms));
      intros H; [discriminate H | injection H as <-; eexists; reflexivity].
Qed.

Lemma query_agent_outcomes_witness :
  fst (query_agent (replying "You spent $230.00.") "How much did I spend?"
                   Sample.alice (mk_World contextvars.new Sample.db0 []))
  = Return "You spent $230.00.".
Proof.
  destruct (query_agent_outcomes (replying "You spent $230.00.") "How much did I spend?"
                                 Sample.alice (mk_World contextvars.new Sample.db0 []))
    as [_ [Hreturn _]].
  destruct (Hreturn (mk_State [HumanMessage None "How much did I spend?";
                               AIMessage (Some "run-1") "You spent $230.00." []] None)
                    (mk_World (Some (Some 1)) Sample.db0 []) eq_refl)
    as [_ [Hanswer _]].
  apply (Hanswer [HumanMessage None "How much did I spend?"] (Some "run-1")
                 "You spent $230.00." [] []); [reflexivity | constructor].
Defined.

(* --------------------------------------------------------------------- *)
(** ** The assistant step                                                 *)
(* --------------------------------------------------------------------- *)

Lemma filter_all :
  forall {A} (l : list A), filter (fun _ => true) l = l.
Proof. intros A l. induction l as [| a l IH]; simpl; [reflexivity | now rewrite IH]. Qed.

(** X20.  One assistant step.  The model is prompted with a system message (the
    persona, preceded by the running summary when there is one) followed
    by the history; if it raises, the step raises the same exception and
    proposes no update.  Otherwise the update carries the reply alone
    and no summary: written to a state whose messages are identified, a
    reply with an id of its own is appended to the history, which is
    otherwise unchanged and does not receive the system message, and the
    summary stays as it was. *)
Theorem assistant_appends_the_reply :
  forall (llm_with_tools_invoke : list message -> outcome message)
         (sys_msg_content : string) (uuid4 : nat -> string) (state : State),
    (forall e,
        llm_with_tools_invoke
          (SystemMessage None (system_prompt sys_msg_content state) :: messages state)
        = Raise e ->
        assistant llm_with_tools_invoke sys_msg_content state = Raise e)
    /\ (forall response,
           llm_with_tools_invoke
             (SystemMessage None (system_prompt sys_msg_content state) :: messages state)
           = Return response ->
           assistant llm_with_tools_invoke sys_msg_content state
           = Return (mk_Update [response] None)
           /\ (Forall (fun m => message_id m <> None) (messages state) ->
               message_id response <> None ->
               has_id (message_id response) (messages state) = false ->
               is_remove response = false ->
               apply_update uuid4 state (mk_Update [response] None)
               = Return (mk_State (messages state ++ [response]) (summary state)))).
Proof.
  intros llm sys uuid4 state.
  split.
  - intros e He. unfold assistant. cbv zeta.
    unfold system_prompt in He.
    destruct (truthy_str (Some (get_summary state))); now rewrite He.
  - intros response Hr. split.
    + unfold assistant. cbv zeta. unfold system_prompt in Hr.
      destruct (truthy_str (Some (get_summary state))); now rewrite Hr.
    + intros Hids Hid Hfresh Hkeep.
      unfold apply_update, add_messages. cbn [upd_messages upd_summary].
      rewrite (ensure_ids_identified uuid4 (messages state) 0 Hids).
      rewrite (ensure_ids_identified uuid4 [response]);
        [| constructor; [exact Hid | constructor]].
      cbn [merge]. rewrite Hfresh, Hkeep. cbn [existsb negb Py.bind].
      now rewrite filter_all.
Qed.

Lemma assistant_appends_the_reply_witness :
  assistant (Sample.echo_llm "You spent $230.00.") "You track expenses." Sample.seven_plain
  = Return (mk_Update [AIMessage (Some "run-1") "You spent $230.00." []] None)
  /\ apply_update Sample.uuid4 Sample.seven_plain
                  (mk_Update [AIMessage (Some "run-1") "You spent $230.00." []] None)
     = Return (mk_State (messages Sample.seven_plain
                           ++ [AIMessage (Some "run-1") "You spent $230.00." []])
                        (summary Sample.seven_plain)).
Proof.
  destruct (assistant_appends_the_reply
              (Sample.echo_llm "You spent $230.00.") "You track expenses."
              Sample.uuid4 Sample.seven_plain) as [_ Hreply].
  destruct (Hreply (AIMessage (Some "run-1") "You spent $230.00." []) eq_refl)
    as [Hupdate Hwritten].
  split; [exact Hupdate |].
  apply Hwritten; try reflexivity; [repeat constructor; discriminate | discriminate].
Defined.

(** X15.  What holds of a well-formed store holds of the store each tool hands
    back, on every input and on both exits: the ids are distinct and
    below the next key.  And no tool ever changes the users. *)
Theorem tools_keep_the_primary_key_and_the_users :
  forall (env : Env) (cv : contextvars.ContextVar) (d : DB),
    well_formed d ->
    (forall category start_date end_date description_keyword,
        well_formed (snd (tool_get_expenses env cv category start_date end_date
                                            description_keyword d))
        /\ users (snd (tool_get_expenses env cv category start_date end_date
                                         description_keyword d)) = users d)
    /\ (forall amount category description,
           well_formed (snd (tool_create_expenses env cv amount category description d))
           /\ users (snd (tool_create_expenses env cv amount category description d))
              = users d)
    /\ (forall category description amount date,
           well_formed (snd (tool_update_expenses env cv category description amount
                                                  date d))
           /\ users (snd (tool_update_expenses env cv category description amount
                                               date d)) = users d)
    /\ (forall category,
           well_formed (snd (tool_delete_expenses cv category d))
           /\ users (snd (tool_delete_expenses cv category d)) = users d).
Proof.
  intros env cv d Hwf.
  destruct (tools_keep_store_well_formed env cv d Hwf) as [Hget [Hcreate [Hupdate Hdelete]]].
  split; [| split; [| split]].
  - intros c s e k. split; [apply Hget |].
    destruct (tool_get_expenses_answer env cv c s e k d) as [-> _]. reflexivity.
  - intros a c t. split; [apply Hcreate |].
    destruct (tool_create_expenses_cases env cv a c t d)
      as [[x [-> _]] | [text [_ [_ [_ ->]]]]]; reflexivity.
  - intros c t a dt. split; [apply Hupdate |].
    destruct (tool_update_expenses_cases env cv c t a dt d)
      as [[-> _] | [u [upd [l [_ [_ [_ [_ ->]]]]]]]]; reflexivity.
  - intros c. split; [apply Hdelete |].
    destruct (tool_delete_expenses_cases cv c d)
      as [[-> _] | [u [text [_ [_ [_ ->]]]]]]; reflexivity.
Qed.

Lemma tools_keep_the_primary_key_and_the_users_witness :
  (forall category start_date end_date description_keyword,
      well_formed (snd (tool_get_expenses Sample.env Sample.as_alice category start_date
                                          end_date description_keyword Sample.db0))
      /\ users (snd (tool_get_expenses Sample.env Sample.as_alice category start_date
                                       end_date description_keyword Sample.db0))
         = users Sample.db0)
  /\ (forall amount category description,
         well_formed (snd (tool_create_expenses Sample.env Sample.as_alice amount category
                                                description Sample.db0))
         /\ users (snd (tool_create_expenses Sample.env Sample.as_alice amount category
                                             description Sample.db0))
            = users Sample.db0)
  /\ (forall category description amount date,
         well_formed (snd (tool_update_expenses Sample.env Sample.as_alice category
                                                description amount date Sample.db0))
         /\ users (snd (tool_update_expenses Sample.env Sample.as_alice category
                                             description amount date Sample.db0))
            = users Sample.db0)
  /\ (forall category,
         well_formed (snd (tool_delete_expenses Sample.as_alice category Sample.db0))
         /\ users (snd (tool_delete_expenses Sample.as_alice category Sample.db0))
            = users Sample.db0).
Proof.
  apply (tools_keep_the_primary_key_and_the_users Sample.env Sample.as_alice Sample.db0).
  split; [apply sample_keys_distinct | repeat constructor].
Defined.

(* --------------------------------------------------------------------- *)
(** ** Exceptions inside the query tool                                   *)
(* --------------------------------------------------------------------- *)

(** X21.  Once the identity is set, what is raised inside the query tool before
    the store is opened comes back as the text "Error retrieving
    expenses: " followed by the message: so for an exception raised by
    the date parser, and so for two bounds one of which carries a time
    zone while the other does not, whose comparison Python refuses.  The
    store is not read. *)
Theorem query_exceptions_become_error_texts :
  forall (env : Env) (cv : contextvars.ContextVar)
         (category start_date end_date description_keyword : option string) (d : DB),
    truthy_int (contextvars.get cv) = true ->
    (forall x,
        parse_if_given env start_date = Raise x ->
        tool_get_expenses env cv category start_date end_date description_keyword d
        = (Return ("Error retrieving expenses: " +++ str_exn x), d))
    /\ (forall ps x,
           parse_if_given env start_date = Return ps ->
           parse_if_given env end_date = Raise x ->
           tool_get_expenses env cv category start_date end_date description_keyword d
           = (Return ("Error retrieving expenses: " +++ str_exn x), d))
    /\ (forall a b,
           parse_if_given env start_date = Return (Some a) ->
           parse_if_given env end_date = Return (Some b) ->
           is_none (DT.tzinfo a) = negb (is_none (DT.tzinfo b)) ->
           tool_get_expenses env cv category start_date end_date description_keyword d
           = (Return ("Error retrieving expenses: "
                        +++ "can't compare offset-naive and offset-aware datetimes"), d)).
Proof.
  intros env cv category s e k d Hid. split; [| split].
  - intros x Hps. unfold tool_get_expenses, try_except, bindS, lift.
    rewrite Hid, Hps. reflexivity.
  - intros ps x Hps Hpe. unfold tool_get_expenses, try_except, bindS, lift.
    rewrite Hid, Hps, Hpe. reflexivity.
  - intros a b Hps Hpe Hmix. unfold tool_get_expenses, try_except, bindS, lift.
    rewrite Hid, Hps, Hpe. cbn [negb is_none]. rewrite !andb_false_r.
    unfold DT.gt.
    destruct (DT.tzinfo a), (DT.tzinfo b); try discriminate Hmix; reflexivity.
Qed.

Lemma query_exceptions_become_error_texts_witness :
  tool_get_expenses
    (mk_Env (fun s => if String.eqb s "1 January 2024 UTC"
                      then Return (Some (DT.mk_datetime 2024 1 1 0 0 0 0 (Some 0)))
                      else Return (Some (Sample.day 2024 1 25)))
            (Sample.day 2024 3 5))
    Sample.as_alice None (Some "1 January 2024 UTC") (Some "25 January 2024") None
    Sample.db0
  = (Return ("Error retrieving expenses: "
               +++ "can't compare offset-naive and offset-aware datetimes"), Sample.db0).
Proof.
  destruct (query_exceptions_become_error_texts
              (mk_Env (fun s => if String.eqb s "1 January 2024 UTC"
                                then Return (Some (DT.mk_datetime 2024 1 1 0 0 0 0 (Some 0)))
                                else Return (Some (Sample.day 2024 1 25)))
                      (Sample.day 2024 3 5))
              Sample.as_alice None (Some "1 January 2024 UTC") (Some "25 January 2024")
              None Sample.db0 eq_refl) as [_ [_ Hmixed]].
  apply (Hmixed (DT.mk_datetime 2024 1 1 0 0 0 0 (Some 0)) (Sample.day 2024 1 25));
    reflexivity.
Defined.

(* --------------------------------------------------------------------- *)
(** ** The listings on the sample store                                   *)
(* --------------------------------------------------------------------- *)

Lemma get_expenses_lists_the_callers_rows_witness :
  map d_id [in_db 1 "Flight" 200%float "Travel" (Sample.day 2024 1 5) 1;
            in_db 2 "Lunch" 30%float "food" (Sample.day 2024 1 10) 1]
  = map id (rows_of (models_user.id Sample.alice) (db (open Sample.db0)))
  /\ Forall (fun v => d_user_id v = models_user.id Sample.alice)
            [in_db 1 "Flight" 200%float "Travel" (Sample.day 2024 1 5) 1;
             in_db 2 "Lunch" 30%float "food" (Sample.day 2024 1 10) 1].
Proof.
  destruct (get_expenses_lists_the_callers_rows Sample.alice (open Sample.db0))
    as [_ [Hlisted _]].
  apply Hlisted. reflexivity.
Defined.

Lemma get_expenses_by_category_is_exact_witness :
  map d_id [in_db 1 "Flight" 200%float "Travel" (Sample.day 2024 1 5) 1]
  = map id (filter (in_category "Travel" Sample.alice) (expenses (db (open Sample.db0))))
  /\ Forall (fun v => d_category v = "Travel"
                      /\ d_user_id v = models_user.id Sample.alice)
            [in_db 1 "Flight" 200%float "Travel" (Sample.day 2024 1 5) 1].
Proof.
  destruct (get_expenses_by_category_is_exact "Travel" Sample.alice (open Sample.db0))
    as [_ [Hlisted _]].
  apply Hlisted. reflexivity.
Defined.

(* --------------------------------------------------------------------- *)
(** ** The summary step bounds the history                                *)
(* --------------------------------------------------------------------- *)

Lemma removals_written :
  forall (uuid4 : nat -> string) (state : State) (k : nat) (s : option string),
    Forall (fun m => message_id m <> None) (messages state) ->
    NoDup (map message_id (messages state)) ->
    apply_update uuid4 state
                 (mk_Update (map (fun m => RemoveMessage (message_id m))
                                 (firstn k (messages state))) s)
    = Return (mk_State (skipn k (messages state))
                       match s with Some x => Some x | None => summary state end).
Proof.
  intros uuid4 state k s Hids Hnd.
  unfold apply_update, add_messages; simpl.
  rewrite (ensure_ids_identified uuid4 (messages state) 0 Hids).
  rewrite ensure_ids_identified.
  2:{ apply Forall_forall. intros m Hm. apply in_map_iff in Hm.
      destruct Hm as [x [Hx Hin]]. subst m. simpl.
      rewrite Forall_forall in Hids. apply Hids.
      now apply (in_firstn k (messages state)). }
  rewrite <- (map_map message_id RemoveMessage).
  rewrite merge_removals.
  2:{ intros i Hi. apply in_map_iff in Hi. destruct Hi as [x [Hx Hin]]. subst i.
      apply in_map. now apply (in_firstn k (messages state)). }
  simpl. rewrite app_nil_r.
  rewrite <- (@filter_drops_prefix_ids (messages state) k Hnd).
  f_equal. f_equal. apply filter_ext. intros m. f_equal.
  apply eq_true_iff_eq. rewrite !existsb_id_in. now rewrite <- in_rev.
Qed.

(** X22.  Whatever the length of the history, a summary step that succeeds
    leaves at most two messages, which are the end of the history it
    started from; on that state the routing function [should_continue]
    answers the end of the turn, so the step is not scheduled again
    before the history has grown past six.  A history of at most two
    messages is left as it is. *)
Theorem summarization_bounds_the_history :
  forall (llm_with_tools_invoke : list message -> outcome message)
         (uuid4 : nat -> string) (state : State) (update : Update),
    Forall (fun m => message_id m <> None) (messages state) ->
    NoDup (map message_id (messages state)) ->
    summarize_conversation llm_with_tools_invoke state = Return update ->
    exists state',
      apply_update uuid4 state update = Return state'
      /\ (List.length (messages state') <= 2)%nat
      /\ (exists dropped, messages state = dropped ++ messages state')
      /\ should_continue state' = Return END_
      /\ ((List.length (messages state) <= 2)%nat -> messages state' = messages state).
Proof.
  intros llm uuid4 state update Hids Hnd Hrun.
  unfold summarize_conversation in Hrun.
  match type of Hrun with
  | (_ <- ?call ;; _) = _ => destruct call as [response | e]
  end; simpl in Hrun; [| discriminate].
  injection Hrun as <-. unfold all_but_last_two.
  set (k := (List.length (messages state) - 2)%nat).
  rewrite (removals_written uuid4 state k (Some (content response)) Hids Hnd).
  eexists. split; [reflexivity |]. cbn [messages].
  assert (Hlen : (List.length (skipn k (messages state)) <= 2)%nat)
    by (rewrite length_skipn; subst k; lia).
  split; [exact Hlen |]. split; [| split].
  - exists (firstn k (messages state)). symmetry. apply firstn_skipn.
  - unfold should_continue. cbn [messages].
    destruct (6 <? List.length (skipn k (messages state)))%nat eqn:E; [| reflexivity].
    apply Nat.ltb_lt in E. lia.
  - intros Hshort. replace k with 0%nat by (subst k; lia). reflexivity.
Qed.

Lemma summarization_bounds_the_history_witness :
  exists state',
    apply_update Sample.uuid4 Sample.seven_plain
                 (mk_Update [RemoveMessage (Some "m1"); RemoveMessage (Some "m2");
                             RemoveMessage (Some "m3"); RemoveMessage (Some "m4");
                             RemoveMessage (Some "m5")]
                            (Some "Totals so far: $230.00."))
    = Return state'
    /\ (List.length (messages state') <= 2)%nat
    /\ (exists dropped, messages Sample.seven_plain = dropped ++ messages state')
    /\ should_continue state' = Return END_
    /\ ((List.length (messages Sample.seven_plain) <= 2)%nat ->
        messages state' = messages Sample.seven_plain).
Proof.
  apply (summarization_bounds_the_history
           (Sample.echo_llm "Totals so far: $230.00.") Sample.uuid4 Sample.seven_plain).
  - repeat constructor; discriminate.
  - repeat constructor; simpl; intuition discriminate.
  - reflexivity.
Defined.
